(** * Operational-research teaching demos: a shallow embedding

    The repository holds three scripts (production planning by linear
    programming, network flows, transportation problems).  Each script
    builds a small model, hands it to an external solver (PuLP with CBC,
    NetworkX), stores derived figures in [self.results], draws one chart
    file and prints a report.

    The embedding follows that shape:
    - Python numbers are exact: integers are [Z], everything that passes
      through a division or the LP solver is [Q];
    - a method of a demo class is a computation in a small monad that
      threads the object's state, records the observable events (solver
      calls, chart file, modelled console lines) and may raise a Python
      exception;
    - the external solvers are function arguments; theorems that depend on
      what they return state the solver's contract as a hypothesis.

    Narrative console output and chart styling are not modelled; the
    console lines that carry a guard warning, a utilisation figure or a
    sensitivity result are ([EvVariant] is the line that reports one
    percentage variant: the change, the new objective and its delta),
    and so are the closing lines of each [main], which print what the
    solves returned. *)

From Stdlib Require Import ZArith QArith Lqa Lia List String.
From stdpp Require Import gmap strings list fin_maps pretty.

Local Open Scope string_scope.
Local Open Scope list_scope.

(** ** Python values and exceptions *)

Inductive PyExc : Type :=
| ZeroDivisionError
| IndexError
| KeyError
| ValueError
| NetworkXError.

Inductive result (A : Type) : Type :=
| Ok (a : A)
| Raise (e : PyExc).
Arguments Ok {A} a.
Arguments Raise {A} e.

#[global] Instance result_ret : MRet result := fun A a => Ok a.
#[global] Instance result_bind : MBind result := fun A B k m =>
  match m with
  | Ok a => k a
  | Raise e => Raise e
  end.

(** [l[i]] for a non-negative index: Python raises IndexError out of range. *)
Definition py_index {A : Type} (l : list A) (i : nat) : result A :=
  match l !! i with
  | Some v => Ok v
  | None => Raise IndexError
  end.

(** [a / b] on numbers: Python raises ZeroDivisionError when [b] is zero. *)
Definition py_div (a b : Q) : result Q :=
  if Qeq_bool b 0 then Raise ZeroDivisionError else Ok (a / b)%Q.

(** [a > b] on numbers *)
Definition py_gt (a b : Q) : bool := negb (Qle_bool a b).

(** [max(l)] of a non-empty list [v :: vs]: the first of the largest *)
Definition py_max (v : Q) (vs : list Q) : Q :=
  fold_left (fun m w => if py_gt w m then w else m) vs v.

(** [sum(l)]: left to right from 0. *)
Definition py_sum (l : list Q) : Q := fold_left Qplus l 0%Q.
Definition py_sumZ (l : list Z) : Z := fold_left Z.add l 0%Z.

(** [[f(i) for i in range(n)]] where [f] may raise. *)
Fixpoint map_result {A B : Type} (f : A -> result B) (l : list A) : result (list B) :=
  match l with
  | [] => Ok []
  | x :: l' =>
      match f x with
      | Ok y =>
          match map_result f l' with
          | Ok ys => Ok (y :: ys)
          | Raise e => Raise e
          end
      | Raise e => Raise e
      end
  end.

(** [enumerate(l)] *)
Definition enumerate {A : Type} (l : list A) : list (nat * A) :=
  combine (seq 0 (length l)) l.

(** ** PuLP models *)

Module Pulp.

Inductive LpSense : Type := LpMinimize | LpMaximize.
Inductive LpCmp : Type := LpConstraintLE | LpConstraintGE | LpConstraintEQ.

Record LpVariable : Type := mkVar {
  name : string;
  lowBound : option Q;
  upBound : option Q
}.

(** A linear expression: coefficient and variable name of each term. *)
Definition LpAffineExpression : Type := list (Q * string).

Record LpConstraint : Type := mkConstraint {
  lhs : LpAffineExpression;
  cmp : LpCmp;
  rhs : Q
}.

Record LpProblem : Type := mkProblem {
  pname : string;
  sense : LpSense;
  variables : list LpVariable;
  objective : LpAffineExpression;
  constraints : list LpConstraint
}.

(** [pulp.LpProblem(name, sense)] *)
Definition new_problem (n : string) (s : LpSense) (xs : list LpVariable) : LpProblem :=
  mkProblem n s xs [] [].

(** [prob += expr] *)
Definition set_objective (p : LpProblem) (e : LpAffineExpression) : LpProblem :=
  mkProblem (pname p) (sense p) (variables p) e (constraints p).

(** [prob += (expr <= rhs)] and its two siblings *)
Definition add_constraint (p : LpProblem) (c : LpConstraint) : LpProblem :=
  mkProblem (pname p) (sense p) (variables p) (objective p) (constraints p ++ [c]).

Definition add_constraints (p : LpProblem) (cs : list LpConstraint) : LpProblem :=
  fold_left add_constraint cs p.

(** [pulp.lpSum([c * x for ...])] *)
Definition lpSum (terms : list (Q * LpVariable)) : LpAffineExpression :=
  map (fun t => (fst t, name (snd t))) terms.

(** What the solver writes back: a value for every variable name. *)
Definition assignment : Type := string -> Q.
Definition Solver : Type := LpProblem -> assignment.

(** [pulp.value(expr)] *)
Definition value (a : assignment) (e : LpAffineExpression) : Q :=
  fold_right (fun t acc => (fst t * a (snd t) + acc)%Q) 0%Q e.

Definition holds (a : assignment) (c : LpConstraint) : Prop :=
  match cmp c with
  | LpConstraintLE => (value a (lhs c) <= rhs c)%Q
  | LpConstraintGE => (rhs c <= value a (lhs c))%Q
  | LpConstraintEQ => (value a (lhs c) == rhs c)%Q
  end.

Definition in_bounds (a : assignment) (v : LpVariable) : Prop :=
  match lowBound v with Some l => (l <= a (name v))%Q | None => True end /\
  match upBound v with Some u => (a (name v) <= u)%Q | None => True end.

Definition feasible (p : LpProblem) (a : assignment) : Prop :=
  Forall (in_bounds a) (variables p) /\ Forall (holds a) (constraints p).

Definition better (s : LpSense) (v w : Q) : Prop :=
  match s with
  | LpMaximize => (w <= v)%Q
  | LpMinimize => (v <= w)%Q
  end.

(** The contract of a solve that ends with status Optimal. *)
Definition optimal (p : LpProblem) (a : assignment) : Prop :=
  feasible p a /\
  forall b, feasible p b -> better (sense p) (value a (objective p)) (value b (objective p)).

(** [v] is the optimum of [p], whoever computes it. *)
Definition optimum_value (p : LpProblem) (v : Q) : Prop :=
  (exists a, feasible p a /\ (value a (objective p) == v)%Q) /\
  forall b, feasible p b -> better (sense p) v (value b (objective p)).

End Pulp.
Import Pulp.

(** ** Observable events and the method monad *)

Inductive event : Type :=
| EvPrint (line : string) (args : list Q)
| EvVariant (change : Z) (new_value delta : Q)
| EvSolve (p : LpProblem)
| EvGraph (routine : string)
| EvMetric (routine : string)
| EvPlot (title : string) (bars : list Q)
| EvSaveFig (file : string).

Definition Run (S A : Type) : Type := S -> list event * S * result A.

#[global] Instance Run_ret {S} : MRet (Run S) := fun A a s => ([], s, Ok a).
#[global] Instance Run_bind {S} : MBind (Run S) := fun A B k m s =>
  match m s with
  | (t1, s1, Ok a) =>
      match k a s1 with
      | (t2, s2, r) => (t1 ++ t2, s2, r)
      end
  | (t1, s1, Raise e) => (t1, s1, Raise e)
  end.

Definition emit {S} (e : event) : Run S unit := fun s => ([e], s, Ok tt).
Definition get {S} : Run S S := fun s => ([], s, Ok s).
Definition lift {S A} (r : result A) : Run S A := fun s => ([], s, r).

(** [for x in l: body(x)] *)
Fixpoint for_each {S A} (l : list A) (body : A -> Run S unit) : Run S unit :=
  match l with
  | [] => mret tt
  | x :: l' => body x ;; for_each l' body
  end.

Definition trace_of {S A} (o : list event * S * result A) : list event := fst (fst o).
Definition state_of {S A} (o : list event * S * result A) : S := snd (fst o).
Definition value_of {S A} (o : list event * S * result A) : result A := snd o.

(** A solver invocation: an LP solve, or a graph routine that solves one of
    the run's problems.  [EvMetric] is a descriptive graph statistic. *)
Definition is_solve (e : event) : bool :=
  match e with EvSolve _ | EvGraph _ => true | _ => false end.
Definition is_savefig (e : event) : bool :=
  match e with EvSaveFig _ => true | _ => false end.

Definition solved_models (t : list event) : list LpProblem :=
  omap (fun e => match e with EvSolve p => Some p | _ => None end) t.

(** Is every reported variant backed by a solve of its own, the event just
    before it? *)
Fixpoint resolved (after_solve : bool) (t : list event) : bool :=
  match t with
  | [] => true
  | EvVariant _ _ _ :: t' => after_solve && resolved false t'
  | EvSolve _ :: t' => resolved true t'
  | _ :: t' => resolved false t'
  end.

Definition variants (t : list event) : list (Z * Q * Q) :=
  omap (fun e => match e with EvVariant c v d => Some (c, v, d) | _ => None end) t.

(** Is the chart file written at most once, and no solver invoked after
    the write?  [written] tells whether a write has been seen already. *)
Fixpoint chart_after_solves (written : bool) (t : list event) : bool :=
  match t with
  | [] => true
  | e :: t' =>
      if is_solve e then negb written && chart_after_solves written t'
      else if is_savefig e then negb written && chart_after_solves true t'
      else chart_after_solves written t'
  end.

Definition charts (t : list event) : list string :=
  omap (fun e => match e with EvSaveFig f => Some f | _ => None end) t.

(** What a part of a run may emit: [no_chart] before the chart is due,
    [quiet] after it. *)
Definition no_chart (e : event) : Prop := is_savefig e = false.
Definition quiet (e : event) : Prop := is_solve e = false /\ is_savefig e = false.

Definition emits {S A} (P : event -> Prop) (m : Run S A) : Prop :=
  forall s, Forall P (trace_of (m s)).

(** The outcome of a run that writes the chart [f] once, after its last
    solver invocation, unless an exception ends it before the write. *)
Definition chart_once {S A} (f : string) (o : list event * S * result A) : Prop :=
  chart_after_solves false (trace_of o) = true /\
  (charts (trace_of o) = [f] \/
   (charts (trace_of o) = [] /\ exists e, value_of o = Raise e)).

(** A guarded method that only warns: one line, no result, same state. *)
Definition warns_only {S} (w : string) (m : Run S unit) (s : S) : Prop :=
  m s = ([EvPrint w []], s, Ok tt).

(** The warning every guarded method prints. *)
Definition warn_solve_first : string := "⚠️ 请先运行求解方法".

(** ** 线性规划/linear_programming_demo.py *)

Module LinearProgrammingDemo.

(** The problem data of [solve_production_planning] (lines 70-79).  The
    method has them as local constants; they are gathered in a record so
    that statements can range over scenarios. *)
Record ProductionData : Type := mkData {
  d_products : list string;
  d_profit : list Q;
  d_labor_req : list Q;
  d_material_req : list Q;
  d_labor_available : Q;
  d_material_available : Q
}.

Definition demo_data : ProductionData :=
  mkData ["产品A"; "产品B"; "产品C"]
         [40; 30; 50]%Q [2; 1; 3]%Q [1; 2; 1]%Q 100%Q 80%Q.

(** [self.results].  [profit] is the one list that a later method aliases
    and copies, so it is a reference into the store of list objects; the
    lists that are never written after creation are carried by value. *)
Record Results : Type := mkResults {
  products : list string;
  solution : list Q;
  profit : nat;
  max_profit : Q;
  labor_used : Q;
  material_used : Q;
  labor_available : Q;
  material_available : Q;
  labor_req : list Q;
  material_req : list Q
}.

Record State : Type := mkState {
  heap : gmap nat (list Q);
  results : option Results
}.

(** [__init__]: [self.results = {}] *)
Definition init : State := mkState ∅ None.

(** *** The store of list objects *)

Definition alloc (l : list Q) : Run State nat := fun s =>
  let r := fresh (dom (heap s)) in
  ([], mkState (<[r := l]> (heap s)) (results s), Ok r).

Definition load (r : nat) : Run State (list Q) := fun s =>
  match heap s !! r with
  | Some l => ([], s, Ok l)
  | None => ([], s, Raise KeyError)
  end.

(** [l[i] = v] on the list object at [r] *)
Definition store_at (r : nat) (i : nat) (v : Q) : Run State unit := fun s =>
  match heap s !! r with
  | Some l =>
      if decide (i < length l)%nat
      then ([], mkState (<[r := <[i := v]> l]> (heap s)) (results s), Ok tt)
      else ([], s, Raise IndexError)
  | None => ([], s, Raise KeyError)
  end.

(** [l.copy()] *)
Definition copy (r : nat) : Run State nat :=
  l ← load r; alloc l.

Definition set_results (r : Results) : Run State unit := fun s =>
  ([], mkState (heap s) (Some r), Ok tt).

(** *** The model (lines 89-101 and 265-275) *)

Definition x_name (i : nat) : string := "x" +:+ pretty i.

(** [[pulp.LpVariable(f"x{i}", lowBound=0) for i in range(3)]] *)
Definition x : list LpVariable :=
  map (fun i => mkVar (x_name i) (Some 0%Q) None) (seq 0 3).

(** [pulp.lpSum([coef[i] * x[i] for i in range(3)])] *)
Definition weighted (coef : list Q) : result LpAffineExpression :=
  terms ← map_result (fun i => c ← py_index coef i; v ← py_index x i; Ok (c, v)) (seq 0 3);
  Ok (lpSum terms).

Definition production_model (n : string) (profits labor material : list Q)
    (labor_cap material_cap : Q) : result LpProblem :=
  let prob := new_problem n LpMaximize x in
  obj ← weighted profits;
  let prob := set_objective prob obj in
  e1 ← weighted labor;
  let prob := add_constraint prob (mkConstraint e1 LpConstraintLE labor_cap) in
  e2 ← weighted material;
  let prob := add_constraint prob (mkConstraint e2 LpConstraintLE material_cap) in
  Ok prob.

(** The model that [solve_production_planning] hands to the solver. *)
Definition model_of (d : ProductionData) : result LpProblem :=
  production_model "生产计划" (d_profit d) (d_labor_req d) (d_material_req d)
    (d_labor_available d) (d_material_available d).

(** [sum(req[i] * solution[i] for i in range(3))] *)
Definition used (req sol : list Q) : result Q :=
  ts ← map_result (fun i => r ← py_index req i; s ← py_index sol i; Ok (r * s)%Q) (seq 0 3);
  Ok (py_sum ts).

(** [used / available * 100] *)
Definition utilization (consumed available : Q) : result Q :=
  q ← py_div consumed available; Ok (q * 100)%Q.

(** *** [solve_production_planning] *)

Definition solve_production_planning_on (d : ProductionData) (solver : Solver)
    : Run State (list Q * Q) :=
  profit_ref ← alloc (d_profit d);
  profit_list ← load profit_ref;
  prob ← lift (production_model "生产计划" profit_list (d_labor_req d) (d_material_req d)
                 (d_labor_available d) (d_material_available d));
  emit (EvSolve prob);;
  let a := solver prob in
  sol ← lift (map_result (fun i => v ← py_index x i; Ok (a (name v))) (seq 0 3));
  let best := value a (objective prob) in
  l_used ← lift (used (d_labor_req d) sol);
  m_used ← lift (used (d_material_req d) sol);
  l_util ← lift (utilization l_used (d_labor_available d));
  emit (EvPrint "  劳动力" [l_used; d_labor_available d; l_util]);;
  m_util ← lift (utilization m_used (d_material_available d));
  emit (EvPrint "  原材料" [m_used; d_material_available d; m_util]);;
  set_results (mkResults (d_products d) sol profit_ref best l_used m_used
                 (d_labor_available d) (d_material_available d)
                 (d_labor_req d) (d_material_req d));;
  mret (sol, best).

Definition solve_production_planning : Solver -> Run State (list Q * Q) :=
  solve_production_planning_on demo_data.

(** *** [visualize_results] *)

Definition chart_file : string := "linear_programming_results.png".

Definition visualize_results : Run State unit :=
  s ← get;
  match results s with
  | None => emit (EvPrint warn_solve_first [])
  | Some r =>
      u1 ← lift (utilization (labor_used r) (labor_available r));
      u2 ← lift (utilization (material_used r) (material_available r));
      emit (EvPlot "资源利用率分析" [u1; u2]);;
      emit (EvSaveFig chart_file);;
      emit (EvPrint "✅ 可视化图表已保存" [])
  end.

(** *** [sensitivity_analysis] *)

Definition changes : list Z := [-20; -10; 10; 20]%Z.

(** One turn of the inner loop (lines 262-281): the new coefficient, a
    new problem, a copy of the profit list with one entry replaced, the
    solve and the printed line. *)
Definition variant_step (solver : Solver) (r : Results) (i : nat) (change : Z)
    : Run State unit :=
  base ← load (profit r);
  b ← lift (py_index base i);
  let new_profit := (b * (1 + inject_Z change / 100))%Q in
  modified_profits ← copy (profit r);
  store_at modified_profits i new_profit;;
  modified ← load modified_profits;
  prob ← lift (production_model "敏感性分析" modified (labor_req r) (material_req r)
                 (labor_available r) (material_available r));
  emit (EvSolve prob);;
  let new_max_profit := value (solver prob) (objective prob) in
  emit (EvVariant change new_max_profit (new_max_profit - max_profit r)%Q).

Definition sensitivity_analysis (solver : Solver) : Run State unit :=
  s ← get;
  match results s with
  | None => emit (EvPrint warn_solve_first [])
  | Some r =>
      for_each (enumerate (products r)) (fun ip =>
        for_each changes (variant_step solver r (fst ip)))
  end.

(** *** [generate_report] *)

Definition generate_report : Run State unit :=
  s ← get;
  match results s with
  | None => emit (EvPrint warn_solve_first [])
  | Some r =>
      emit (EvPrint "  • 最大利润" [max_profit r]);;
      labor_util ← lift (utilization (labor_used r) (labor_available r));
      material_util ← lift (utilization (material_used r) (material_available r));
      emit (EvPrint "  • 劳动力利用率" [labor_util]);;
      emit (EvPrint "  • 原材料利用率" [material_util])
  end.

(** *** [main]

    [main] returns nothing; its last two lines print the solution and
    the profit that the baseline solve returned. *)

Definition main (solver : Solver) : Run State unit :=
  sm ← solve_production_planning solver;
  visualize_results;;
  sensitivity_analysis solver;;
  generate_report;;
  emit (EvPrint "最优解" (fst sm));;
  emit (EvPrint "最大利润" [snd sm]).

End LinearProgrammingDemo.

(** ** NetworkX graphs *)

Module NetworkX.

(** A graph with one numeric attribute per edge (['capacity'] on the flow
    network, ['weight'] on the road network).  The ['flow'] attribute
    that [solve_max_flow_problem] sets to 0 on every edge is never read. *)
Record Graph : Type := mkGraph {
  directed : bool;
  nodes : list string;
  edges : list (string * string * Z)
}.

(** [nx.DiGraph()] and [nx.Graph()] *)
Definition DiGraph : Graph := mkGraph true [] [].
Definition UGraph : Graph := mkGraph false [] [].

Definition add_node (g : Graph) (n : string) : Graph :=
  if bool_decide (n ∈ nodes g) then g
  else mkGraph (directed g) (nodes g ++ [n]) (edges g).

Definition add_nodes_from (g : Graph) (ns : list string) : Graph :=
  fold_left add_node ns g.

(** Does the stored edge [e] connect [u] to [v]? *)
Definition joins (g : Graph) (u v : string) (e : string * string * Z) : bool :=
  (bool_decide (fst (fst e) = u) && bool_decide (snd (fst e) = v))
  || (negb (directed g) && bool_decide (fst (fst e) = v) && bool_decide (snd (fst e) = u)).

(** [G.add_edge(u, v, attr=w)]: a second call on the same edge overwrites. *)
Definition add_edge (g : Graph) (u v : string) (w : Z) : Graph :=
  let g := add_node (add_node g u) v in
  if existsb (joins g u v) (edges g)
  then mkGraph (directed g) (nodes g)
         (map (fun e => if joins g u v e then (fst e, w) else e) (edges g))
  else mkGraph (directed g) (nodes g) (edges g ++ [(u, v, w)]).

(** [G[u][v][attr]] *)
Definition edge_attr (g : Graph) (u v : string) : result Z :=
  match filter (fun e => joins g u v e = true) (edges g) with
  | e :: _ => Ok (snd e)
  | [] => Raise KeyError
  end.

(** [G.edges()] *)
Definition edge_list (g : Graph) : list (string * string) := map fst (edges g).

(** [G[u]]: the neighbours of [u], with the edge attribute *)
Definition adj (g : Graph) (u : string) : list (string * Z) :=
  flat_map (fun e =>
    if bool_decide (fst (fst e) = u) then [(snd (fst e), snd e)]
    else if negb (directed g) && bool_decide (snd (fst e) = u) then [(fst (fst e), snd e)]
    else []) (edges g).

(** A dict of dicts, as [nx.maximum_flow] returns it. *)
Definition flow_dict : Type := list (string * list (string * Z)).

Definition dict_get {V : Type} (d : list (string * V)) (k : string) : result V :=
  match filter (fun kv => bool_decide (fst kv = k)) d with
  | kv :: _ => Ok (snd kv)
  | [] => Raise KeyError
  end.

(** The drawing routines, which both the network script and the chart of
    the transportation script call, look up the position of every node
    they draw: [nx.draw_networkx_nodes(G, pos, nodelist=ns)] raises
    NetworkXError for a node of [ns] that has no position,
    [nx.draw_networkx_labels(G, pos)] and [nx.draw_networkx_edges(G, pos,
    edgelist)] raise KeyError. *)
Definition positions : Type := list (string * (Q * Q)).

Definition draw_networkx_nodes (pos : positions) (nodelist : list string) : result unit :=
  if forallb (fun n => bool_decide (n ∈ map fst pos)) nodelist then Ok tt
  else Raise NetworkXError.

Definition draw_networkx_labels (node_list : list string) (pos : positions) : result unit :=
  map_result (dict_get pos) node_list;; Ok tt.

Definition draw_networkx_edges (pos : positions) (edgelist : list (string * string))
    : result unit :=
  map_result (fun e => dict_get pos (fst e);; dict_get pos (snd e)) edgelist;; Ok tt.

(** [nx.draw_networkx_edge_labels(G, pos, edge_labels)] places a label
    between the positions of the ends of each labelled edge. *)
Definition draw_networkx_edge_labels (pos : positions) (labelled : list (string * string))
    : result unit :=
  map_result (fun e => dict_get pos (fst e);; dict_get pos (snd e)) labelled;; Ok tt.

(** The routines the demo calls to solve its problems. *)
Record Library : Type := mkLibrary {
  maximum_flow : Graph -> string -> string -> Z * flow_dict;
  shortest_path : Graph -> string -> string -> list string;
  shortest_path_length : Graph -> string -> string -> Z
}.

End NetworkX.
Import NetworkX.

(** ** 运输问题/transportation_problem_demo.py *)

Module TransportationProblemDemo.

(** *** NumPy arrays of rank two, by rows

    A list without rows stands for no array of rank two ([np.array([])] has
    rank one); the statements below take at least one factory. *)

Definition matrix : Type := list (list Q).

Definition nrows (m : matrix) : nat := length m.
Definition ncols (m : matrix) : nat :=
  match m with
  | [] => 0
  | r :: _ => length r
  end.

(** [np.zeros(n)] *)
Definition zeros (n : nat) : list Q := repeat 0%Q n.

(** [np.column_stack([m, v])]: [v] becomes one more column; the lengths
    must agree or NumPy raises ValueError. *)
Definition column_stack (m : matrix) (v : list Q) : result matrix :=
  if decide (length v = nrows m)
  then Ok (zip_with (fun r c => r ++ [c]) m v)
  else Raise ValueError.

(** [np.vstack([m, v])]: [v] becomes one more row. *)
Definition vstack (m : matrix) (v : list Q) : result matrix :=
  if decide (length v = ncols m)
  then Ok (m ++ [v])
  else Raise ValueError.

(** [m[i][j]] *)
Definition matrix_index (m : matrix) (i j : nat) : result Q :=
  r ← py_index m i; py_index r j.

(** *** The scenario (lines 64-79)

    The method has its data as local constants; they are gathered in a
    record so that statements can range over scenarios. *)

Record Scenario : Type := mkScenario {
  factories : list string;
  warehouses : list string;
  supply : list Z;
  demand : list Z;
  cost_matrix : matrix
}.

Definition demo_scenario : Scenario :=
  mkScenario ["工厂A"; "工厂B"; "工厂C"]
             ["仓库1"; "仓库2"; "仓库3"; "仓库4"]
             [300; 400; 500]%Z
             [250; 350; 400; 200]%Z
             [[8; 6; 10; 9]; [9; 12; 13; 7]; [14; 9; 16; 5]]%Q.

(** *** The balance check (lines 95-108) *)

Definition rebalance (sc : Scenario) : result Scenario :=
  if decide (py_sumZ (supply sc) ≠ py_sumZ (demand sc)) then
    if decide (py_sumZ (supply sc) > py_sumZ (demand sc))%Z then
      let demand' := demand sc ++ [py_sumZ (supply sc) - py_sumZ (demand sc)]%Z in
      let warehouses' := warehouses sc ++ ["虚拟仓库"] in
      cost_matrix' ← column_stack (cost_matrix sc) (zeros 3);
      Ok (mkScenario (factories sc) warehouses' (supply sc) demand' cost_matrix')
    else
      let supply' := supply sc ++ [py_sumZ (demand sc) - py_sumZ (supply sc)]%Z in
      let factories' := factories sc ++ ["虚拟工厂"] in
      cost_matrix' ← vstack (cost_matrix sc) (zeros (length (warehouses sc)));
      Ok (mkScenario factories' (warehouses sc) supply' (demand sc) cost_matrix')
  else Ok sc.

(** *** The model (lines 110-131) *)

Definition x_name (i j : nat) : string := "x_" +:+ pretty i +:+ "_" +:+ pretty j.

Definition x (i j : nat) : LpVariable := mkVar (x_name i j) (Some 0%Q) None.

Definition transport_model (sc : Scenario) : result LpProblem :=
  let rows := seq 0 (length (factories sc)) in
  let cols := seq 0 (length (warehouses sc)) in
  let vars := flat_map (fun i => map (fun j => x i j) cols) rows in
  let prob := new_problem "运输问题" LpMinimize vars in
  obj ← map_result (fun ij => c ← matrix_index (cost_matrix sc) (fst ij) (snd ij);
                              Ok (c, x (fst ij) (snd ij)))
                   (flat_map (fun i => map (fun j => (i, j)) cols) rows);
  let prob := set_objective prob (lpSum obj) in
  sup ← map_result (fun i => s ← py_index (supply sc) i;
                             Ok (mkConstraint (lpSum (map (fun j => (1%Q, x i j)) cols))
                                              LpConstraintEQ (inject_Z s)))
                   rows;
  let prob := add_constraints prob sup in
  dem ← map_result (fun j => d ← py_index (demand sc) j;
                             Ok (mkConstraint (lpSum (map (fun i => (1%Q, x i j)) rows))
                                              LpConstraintEQ (inject_Z d)))
                   cols;
  let prob := add_constraints prob dem in
  Ok prob.

(** [pd.DataFrame(m, index=rows, columns=cols)]: pandas raises ValueError
    unless the array has a row per index label and a column per column
    label. *)
Definition data_frame (m : matrix) (rows cols : list string) : result unit :=
  if decide (length m = length rows /\ Forall (fun r => length r = length cols) m)
  then Ok tt
  else Raise ValueError.

(** Lines 88-131: what the method does before it reaches the solver.  The
    cost table is tabulated for printing (line 88), the balance is checked
    and the model is built. *)
Definition build (sc : Scenario) : result (Scenario * LpProblem) :=
  data_frame (cost_matrix sc) (factories sc) (warehouses sc);;
  sc' ← rebalance sc;
  prob ← transport_model sc';
  Ok (sc', prob).

(** *** Results *)

Record Route : Type := mkRoute {
  r_from : string;
  r_to : string;
  quantity : Q;
  unit_cost : Q;
  total_cost : Q
}.

Record Basic : Type := mkBasic {
  b_factories : list string;
  b_warehouses : list string;
  original_warehouses : list string;
  b_supply : list Z;
  b_demand : list Z;
  original_demand : list Z;
  b_cost_matrix : matrix;
  solution_matrix : matrix;
  min_cost : Q;
  route_details : list Route
}.

Record MultiRoute : Type := mkMultiRoute {
  mr_factory : string;
  mr_product : string;
  mr_market : string;
  mr_quantity : Q;
  mr_unit_cost : Q;
  mr_total_cost : Q
}.

Record Multi : Type := mkMulti {
  m_min_cost : Q;
  m_route_details : list MultiRoute
}.

(** [self.results]: a dict that holds at most the keys ['basic'] and
    ['multi_product'], each with its own shape of value. *)
Record State : Type := mkState {
  basic : option Basic;
  multi_product : option Multi
}.

(** [__init__]: [self.results = {}] *)
Definition init : State := mkState None None.

(** [not self.results] *)
Definition no_results (s : State) : bool :=
  match basic s, multi_product s with
  | None, None => true
  | _, _ => false
  end.

Definition set_basic (b : Basic) : Run State unit := fun s =>
  ([], mkState (Some b) (multi_product s), Ok tt).
Definition set_multi_product (m : Multi) : Run State unit := fun s =>
  ([], mkState (basic s) (Some m), Ok tt).

(** *** [solve_basic_transportation] *)

Definition routes_of (sc : Scenario) (sol : matrix) : result (list Route) :=
  rs ← map_result (fun ij =>
          let i := fst ij in
          let j := snd ij in
          q ← matrix_index sol i j;
          if py_gt q 0 then
            c ← matrix_index (cost_matrix sc) i j;
            f ← py_index (factories sc) i;
            w ← py_index (warehouses sc) j;
            Ok [mkRoute f w q c (q * c)%Q]
          else Ok [])
        (flat_map (fun i => map (fun j => (i, j)) (seq 0 (length (warehouses sc))))
                  (seq 0 (length (factories sc))));
  Ok (concat rs).

Definition solve_basic_transportation_on (sc : Scenario) (solver : Solver)
    : Run State (matrix * Q) :=
  let original_warehouses := warehouses sc in
  let original_demand := demand sc in
  sp ← lift (build sc);
  let sc' := fst sp in
  let prob := snd sp in
  emit (EvSolve prob);;
  let a := solver prob in
  let sol := map (fun i => map (fun j => a (x_name i j)) (seq 0 (length (warehouses sc'))))
                 (seq 0 (length (factories sc'))) in
  let min_transport_cost := value a (objective prob) in
  rd ← lift (routes_of sc' sol);
  set_basic (mkBasic (factories sc') (warehouses sc') original_warehouses
                     (supply sc') (demand sc') original_demand
                     (cost_matrix sc') sol min_transport_cost rd);;
  mret (sol, min_transport_cost).

Definition solve_basic_transportation : Solver -> Run State (matrix * Q) :=
  solve_basic_transportation_on demo_scenario.

(** *** [solve_multi_product_transportation] *)

Definition mp_factories : list string := ["工厂X"; "工厂Y"].
Definition mp_products : list string := ["产品P1"; "产品P2"].
Definition mp_markets : list string := ["市场M1"; "市场M2"; "市场M3"].
Definition supply_matrix : matrix := [[200; 150]; [180; 220]]%Q.
Definition demand_matrix : matrix := [[120; 100]; [140; 130]; [120; 140]]%Q.
Definition cost_tensor : list matrix :=
  [[[5; 7; 6]; [6; 8; 7]]; [[8; 6; 9]; [7; 5; 8]]]%Q.

Definition x3_name (i p j : nat) : string :=
  "x_" +:+ pretty i +:+ "_" +:+ pretty p +:+ "_" +:+ pretty j.
Definition x3 (i p j : nat) : LpVariable := mkVar (x3_name i p j) (Some 0%Q) None.

Definition ipj : list (nat * nat * nat) :=
  flat_map (fun i => flat_map (fun p => map (fun j => (i, p, j)) (seq 0 (length mp_markets)))
                              (seq 0 (length mp_products)))
           (seq 0 (length mp_factories)).

Definition cost3 (t : nat * nat * nat) : result Q :=
  m ← py_index cost_tensor (fst (fst t)); matrix_index m (snd (fst t)) (snd t).

Definition multi_product_model : result LpProblem :=
  let fs := seq 0 (length mp_factories) in
  let ps := seq 0 (length mp_products) in
  let ms := seq 0 (length mp_markets) in
  let prob := new_problem "多产品运输问题" LpMinimize
                (map (fun t => x3 (fst (fst t)) (snd (fst t)) (snd t)) ipj) in
  obj ← map_result (fun t => c ← cost3 t; Ok (c, x3 (fst (fst t)) (snd (fst t)) (snd t))) ipj;
  let prob := set_objective prob (lpSum obj) in
  sup ← map_result (fun ip => s ← matrix_index supply_matrix (fst ip) (snd ip);
              Ok (mkConstraint (lpSum (map (fun j => (1%Q, x3 (fst ip) (snd ip) j)) ms))
                               LpConstraintLE s))
           (flat_map (fun i => map (fun p => (i, p)) ps) fs);
  let prob := add_constraints prob sup in
  dem ← map_result (fun jp => d ← matrix_index demand_matrix (fst jp) (snd jp);
              Ok (mkConstraint (lpSum (map (fun i => (1%Q, x3 i (snd jp) (fst jp))) fs))
                               LpConstraintGE d))
           (flat_map (fun j => map (fun p => (j, p)) ps) ms);
  let prob := add_constraints prob dem in
  Ok prob.

Definition solve_multi_product_transportation (solver : Solver) : Run State Q :=
  prob ← lift multi_product_model;
  emit (EvSolve prob);;
  let a := solver prob in
  let min_cost := value a (objective prob) in
  rs ← lift (map_result (fun t =>
          let quantity := a (x3_name (fst (fst t)) (snd (fst t)) (snd t)) in
          if py_gt quantity 0 then
            c ← cost3 t;
            f ← py_index mp_factories (fst (fst t));
            p ← py_index mp_products (snd (fst t));
            m ← py_index mp_markets (snd t);
            Ok [mkMultiRoute f p m quantity c (quantity * c)%Q]
          else Ok []) ipj);
  set_multi_product (mkMulti min_cost (concat rs));;
  mret min_cost.

(** *** [visualize_results]

    Modelled are the parts of the chart that look something up or
    divide: the network of routes of panel 1 (lines 326-384) and the two
    panels of the multi-product results (lines 463-509).  Panels 2 to 4
    slice the stored tables and draw them. *)

Definition chart_file : string := "transportation_results.png".

(** **** Panel 1: the routes as an undirected [nx.Graph]

    The graph is given by the edges added to it, in order.
    [G.add_node(n)] and [G.add_edge(u, v, weight=w)] keep the nodes in
    the order they first appear. *)
Definition node_added (ns : list string) (n : string) : list string :=
  if bool_decide (n ∈ ns) then ns else ns ++ [n].

Definition graph_nodes (ns : list string) (es : list (string * string * Q)) : list string :=
  fold_left (fun ns e => node_added (node_added ns (fst (fst e))) (snd (fst e)))
            es (fold_left node_added ns []).

(** [d[k] = v] on a dict in insertion order *)
Fixpoint dict_set (k : string) (v : Q) (d : list (string * Q)) : list (string * Q) :=
  match d with
  | [] => [(k, v)]
  | (k', w) :: d' =>
      if decide (k' = k) then (k', v) :: d' else (k', w) :: dict_set k v d'
  end.

(** [G[n]]: the neighbours of [n] with the weight last set.  [add_edge(u,
    v)] writes both [G[u][v]] and [G[v][u]]. *)
Definition neighbours (es : list (string * string * Q)) (n : string) : list (string * Q) :=
  fold_left (fun d e =>
      let d := if decide (fst (fst e) = n) then dict_set (snd (fst e)) (snd e) d else d in
      if decide (snd (fst e) = n) then dict_set (fst (fst e)) (snd e) d else d)
    es [].

(** [G.edges()] with [G[u][v]['weight']]: node by node, the neighbours
    that are not among the nodes already visited. *)
Fixpoint edges_view (es : list (string * string * Q)) (seen ns : list string)
    : list (string * string * Q) :=
  match ns with
  | [] => []
  | n :: ns' =>
      map (fun kv => (n, fst kv, snd kv))
          (filter (fun kv => fst kv ∉ seen) (neighbours es n))
      ++ edges_view es (seen ++ [n]) ns'
  end.

(** [pos] (lines 350-357): a later assignment to the same key replaces
    the earlier one, so the entries are listed last first. *)
Definition route_positions (factories warehouses : list string) : positions :=
  rev (map (fun ix => (snd ix, (0, inject_Z (Z.of_nat (fst ix)) * 2))%Q)
           (enumerate factories)
       ++ map (fun ix => (snd ix, (3, inject_Z (Z.of_nat (fst ix)) * (3 # 2)))%Q)
              (enumerate warehouses)).

(** Lines 331-384: the widths of the edges drawn,
    [(weight / max_weight) * 5 + 1]. *)
Definition route_network (b : Basic) : result (list Q) :=
  let factories := take (length (b_cost_matrix b)) (b_factories b) in
  let warehouses := original_warehouses b in
  let added := map (fun detail => (r_from detail, r_to detail, quantity detail))
                   (filter (fun detail => py_gt (quantity detail) 0 = true)
                           (route_details b)) in
  let G_nodes := graph_nodes (factories ++ warehouses) added in
  let pos := route_positions factories warehouses in
  let factory_nodes := filter (fun n => n ∈ factories) G_nodes in
  let warehouse_nodes := filter (fun n => n ∈ warehouses) G_nodes in
  draw_networkx_nodes pos factory_nodes;;
  draw_networkx_nodes pos warehouse_nodes;;
  let edges := edges_view added [] G_nodes in
  let weights := map snd edges in
  let max_weight := match weights with [] => 1%Q | w :: ws => py_max w ws end in
  widths ← map_result (fun e =>
              q ← py_div (snd e) max_weight;
              let width := (q * 5 + 1)%Q in
              draw_networkx_edges pos [fst e];;
              Ok width) edges;
  draw_networkx_labels G_nodes pos;;
  draw_networkx_edge_labels pos (map fst edges);;
  Ok widths.

(** **** Panels 5 and 6: the costs and quantities per product *)

(** [product_costs[product] += total_cost], keys in insertion order;
    [generate_report] builds the same dict. *)
Fixpoint add_cost (k : string) (v : Q) (d : list (string * Q)) : list (string * Q) :=
  match d with
  | [] => [(k, (0 + v)%Q)]
  | (k', w) :: d' =>
      if decide (k' = k) then (k', (w + v)%Q) :: d' else (k', w) :: add_cost k v d'
  end.

Definition product_costs (rs : list MultiRoute) : list (string * Q) :=
  fold_left (fun d r => add_cost (mr_product r) (mr_total_cost r) d) rs [].

(** [product_quantities] is filled in the same loop as [product_costs]
    and has the same keys in the same order. *)
Definition product_quantities (rs : list MultiRoute) : list (string * Q) :=
  fold_left (fun d r => add_cost (mr_product r) (mr_quantity r) d) rs [].

(** [[cost / total_cost * 100 for cost in costs]] (lines 490-492) *)
Definition cost_shares (m : Multi) : result (list Q) :=
  let costs := map snd (product_costs (m_route_details m)) in
  let total_cost := py_sum costs in
  map_result (fun cost => q ← py_div cost total_cost; Ok (q * 100)%Q) costs.

(** [[cost/qty if qty > 0 else 0 for cost, qty in zip(costs, quantities)]] *)
Definition efficiency (m : Multi) : result (list Q) :=
  let costs := map snd (product_costs (m_route_details m)) in
  let quantities := map snd (product_quantities (m_route_details m)) in
  map_result (fun cq => if py_gt (snd cq) 0 then py_div (fst cq) (snd cq) else Ok 0%Q)
             (zip costs quantities).

Definition visualize_results : Run State unit :=
  s ← get;
  if no_results s then emit (EvPrint warn_solve_first [])
  else
    match basic s with
    | Some b =>
        widths ← lift (route_network b);
        emit (EvPlot "运输网络图" widths)
    | None => mret tt
    end;;
    match multi_product s with
    | Some multi =>
        percentages ← lift (cost_shares multi);
        emit (EvPlot "各产品运输成本对比" percentages);;
        eff ← lift (efficiency multi);
        emit (EvPlot "产品运输效率 (元/单位)" eff)
    | None => mret tt
    end;;
    emit (EvSaveFig chart_file);;
    emit (EvPrint "✅ 可视化图表已保存" []).

(** *** [cost_sensitivity_analysis] *)

Definition warn_basic_first : string := "⚠️ 请先运行基础运输问题求解".

Definition cost_changes : list Z := [-20; -10; 10; 20]%Z.

Definition cost_sensitivity_analysis : Run State unit :=
  s ← get;
  match basic s with
  | Some b =>
      let base_cost := min_cost b in
      for_each (take 3 (route_details b)) (fun route =>
        for_each cost_changes (fun cost_change =>
          let estimated_cost_change := (total_cost route * inject_Z cost_change / 100)%Q in
          let new_total_cost := (base_cost + estimated_cost_change)%Q in
          emit (EvVariant cost_change new_total_cost estimated_cost_change)))
  | None => emit (EvPrint warn_basic_first [])
  end.

(** *** [generate_report] *)

Definition report_basic (s : State) : Run State unit :=
  match basic s with
  | Some b =>
      emit (EvPrint "  • 最小运输成本" [min_cost b]);;
      let total_quantity := py_sum (map quantity (route_details b)) in
      avg ← lift (py_div (min_cost b) total_quantity);
      emit (EvPrint "  • 平均运输成本" [avg])
  | None => mret tt
  end.

Definition report_multi (s : State) : Run State unit :=
  match multi_product s with
  | Some multi =>
      emit (EvPrint "  • 最小运输成本" [m_min_cost multi]);;
      for_each (product_costs (m_route_details multi)) (fun pc =>
        q ← lift (py_div (snd pc) (m_min_cost multi));
        emit (EvPrint (fst pc) [snd pc; (q * 100)%Q]))
  | None => mret tt
  end.

Definition generate_report : Run State unit :=
  s ← get;
  if no_results s then emit (EvPrint warn_solve_first [])
  else report_basic s ;; report_multi s.

(** *** [main]

    [main] returns nothing; its last two lines print the two costs that
    the solves returned. *)

Definition main (solver : Solver) : Run State unit :=
  sm ← solve_basic_transportation solver;
  multi_min_cost ← solve_multi_product_transportation solver;
  visualize_results;;
  cost_sensitivity_analysis;;
  generate_report;;
  emit (EvPrint "基础运输最小成本" [snd sm]);;
  emit (EvPrint "多产品运输最小成本" [multi_min_cost]).

End TransportationProblemDemo.

(** ** 网络流优化/network_flow_demo.py *)

Module NetworkFlowDemo.

(** *** Results *)

Record FlowDetail : Type := mkFlowDetail {
  fd_from : string;
  fd_to : string;
  fd_flow : Z;
  fd_capacity : Z;
  fd_utilization : Q
}.

Record MaxFlow : Type := mkMaxFlow {
  mf_graph : Graph;
  max_flow_value : Z;
  mf_flow_dict : flow_dict;
  flow_details : list FlowDetail;
  bottleneck_edges : list FlowDetail
}.

Record CostDetail : Type := mkCostDetail {
  cd_from : string;
  cd_to : string;
  cd_flow : Q;
  cd_unit_cost : Q;
  cd_total_cost : Q;
  cd_capacity : Q;
  cd_utilization : Q
}.

Record MinCostFlow : Type := mkMinCostFlow {
  min_cost : Q;
  flow_solution : list (string * string * Q);
  cost_details : list CostDetail
}.

Record PathDetail : Type := mkPathDetail {
  pd_from : string;
  pd_to : string;
  pd_distance : Z;
  pd_cumulative : Z
}.

Record ShortestPath : Type := mkShortestPath {
  sp_graph : Graph;
  sp_shortest_path : list string;
  shortest_distance : Z;
  path_details : list PathDetail
}.

(** [self.results] (keys ['max_flow'], ['min_cost_flow'], ['shortest_path'])
    and [self.graphs] (keys ['max_flow'], ['shortest_path']) *)
Record State : Type := mkState {
  max_flow : option MaxFlow;
  min_cost_flow : option MinCostFlow;
  shortest_path_result : option ShortestPath;
  graph_max_flow : option Graph;
  graph_shortest_path : option Graph
}.

Definition init : State := mkState None None None None None.

(** [not self.results] and [not self.graphs] *)
Definition no_results (s : State) : bool :=
  match max_flow s, min_cost_flow s, shortest_path_result s with
  | None, None, None => true
  | _, _, _ => false
  end.
Definition no_graphs (s : State) : bool :=
  match graph_max_flow s, graph_shortest_path s with
  | None, None => true
  | _, _ => false
  end.

(** *** [solve_max_flow_problem] *)

Definition mf_nodes : list string := ["S"; "A"; "B"; "C"; "D"; "T"].

Definition edges_capacity : list (string * string * Z) :=
  [("S", "A", 16); ("S", "B", 13);
   ("A", "B", 4); ("A", "C", 12);
   ("B", "D", 14); ("C", "B", 9);
   ("C", "T", 20); ("D", "C", 7);
   ("D", "T", 4)]%Z.

Definition build_graph (g : Graph) (ns : list string) (es : list (string * string * Z)) : Graph :=
  fold_left (fun g e => add_edge g (fst (fst e)) (snd (fst e)) (snd e)) es
            (add_nodes_from g ns).

Definition flow_network : Graph := build_graph DiGraph mf_nodes edges_capacity.

(** [flow / capacity * 100] *)
Definition utilization (flow capacity : Z) : result Q :=
  q ← py_div (inject_Z flow) (inject_Z capacity); Ok (q * 100)%Q.

(** Lines 96-111 *)
Definition flow_details_of (g : Graph) (d : flow_dict) : result (list FlowDetail) :=
  ds ← map_result (fun row =>
          map_result (fun cell =>
            let flow := snd cell in
            if decide (flow > 0)%Z then
              capacity ← edge_attr g (fst row) (fst cell);
              u ← utilization flow capacity;
              Ok [mkFlowDetail (fst row) (fst cell) flow capacity u]
            else Ok []) (snd row)) d;
  Ok (concat (concat ds)).

(** [utilization >= 99.9] *)
Definition is_bottleneck (d : FlowDetail) : bool := Qle_bool (999 # 10) (fd_utilization d).

Definition set_max_flow (r : MaxFlow) : Run State unit := fun s =>
  ([], mkState (Some r) (min_cost_flow s) (shortest_path_result s)
               (Some (mf_graph r)) (graph_shortest_path s), Ok tt).

Definition solve_max_flow_problem_on (G : Graph) (nx : Library) : Run State (Z * flow_dict) :=
  emit (EvGraph "maximum_flow");;
  let vd := maximum_flow nx G "S" "T" in
  let max_flow_value := fst vd in
  let max_flow_dict := snd vd in
  details ← lift (flow_details_of G max_flow_dict);
  let bottleneck := filter (fun d => is_bottleneck d = true) details in
  set_max_flow (mkMaxFlow G max_flow_value max_flow_dict details bottleneck);;
  mret (max_flow_value, max_flow_dict).

Definition solve_max_flow_problem : Library -> Run State (Z * flow_dict) :=
  solve_max_flow_problem_on flow_network.

(** *** [solve_min_cost_flow_problem] *)

Definition mcf_warehouses : list string := ["仓库1"; "仓库2"].
Definition mcf_customers : list string := ["客户A"; "客户B"; "客户C"].
Definition mcf_supply : list (string * Q) := [("仓库1", 100); ("仓库2", 150)]%Q.
Definition mcf_demand : list (string * Q) := [("客户A", 80); ("客户B", 90); ("客户C", 80)]%Q.

Definition transport_data : list (string * string * Q * Q) :=
  [("仓库1", "客户A", 4, 60); ("仓库1", "客户B", 6, 70); ("仓库1", "客户C", 8, 50);
   ("仓库2", "客户A", 5, 50); ("仓库2", "客户B", 3, 80); ("仓库2", "客户C", 7, 60)]%Q.

Definition x_name (a b : string) : string := "x_" +:+ a +:+ "_" +:+ b.

(** [(warehouse, customer) in x] *)
Definition has_var (a b : string) : bool :=
  existsb (fun t => bool_decide (fst (fst (fst t)) = a) && bool_decide (snd (fst (fst t)) = b))
          transport_data.

Definition min_cost_flow_model : result LpProblem :=
  let vars := map (fun t => mkVar (x_name (fst (fst (fst t))) (snd (fst (fst t))))
                                  (Some 0%Q) (Some (snd t))) transport_data in
  let prob := new_problem "最小费用流问题" LpMinimize vars in
  let prob := set_objective prob
                (map (fun t => (snd (fst t), x_name (fst (fst (fst t))) (snd (fst (fst t)))))
                     transport_data) in
  sup ← map_result (fun w => s ← dict_get mcf_supply w;
              Ok (mkConstraint
                    (map (fun c => (1%Q, x_name w c))
                         (filter (fun c => has_var w c = true) mcf_customers))
                    LpConstraintLE s)) mcf_warehouses;
  let prob := add_constraints prob sup in
  dem ← map_result (fun c => d ← dict_get mcf_demand c;
              Ok (mkConstraint
                    (map (fun w => (1%Q, x_name w c))
                         (filter (fun w => has_var w c = true) mcf_warehouses))
                    LpConstraintGE d)) mcf_customers;
  let prob := add_constraints prob dem in
  Ok prob.

Definition set_min_cost_flow (r : MinCostFlow) : Run State unit := fun s =>
  ([], mkState (max_flow s) (Some r) (shortest_path_result s)
               (graph_max_flow s) (graph_shortest_path s), Ok tt).

Definition solve_min_cost_flow_problem (solver : Solver)
    : Run State (Q * list (string * string * Q)) :=
  prob ← lift min_cost_flow_model;
  emit (EvSolve prob);;
  let a := solver prob in
  let min_cost := value a (objective prob) in
  cds ← lift (map_result (fun t =>
          let start := fst (fst (fst t)) in
          let end_ := snd (fst (fst t)) in
          let cost := snd (fst t) in
          let capacity := snd t in
          let flow := a (x_name start end_) in
          if py_gt flow 0 then
            q ← py_div flow capacity;
            Ok [mkCostDetail start end_ flow cost (flow * cost)%Q capacity (q * 100)%Q]
          else Ok []) transport_data);
  let details := concat cds in
  let flows := map (fun d => (cd_from d, cd_to d, cd_flow d)) details in
  set_min_cost_flow (mkMinCostFlow min_cost flows details);;
  mret (min_cost, flows).

(** *** [solve_shortest_path_problem] *)

Definition cities : list string :=
  ["起点"; "城市A"; "城市B"; "城市C"; "城市D"; "终点"].

Definition roads : list (string * string * Z) :=
  [("起点", "城市A", 10); ("起点", "城市B", 15);
   ("城市A", "城市C", 12); ("城市A", "城市D", 15);
   ("城市B", "城市C", 8); ("城市B", "城市D", 7);
   ("城市C", "终点", 10); ("城市D", "终点", 12);
   ("城市A", "城市B", 6); ("城市C", "城市D", 5)]%Z.

Definition road_network : Graph := build_graph UGraph cities roads.

(** Lines 290-304: walk the path, look every leg up in the graph and
    accumulate [total_distance]. *)
Fixpoint walk (g : Graph) (path : list string) (total : Z)
    : result (list PathDetail * Z) :=
  match path with
  | start :: (end_ :: _) as rest =>
      distance ← edge_attr g start end_;
      let total := (total + distance)%Z in
      r ← walk g rest total;
      Ok (mkPathDetail start end_ distance total :: fst r, snd r)
  | _ => Ok ([], total)
  end.

Definition set_shortest_path (r : ShortestPath) : Run State unit := fun s =>
  ([], mkState (max_flow s) (min_cost_flow s) (Some r)
               (graph_max_flow s) (Some (sp_graph r)), Ok tt).

Definition solve_shortest_path_problem_on (G : Graph) (nx : Library)
    : Run State (list string * Z) :=
  emit (EvGraph "shortest_path");;
  let path := shortest_path nx G "起点" "终点" in
  emit (EvGraph "shortest_path_length");;
  let dist := shortest_path_length nx G "起点" "终点" in
  pd ← lift (walk G path 0);
  emit (EvMetric "all_pairs_shortest_path_length");;
  emit (EvMetric "diameter");;
  emit (EvMetric "average_shortest_path_length");;
  set_shortest_path (mkShortestPath G path dist (fst pd));;
  mret (path, dist).

Definition solve_shortest_path_problem : Library -> Run State (list string * Z) :=
  solve_shortest_path_problem_on road_network.

(** *** [visualize_results]

    Of the six panels those that derive figures from the results are
    modelled: the nodes and edges of panel 1, drawn at hard-coded
    positions (lines 350-401), the utilisation bars of panel 2 (lines
    411-415) and the normalised indicators of panel 5 (line 553).  Panels
    3 and 4 draw at positions that a layout routine computes for every
    node of the graph; their colour intensities divide by the largest
    unit cost of [transport_data] and by the number of legs of a path
    that has one, neither of which is zero. *)

Definition chart_file : string := "network_flow_results.png".

Definition flow_on (d : flow_dict) (u v : string) : result Z :=
  row ← dict_get d u; dict_get row v.

(** The positions of panel 1 (lines 350-357): the six nodes of the water
    network and no other. *)
Definition pos : positions :=
  [("S", (0, 2)); ("A", (2, 3)); ("B", (2, 1)); ("C", (4, 3)); ("D", (4, 1));
   ("T", (6, 2))]%Q.

Definition source_sink : list string := ["S"; "T"].

(** Lines 360-367: the source and the sink, the other nodes of the graph,
    then the labels of all nodes *)
Definition draw_nodes (g : Graph) : result unit :=
  let intermediate := filter (fun n => n ∉ source_sink) (nodes g) in
  draw_networkx_nodes pos source_sink;;
  draw_networkx_nodes pos intermediate;;
  draw_networkx_labels (nodes g) pos.

(** Lines 370-401: every edge is drawn between the positions of its ends;
    an edge that carries flow is [max(2, (flow / capacity) * 8)] wide and
    its label is placed between [pos[start]] and [pos[end]]. *)
Definition edge_widths (r : MaxFlow) : result (list Q) :=
  ws ← map_result (fun e =>
          flow ← flow_on (mf_flow_dict r) (fst e) (snd e);
          capacity ← edge_attr (mf_graph r) (fst e) (snd e);
          if decide (flow > 0)%Z then
            q ← py_div (inject_Z flow) (inject_Z capacity);
            let width := if Qle_bool (q * 8) 2 then 2%Q else (q * 8)%Q in
            draw_networkx_edges pos [e];;
            dict_get pos (fst e);;
            dict_get pos (snd e);;
            Ok [width]
          else draw_networkx_edges pos [e];; Ok []) (edge_list (mf_graph r));
  Ok (concat ws).

(** [(flow / capacity) * 100 if capacity > 0 else 0] for every edge *)
Definition utilization_rates (r : MaxFlow) : result (list Q) :=
  map_result (fun e =>
    flow ← flow_on (mf_flow_dict r) (fst e) (snd e);
    capacity ← edge_attr (mf_graph r) (fst e) (snd e);
    if decide (capacity > 0)%Z then
      q ← py_div (inject_Z flow) (inject_Z capacity); Ok (q * 100)%Q
    else Ok 0%Q) (edge_list (mf_graph r)).

(** The values of panel 5, in the order they are appended. *)
Definition indicators (s : State) : list Q :=
  match max_flow s with Some r => [inject_Z (max_flow_value r)] | None => [] end
  ++ match min_cost_flow s with Some r => [min_cost r] | None => [] end
  ++ match shortest_path_result s with Some r => [inject_Z (shortest_distance r)] | None => [] end.

(** [[(v / max(values)) * 100 for v in values]] *)
Definition normalized (values : list Q) : result (list Q) :=
  match values with
  | [] => Ok []
  | v :: vs => map_result (fun w => q ← py_div w (py_max v vs); Ok (q * 100)%Q) values
  end.

Definition visualize_results : Run State unit :=
  s ← get;
  if no_results s then emit (EvPrint warn_solve_first [])
  else
    match max_flow s with
    | Some r =>
        lift (draw_nodes (mf_graph r));;
        ws ← lift (edge_widths r);
        emit (EvPlot "最大流网络图" ws);;
        us ← lift (utilization_rates r);
        emit (EvPlot "边流量利用率分析" us)
    | None => mret tt
    end;;
    match indicators s with
    | [] => mret tt
    | values =>
        ns ← lift (normalized values);
        emit (EvPlot "网络性能指标对比" ns)
    end;;
    match max_flow s with
    | Some _ =>
        emit (EvMetric "degree_centrality");;
        emit (EvMetric "betweenness_centrality")
    | None => mret tt
    end;;
    emit (EvSaveFig chart_file);;
    emit (EvPrint "✅ 网络流可视化图表已保存" []).

(** *** [network_analysis] *)

Definition analyse (is_shortest_path : bool) : Run State unit :=
  emit (EvMetric "density");;
  emit (EvMetric "is_connected");;
  if is_shortest_path
  then emit (EvMetric "diameter");; emit (EvMetric "average_shortest_path_length")
  else mret tt.

Definition network_analysis : Run State unit :=
  s ← get;
  if no_graphs s then emit (EvPrint warn_solve_first [])
  else
    match graph_max_flow s with Some _ => analyse false | None => mret tt end;;
    match graph_shortest_path s with Some _ => analyse true | None => mret tt end.

(** *** [generate_report] *)

Definition generate_report : Run State unit :=
  s ← get;
  if no_results s then emit (EvPrint warn_solve_first [])
  else
    match max_flow s with
    | Some r => emit (EvPrint "  • 最大流量" [inject_Z (max_flow_value r)])
    | None => mret tt
    end;;
    match min_cost_flow s with
    | Some r =>
        emit (EvPrint "  • 最小成本" [min_cost r]);;
        match cost_details r with
        | [] => mret tt
        | _ =>
            avg_cost ← lift (py_div (min_cost r) (py_sum (map cd_flow (cost_details r))));
            emit (EvPrint "  • 平均运输成本" [avg_cost])
        end
    | None => mret tt
    end;;
    match shortest_path_result s with
    | Some r => emit (EvPrint "  • 最短距离" [inject_Z (shortest_distance r)])
    | None => mret tt
    end.

(** *** [main]

    [main] returns nothing; its last three lines print the flow value,
    the cost and the distance that the solves returned. *)

Definition main (nx : Library) (solver : Solver) : Run State unit :=
  mf ← solve_max_flow_problem nx;
  mc ← solve_min_cost_flow_problem solver;
  sp ← solve_shortest_path_problem nx;
  visualize_results;;
  network_analysis;;
  generate_report;;
  emit (EvPrint "最大流量" [inject_Z (fst mf)]);;
  emit (EvPrint "最小运输成本" [fst mc]);;
  emit (EvPrint "最短路径距离" [inject_Z (snd sp)]).

End NetworkFlowDemo.

(** ** Reference notions for the statements

    What it means for a solver's answer to be right is not in the
    repository; the definitions below say it, so that a theorem can assume
    it of the external routine and conclude about the demo's own code. *)

(** *** The production plan *)

Module ProductionReference.
Import LinearProgrammingDemo.

Definition demo_problem : LpProblem :=
  mkProblem "生产计划" LpMaximize x
    [(40, "x0"); (30, "x1"); (50, "x2")]%Q
    [mkConstraint [(2, "x0"); (1, "x1"); (3, "x2")]%Q LpConstraintLE 100%Q;
     mkConstraint [(1, "x0"); (2, "x1"); (1, "x2")]%Q LpConstraintLE 80%Q].

(** 40 of A, 20 of B, none of C *)
Definition best_plan : assignment := fun n =>
  if String.eqb n "x0" then 40%Q else if String.eqb n "x1" then 20%Q else 0%Q.

Definition best_solver : Solver := fun _ => best_plan.



(** The object after [solve_production_planning] with the best plan. *)
Definition solved_results : Results :=
  mkResults (d_products demo_data) [40; 20; 0]%Q 0%nat 2200%Q 100%Q 80%Q 100%Q 80%Q
            (d_labor_req demo_data) (d_material_req demo_data).

Definition solved_state : State :=
  state_of (solve_production_planning best_solver init).

(** The profits with entry [i] changed by [change] percent. *)
Definition varied (base : list Q) (i : nat) (change : Z) : list Q :=
  match base !! i with
  | Some b => <[i := (b * (1 + inject_Z change / 100))%Q]> base
  | None => base
  end.

(** The (index, change) pairs in the order the analysis visits them. *)
Definition variant_grid (n : nat) : list (nat * Z) :=
  flat_map (fun i => map (fun c => (i, c)) changes) (seq 0 n).

(** [coef[0] * x0 + coef[1] * x1 + coef[2] * x2] *)
Definition weights (coef : list Q) : LpAffineExpression :=
  map (fun i => (nth i coef 0%Q, x_name i)) (seq 0 3).

(** The model of one variant, built from nothing but the varied profits
    and the stored requirements and capacities. *)
Definition variant_model (r : Results) (base : list Q) (ic : nat * Z) : LpProblem :=
  mkProblem "敏感性分析" LpMaximize x
    (weights (varied base (fst ic) (snd ic)))
    [mkConstraint (weights (labor_req r)) LpConstraintLE (labor_available r);
     mkConstraint (weights (material_req r)) LpConstraintLE (material_available r)].

(** What the analysis emits for one variant: the solve, then the line. *)
Definition variant_events (solver : Solver) (r : Results) (base : list Q)
    (ic : nat * Z) : list event :=
  let p := variant_model r base ic in
  let v := value (solver p) (objective p) in
  [EvSolve p; EvVariant (snd ic) v (v - max_profit r)%Q].

(** What the analysis keeps true of the object: the results, and every
    list object that existed before. *)
Definition kept (s0 s : State) : Prop :=
  results s = results s0 /\ heap s0 ⊆ heap s.

(** The stored results are complete: three products, and three entries
    in every coefficient list. *)
Definition well_formed (s : State) (r : Results) (base : list Q) : Prop :=
  results s = Some r /\ heap s !! profit r = Some base /\
  length base = 3%nat /\ length (products r) = 3%nat /\
  length (labor_req r) = 3%nat /\ length (material_req r) = 3%nat.

End ProductionReference.

(** *** Flows and cuts *)

Module FlowReference.

Definition total (l : list Z) : Z := foldr Z.add 0%Z l.

Definition flow : Type := string -> string -> Z.

Definition outflow (g : Graph) (f : flow) (u : string) : Z :=
  total (map (fun e => f u (snd (fst e))) (filter (fun e => fst (fst e) = u) (edges g))).

Definition inflow (g : Graph) (f : flow) (v : string) : Z :=
  total (map (fun e => f (fst (fst e)) v) (filter (fun e => snd (fst e) = v) (edges g))).

Record is_flow (g : Graph) (s t : string) (f : flow) : Prop := mkIsFlow {
  within_capacity : forall u v c, (u, v, c) ∈ edges g -> (0 <= f u v <= c)%Z;
  conserved : forall n, n ∈ nodes g -> n ≠ s -> n ≠ t -> inflow g f n = outflow g f n
}.

Definition flow_value (g : Graph) (f : flow) (s : string) : Z :=
  (outflow g f s - inflow g f s)%Z.

(** The dict of dicts that carries [f]: a row per node, a cell per
    successor. *)
Definition dict_of (g : Graph) (f : flow) : flow_dict :=
  map (fun u => (u, map (fun vw => (fst vw, f u (fst vw))) (adj g u))) (nodes g).

(** The contract of [nx.maximum_flow] on a directed graph. *)
Definition returns_maximum_flow (nx : Library) (g : Graph) (s t : string) : Prop :=
  exists f, is_flow g s t f /\
    maximum_flow nx g s t = (flow_value g f s, dict_of g f) /\
    forall f', is_flow g s t f' -> (flow_value g f' s <= flow_value g f s)%Z.

Definition is_cut (s t : string) (X : list string) : Prop := s ∈ X /\ t ∉ X.

Definition cut_capacity (g : Graph) (X : list string) : Z :=
  total (map snd (filter (fun e => fst (fst e) ∈ X /\ snd (fst e) ∉ X) (edges g))).

Definition min_cut_capacity (g : Graph) (s t : string) (c : Z) : Prop :=
  (exists X, is_cut s t X /\ cut_capacity g X = c) /\
  forall X, is_cut s t X -> (c <= cut_capacity g X)%Z.

(** A maximum flow of the demo's network, and a library that returns it
    (and the shortest route of the road network). *)
Definition demo_flow_table : list (string * string * Z) :=
  [("S", "A", 12); ("S", "B", 11); ("A", "C", 12); ("B", "D", 11);
   ("D", "C", 7); ("D", "T", 4); ("C", "T", 19)]%Z.

Definition demo_flow : flow := fun u v =>
  match filter (fun e => fst (fst e) = u /\ snd (fst e) = v) demo_flow_table with
  | e :: _ => snd e
  | [] => 0%Z
  end.



Definition demo_library : Library :=
  mkLibrary (fun g _ _ => (flow_value g demo_flow "S", dict_of g demo_flow))
            (fun _ _ _ => ["起点"; "城市A"; "城市C"; "终点"])
            (fun _ _ _ => 32%Z).

End FlowReference.

(** *** Paths *)

Module PathReference.

(** The sum of the edge weights along [p], if [p] follows edges. *)
Fixpoint path_weight (g : Graph) (p : list string) : option Z :=
  match p with
  | u :: (v :: _) as rest =>
      match edge_attr g u v, path_weight g rest with
      | Ok w, Some r => Some (w + r)%Z
      | _, _ => None
      end
  | _ => Some 0%Z
  end.

Definition joins_ends (s t : string) (p : list string) : Prop :=
  head p = Some s /\ last p = Some t.

(** A simple path from [s] to [t] with total weight [w]. *)
Definition simple_path (g : Graph) (s t : string) (p : list string) (w : Z) : Prop :=
  NoDup p /\ joins_ends s t p /\ path_weight g p = Some w.

(** The contracts of [nx.shortest_path] and [nx.shortest_path_length]
    with non-negative weights. *)
Definition returns_shortest_path (nx : Library) (g : Graph) (s t : string) : Prop :=
  exists w, simple_path g s t (shortest_path nx g s t) w /\
    forall q wq, simple_path g s t q wq -> (w <= wq)%Z.

Definition returns_shortest_length (nx : Library) (g : Graph) (s t : string) : Prop :=
  (exists q, simple_path g s t q (shortest_path_length nx g s t)) /\
  forall q wq, simple_path g s t q wq -> (shortest_path_length nx g s t <= wq)%Z.

(** The distance of every city from 起点, and the route that attains it
    at 终点. *)
Definition demo_distances : list (string * Z) :=
  [("起点", 0); ("城市A", 10); ("城市B", 15); ("城市C", 22); ("城市D", 22);
   ("终点", 32)]%Z.

Definition demo_distance (n : string) : Z :=
  match dict_get demo_distances n with
  | Ok d => d
  | Raise _ => 0%Z
  end.

Definition demo_path : list string := ["起点"; "城市A"; "城市C"; "终点"].

End PathReference.

(** *** Transportation scenarios *)

Module TransportReference.
Import TransportationProblemDemo.

(** The cost matrix has a row per factory and a column per warehouse. *)
Definition cost_shape_agrees (sc : Scenario) : Prop :=
  length (cost_matrix sc) = length (factories sc) /\
  Forall (fun r => length r = length (warehouses sc)) (cost_matrix sc).

(** It has, and there is a supply per factory and a demand per warehouse. *)
Definition dims_agree (sc : Scenario) : Prop :=
  length (cost_matrix sc) = length (factories sc) /\
  Forall (fun r => length r = length (warehouses sc)) (cost_matrix sc) /\
  length (supply sc) = length (factories sc) /\
  length (demand sc) = length (warehouses sc).

Definition has_negative (sc : Scenario) : Prop :=
  Exists (fun v => (v < 0)%Z) (supply sc ++ demand sc).

(** "Factory [i] ships exactly [s]" and "warehouse [j] receives exactly
    [d]", over [m] factories and [n] warehouses. *)
Definition ships_exactly (n i : nat) (s : Z) : LpConstraint :=
  mkConstraint (map (fun j => (1%Q, x_name i j)) (seq 0 n)) LpConstraintEQ (inject_Z s).
Definition receives_exactly (m j : nat) (d : Z) : LpConstraint :=
  mkConstraint (map (fun i => (1%Q, x_name i j)) (seq 0 m)) LpConstraintEQ (inject_Z d).

Definition is_equality (c : LpConstraint) : Prop := cmp c = LpConstraintEQ.

(** The matrix of the solver's values, as lines 137-140 read it. *)
Definition solution_of (sc : Scenario) (a : assignment) : matrix :=
  map (fun i => map (fun j => a (x_name i j)) (seq 0 (length (warehouses sc))))
      (seq 0 (length (factories sc))).

(** The model of the demo's scenario. *)
Definition demo_model : LpProblem :=
  match transport_model demo_scenario with
  | Ok p => p
  | Raise _ => new_problem "" LpMinimize []
  end.


(** The demo's scenario with the first supply negative, still balanced. *)
Definition negative_supply : Scenario :=
  mkScenario (factories demo_scenario) (warehouses demo_scenario)
             [-100; 800; 500]%Z (demand demo_scenario) (cost_matrix demo_scenario).

(** The demo's scenario with a cost row that belongs to no factory. *)
Definition extra_cost_row : Scenario :=
  mkScenario (factories demo_scenario) (warehouses demo_scenario)
             (supply demo_scenario) (demand demo_scenario)
             (cost_matrix demo_scenario ++ [[1; 1; 1; 1]%Q]).

(** The cheapest plan of the demo's scenario, at a cost of 10700. *)
Definition best_plan : assignment := fun n =>
  if String.eqb n "x_0_1" then 50%Q
  else if String.eqb n "x_0_2" then 250%Q
  else if String.eqb n "x_1_0" then 250%Q
  else if String.eqb n "x_1_2" then 150%Q
  else if String.eqb n "x_2_1" then 300%Q
  else if String.eqb n "x_2_3" then 200%Q
  else 0%Q.

Definition best_solver : Solver := fun _ => best_plan.

(** The object after [solve_basic_transportation] with the cheapest plan,
    and what it stores under ['basic']. *)
Definition solved_state : State :=
  state_of (solve_basic_transportation best_solver init).

Definition solved_basic : Basic :=
  match basic solved_state with
  | Some b => b
  | None => mkBasic [] [] [] [] [] [] [] [] 0%Q []
  end.

(** The estimate that [cost_sensitivity_analysis] prints for one route
    and one percentage. *)
Definition estimate (b : Basic) (route : Route) (c : Z) : event :=
  EvVariant c (min_cost b + total_cost route * inject_Z c / 100)%Q
            (total_cost route * inject_Z c / 100)%Q.

End TransportReference.

(** ** Figures of the network results

    What the loops of 网络流优化/network_flow_demo.py store pipe by pipe
    and route by route, said as predicates on the stored records, the
    model of the delivery problem and its cheapest plan. *)

Module NetworkFigures.
Import NetworkFlowDemo FlowReference.

(** A pipe that carries as much as it can. *)
Definition saturated (d : FlowDetail) : bool := bool_decide (fd_flow d = fd_capacity d).

(** What [flow_details] records of one pipe: the flow, the capacity of
    the pipe in [g] and their ratio in percent. *)
Definition records_pipe (g : Graph) (f : flow) (d : FlowDetail) : Prop :=
  (fd_from d, fd_to d, fd_capacity d) ∈ edges g /\
  fd_flow d = f (fd_from d) (fd_to d) /\
  (0 < fd_flow d <= fd_capacity d)%Z /\
  fd_utilization d = (inject_Z (fd_flow d) / inject_Z (fd_capacity d) * 100)%Q.

(** Every edge joins two nodes of the graph, as in a graph built with
    [add_edge]. *)
Definition edges_join_nodes (g : Graph) : Prop :=
  Forall (fun e => fst (fst e) ∈ nodes g /\ snd (fst e) ∈ nodes g) (edges g).

(** Every node is one of the six that panel 1 has a position for. *)
Definition positioned (g : Graph) : Prop :=
  Forall (fun n => n ∈ map fst pos) (nodes g).

(** The model of the delivery problem. *)
Definition mcf_model : LpProblem :=
  match min_cost_flow_model with
  | Ok p => p
  | Raise _ => new_problem "" LpMinimize []
  end.

(** The quantity the solver reports for a route of [transport_data]. *)
Definition shipped (a : assignment) (t : string * string * Q * Q) : Q :=
  a (x_name (fst (fst (fst t))) (snd (fst (fst t)))).

(** The cheapest delivery plan, at a cost of 1230. *)
Definition mcf_best_plan : assignment := fun n =>
  if String.eqb n (x_name "仓库1" "客户A") then 60%Q
  else if String.eqb n (x_name "仓库1" "客户B") then 10%Q
  else if String.eqb n (x_name "仓库1" "客户C") then 30%Q
  else if String.eqb n (x_name "仓库2" "客户A") then 20%Q
  else if String.eqb n (x_name "仓库2" "客户B") then 80%Q
  else if String.eqb n (x_name "仓库2" "客户C") then 50%Q
  else 0%Q.

Definition mcf_best_solver : Solver := fun _ => mcf_best_plan.

(** What [cost_details] records of one route. *)
Definition records_route (a : assignment) (d : CostDetail) : Prop :=
  exists t, t ∈ transport_data /\
    cd_from d = fst (fst (fst t)) /\ cd_to d = snd (fst (fst t)) /\
    cd_flow d = shipped a t /\ (0 < cd_flow d)%Q /\
    cd_unit_cost d = snd (fst t) /\ cd_capacity d = snd t /\
    cd_total_cost d = (cd_flow d * cd_unit_cost d)%Q /\
    cd_utilization d = (cd_flow d / cd_capacity d * 100)%Q.

(** The entry of [cost_details] for a route, and the list that the loop
    of lines 213-228 builds: the routes with a positive quantity, in the
    order of [transport_data]. *)
Definition detail_of (a : assignment) (t : string * string * Q * Q) : CostDetail :=
  mkCostDetail (fst (fst (fst t))) (snd (fst (fst t))) (shipped a t) (snd (fst t))
               (shipped a t * snd (fst t))%Q (snd t) (shipped a t / snd t * 100)%Q.

Definition cost_details_of (a : assignment) : list CostDetail :=
  concat (map (fun t => if py_gt (shipped a t) 0 then [detail_of a t] else [])
              transport_data).

End NetworkFigures.

(** ** Figures of the transportation results

    The lists that 运输问题/transportation_problem_demo.py builds from the
    solver's answer, the slices and bars that panels 2 to 4 of
    [visualize_results] derive from them, and the closing part of
    [generate_report] (the cost analysis and the advice). *)

Module TransportFigures.
Import TransportationProblemDemo TransportReference.

(** The index pairs in the order of the loops over factories and
    warehouses. *)
Definition grid (sc : Scenario) : list (nat * nat) :=
  flat_map (fun i => map (fun j => (i, j)) (seq 0 (length (warehouses sc))))
           (seq 0 (length (factories sc))).

(** [cost_matrix[i][j]] and the solver's quantity for the pair [ij] *)
Definition cost_at (sc : Scenario) (ij : nat * nat) : Q :=
  nth (snd ij) (nth (fst ij) (cost_matrix sc) []) 0%Q.
Definition shipped (a : assignment) (ij : nat * nat) : Q := a (x_name (fst ij) (snd ij)).

(** The entry of [route_details] for a pair, and the list the loop of
    lines 156-168 builds: the pairs with a positive quantity, in order. *)
Definition route_of (sc : Scenario) (a : assignment) (ij : nat * nat) : Route :=
  mkRoute (nth (fst ij) (factories sc) "") (nth (snd ij) (warehouses sc) "")
          (shipped a ij) (cost_at sc ij) (shipped a ij * cost_at sc ij)%Q.

Definition routes_kept (sc : Scenario) (a : assignment) : list Route :=
  concat (map (fun ij => if py_gt (shipped a ij) 0 then [route_of sc a ij] else [])
              (grid sc)).

(** A route that carries something, at the cost the quantity implies. *)
Definition carries (r : Route) : Prop :=
  (0 < quantity r)%Q /\ total_cost r = (quantity r * unit_cost r)%Q.

(** The scenario reaches the solver: a table of the right shape and, with
    a surplus, exactly three factories. *)
Definition solvable (sc : Scenario) : Prop :=
  dims_agree sc /\ factories sc ≠ [] /\
  ((py_sumZ (supply sc) > py_sumZ (demand sc))%Z -> length (factories sc) = 3%nat).

(** Factories and warehouses with nothing to ship, and the only plan
    there is. *)
Definition nothing_to_ship : Scenario :=
  mkScenario (factories demo_scenario) (warehouses demo_scenario)
             [0; 0; 0]%Z [0; 0; 0; 0]%Z (cost_matrix demo_scenario).

Definition idle_solver : Solver := fun _ _ => 0%Q.

(** The demo's scenario with 100 tons less at the third factory: a
    deficit of 100. *)
Definition short_supply : Scenario :=
  mkScenario (factories demo_scenario) (warehouses demo_scenario)
             [300; 400; 400]%Z (demand demo_scenario) (cost_matrix demo_scenario).

(** *** What [visualize_results] reads of the basic results

    Line 331: [basic['factories'][:len(basic['cost_matrix'])]];
    line 332: [basic['original_warehouses']]. *)
Definition chart_factories (b : Basic) : list string :=
  take (length (b_cost_matrix b)) (b_factories b).
Definition chart_warehouses (b : Basic) : list string := original_warehouses b.

(** Line 390: [basic['cost_matrix'][:, :len(basic['original_warehouses'])]] *)
Definition original_cost_matrix (b : Basic) : matrix :=
  map (take (length (original_warehouses b))) (b_cost_matrix b).

(** Line 410: the solution, cut to the rows and columns of the above *)
Definition original_solution (b : Basic) : matrix :=
  map (take (length (original_warehouses b)))
      (take (length (original_cost_matrix b)) (solution_matrix b)).

(** Lines 431-444: supply and demand side by side.  [[0] * k] is empty
    for a negative [k], as the difference of two naturals is 0. *)
Definition chart_supply (b : Basic) : list Z :=
  take (length (chart_factories b)) (b_supply b).
Definition chart_demand (b : Basic) : list Z :=
  take (length (chart_warehouses b)) (b_demand b).
Definition x_pos (b : Basic) : list nat :=
  seq 0 (Nat.max (length (chart_supply b)) (length (chart_demand b))).
Definition supply_padded (b : Basic) : list Z :=
  chart_supply b ++ repeat 0%Z (length (chart_demand b) - length (chart_supply b)).
Definition demand_padded (b : Basic) : list Z :=
  chart_demand b ++ repeat 0%Z (length (chart_supply b) - length (chart_demand b)).
Definition supply_bars (b : Basic) : list Z := take (length (x_pos b)) (supply_padded b).
Definition demand_bars (b : Basic) : list Z := take (length (x_pos b)) (demand_padded b).

(** The model of the multi-product problem. *)
Definition mp_model : LpProblem :=
  match multi_product_model with
  | Ok p => p
  | Raise _ => new_problem "" LpMinimize []
  end.

(** [cost_tensor[i][p][j]] and the solver's quantity for a triple *)
Definition cost3_at (t : nat * nat * nat) : Q :=
  nth (snd t) (nth (snd (fst t)) (nth (fst (fst t)) cost_tensor []) []) 0%Q.
Definition shipped3 (a : assignment) (t : nat * nat * nat) : Q :=
  a (x3_name (fst (fst t)) (snd (fst t)) (snd t)).

(** The entry of [multi_route_details] for a triple, and the list the
    loop of lines 275-290 builds. *)
Definition multi_route_of (a : assignment) (t : nat * nat * nat) : MultiRoute :=
  mkMultiRoute (nth (fst (fst t)) mp_factories "") (nth (snd (fst t)) mp_products "")
               (nth (snd t) mp_markets "")
               (shipped3 a t) (cost3_at t) (shipped3 a t * cost3_at t)%Q.

Definition multi_routes_kept (a : assignment) : list MultiRoute :=
  concat (map (fun t => if py_gt (shipped3 a t) 0 then [multi_route_of a t] else []) ipj).

(** A cheapest plan of the multi-product problem, at a cost of 4600. *)
Definition mp_best_plan : assignment := fun n =>
  if String.eqb n "x_0_0_0" then 120%Q
  else if String.eqb n "x_0_0_2" then 80%Q
  else if String.eqb n "x_1_0_1" then 140%Q
  else if String.eqb n "x_1_0_2" then 40%Q
  else if String.eqb n "x_0_1_0" then 100%Q
  else if String.eqb n "x_0_1_2" then 50%Q
  else if String.eqb n "x_1_1_1" then 130%Q
  else if String.eqb n "x_1_1_2" then 90%Q
  else 0%Q.

Definition mp_best_solver : Solver := fun _ => mp_best_plan.

(** A route of the multi-product plan that carries something, at a
    positive unit cost. *)
Definition carries3 (r : MultiRoute) : Prop :=
  (0 < mr_quantity r)%Q /\ (0 < mr_unit_cost r)%Q /\
  mr_total_cost r = (mr_quantity r * mr_unit_cost r)%Q.

(** *** The cost analysis and the advice of [generate_report]

    [max(l, key=f)] and [min(l, key=f)] of a non-empty list: the first
    element with the largest, or the smallest, key. *)
Definition py_max_by {A : Type} (key : A -> Q) (x : A) (xs : list A) : A :=
  fold_left (fun m y => if py_gt (key y) (key m) then y else m) xs x.
Definition py_min_by {A : Type} (key : A -> Q) (x : A) (xs : list A) : A :=
  fold_left (fun m y => if py_gt (key m) (key y) then y else m) xs x.

(** Lines 592-600: the routes with the highest and the lowest unit cost *)
Definition cost_analysis (b : Basic) : Run State unit :=
  match route_details b with
  | [] => mret tt
  | r :: rs =>
      let max_cost_route := py_max_by unit_cost r rs in
      let min_cost_route := py_min_by unit_cost r rs in
      emit (EvPrint ("  • 最高成本路线: " +:+ r_from max_cost_route +:+ " → "
                       +:+ r_to max_cost_route) [unit_cost max_cost_route]);;
      emit (EvPrint ("  • 最低成本路线: " +:+ r_from min_cost_route +:+ " → "
                       +:+ r_to min_cost_route) [unit_cost min_cost_route])
  end.

Definition advise_high : string := "  • 考虑优化高成本路线，寻找替代运输方案".
Definition advise_low : string := "  • 充分利用低成本路线，提高运输效率".

(** Lines 624-635 *)
Definition advice (b : Basic) : Run State unit :=
  match route_details b with
  | [] => mret tt
  | _ =>
      let high_cost_routes := filter (fun r => py_gt (unit_cost r) 10 = true) (route_details b) in
      let low_cost_routes := filter (fun r => py_gt 8 (unit_cost r) = true) (route_details b) in
      match high_cost_routes with
      | [] => mret tt
      | _ => emit (EvPrint advise_high [])
      end;;
      match low_cost_routes with
      | [] => mret tt
      | _ => emit (EvPrint advise_low [])
      end
  end.

(** The routes of the cheapest plan of the demo's scenario: the first
    one and the others. *)
Definition first_route : Route :=
  hd (mkRoute "" "" 0 0 0) (route_details solved_basic).
Definition other_routes : list Route := tl (route_details solved_basic).

(** The demo's scenario with 100 tons more at the third factory: a
    surplus of 100, and a plan that ships it to the dummy warehouse. *)
Definition long_supply : Scenario :=
  mkScenario (factories demo_scenario) (warehouses demo_scenario)
             [300; 400; 600]%Z (demand demo_scenario) (cost_matrix demo_scenario).

Definition surplus_plan : assignment := fun n =>
  if String.eqb n "x_2_4" then 100%Q else best_plan n.

Definition surplus_solver : Solver := fun _ => surplus_plan.

(** The cheapest plans of both problems in one answer: their variables
    have different names. *)
Definition both_plans : assignment := fun n => (best_plan n + mp_best_plan n)%Q.
Definition both_solver : Solver := fun _ => both_plans.

End TransportFigures.

(** ** Figures of the production results

    The profit panel of [visualize_results] and the closing lines of
    [generate_report] in 线性规划/linear_programming_demo.py, and the
    baseline solve on arbitrary data. *)

Module ProductionFigures.
Import LinearProgrammingDemo ProductionReference.

(** *** Panel 3 of [visualize_results] (lines 190-204) *)

(** [[profit[i] * solution[i] for i in range(len(products))]] *)
Definition profit_contribution (r : Results) : Run State (list Q) :=
  profit ← load (profit r);
  lift (map_result (fun i => p ← py_index profit i;
                             s ← py_index (solution r) i;
                             Ok (p * s)%Q)
                   (seq 0 (length (products r)))).

(** [value / total_profit * 100 if total_profit > 0 else 0], bar by bar *)
Definition percentages (contribution : list Q) : result (list Q) :=
  let total_profit := py_sum contribution in
  map_result (fun value =>
      if py_gt total_profit 0 then q ← py_div value total_profit; Ok (q * 100)%Q
      else Ok 0%Q)
    contribution.

(** *** The closing lines of [generate_report] (lines 318-322) *)

(** [max(l)]: ValueError on an empty list *)
Definition py_max_of (l : list Q) : result Q :=
  match l with
  | [] => Raise ValueError
  | v :: vs => Ok (py_max v vs)
  end.

(** [l.index(v)]: the first position that holds a number equal to [v],
    ValueError when there is none *)
Fixpoint index_of (l : list Q) (v : Q) : result nat :=
  match l with
  | [] => Raise ValueError
  | w :: l' => if Qeq_bool w v then Ok 0%nat else i ← index_of l' v; Ok (S i)
  end.

Definition highest_profit : string := "  • 单位利润最高产品: ".

Definition most_profitable (r : Results) : Run State unit :=
  profit_per_unit ← load (profit r);
  m ← lift (py_max_of profit_per_unit);
  max_profit_idx ← lift (index_of profit_per_unit m);
  product ← lift (py_index (products r) max_profit_idx);
  p ← lift (py_index profit_per_unit max_profit_idx);
  emit (EvPrint (highest_profit +:+ product) [p]).

(** *** Reference notions *)

(** The model of the stored data with the stored profits, as the
    baseline solve built it. *)
Definition base_model (r : Results) (base : list Q) : LpProblem :=
  mkProblem "生产计划" LpMaximize x (weights base)
    [mkConstraint (weights (labor_req r)) LpConstraintLE (labor_available r);
     mkConstraint (weights (material_req r)) LpConstraintLE (material_available r)].

(** Data with three products, three entries in every coefficient list,
    requirements that are not negative and capacities that are positive. *)
Definition sound_data (d : ProductionData) : Prop :=
  length (d_products d) = 3%nat /\
  length (d_profit d) = 3%nat /\ length (d_labor_req d) = 3%nat /\
  length (d_material_req d) = 3%nat /\
  Forall (fun q => 0 <= q)%Q (d_labor_req d) /\
  Forall (fun q => 0 <= q)%Q (d_material_req d) /\
  (0 < d_labor_available d)%Q /\ (0 < d_material_available d)%Q.

(** The model, the plan and the figures of the baseline solve on data
    [d]. *)
Definition model_for (d : ProductionData) : LpProblem :=
  mkProblem "生产计划" LpMaximize x (weights (d_profit d))
    [mkConstraint (weights (d_labor_req d)) LpConstraintLE (d_labor_available d);
     mkConstraint (weights (d_material_req d)) LpConstraintLE (d_material_available d)].

Definition plan_of (a : assignment) : list Q := map (fun i => a (x_name i)) (seq 0 3).

Definition consumed (req : list Q) (a : assignment) : Q :=
  py_sum (map (fun i => nth i req 0 * a (x_name i))%Q (seq 0 3)).

Definition results_for (d : ProductionData) (a : assignment) : Results :=
  mkResults (d_products d) (plan_of a) 0%nat (value a (objective (model_for d)))
            (consumed (d_labor_req d) a) (consumed (d_material_req d) a)
            (d_labor_available d) (d_material_available d)
            (d_labor_req d) (d_material_req d).

End ProductionFigures.

(** ** font_config.py

    [setup_chinese_font] reads the fonts of the system and writes to
    [plt.rcParams]; both are arguments here, and the result holds the
    settings written, what was printed or warned, and the returned
    name. *)

Module FontConfig.

(** The fonts to try, best first (lines 15-22) *)
Definition chinese_fonts : list string :=
  ["Microsoft YaHei"; "SimHei"; "Noto Sans SC"; "STHeiti"; "WenQuanYi Micro Hei";
   "DejaVu Sans"].

(** The loop of lines 28-32: the first font of [fonts] that is among the
    available ones *)
Fixpoint first_available (fonts available : list string) : option string :=
  match fonts with
  | [] => None
  | font :: rest =>
      if bool_decide (font ∈ available) then Some font
      else first_available rest available
  end.

(** The values that the function writes to [plt.rcParams], a map from
    setting names: lists of font names, a name and a flag. *)
Inductive rc_value : Type :=
| RcList (names : list string)
| RcStr (name : string)
| RcBool (flag : bool).

Inductive message : Type :=
| Printed (line : string)
| Warned (text : string).

Record Outcome : Type := mkOutcome {
  rc : gmap string rc_value;
  messages : list message;
  returned : option string
}.

Definition font_set : string := "已设置中文字体: ".
Definition font_missing : string := "未找到合适的中文字体，可能无法正确显示中文".

(** [if selected_font:] holds for a name that is not empty. *)
Definition truthy (o : option string) : bool :=
  match o with
  | Some f => negb (String.eqb f "")
  | None => false
  end.

(** [setup_chinese_font] on a system with the fonts [available] and the
    settings [params].  The rebuild of the font cache at the end either
    runs or raises AttributeError, which the function swallows; neither
    touches the settings, the messages or the returned name. *)
Definition setup_chinese_font (available : list string) (params : gmap string rc_value)
    : Outcome :=
  let selected_font := first_available chinese_fonts available in
  let configured :=
    if truthy selected_font then
      let f := default "" selected_font in
      let params := <["font.sans-serif" := RcList [f]]> params in
      let params := <["font.family" := RcStr "sans-serif"]> params in
      let params := <["font.serif" := RcList [f]]> params in
      let params := <["font.monospace" := RcList [f]]> params in
      (params, [Printed (font_set +:+ f)])
    else (params, [Warned font_missing]) in
  let params := <["axes.unicode_minus" := RcBool false]> (fst configured) in
  mkOutcome params (snd configured) selected_font.

End FontConfig.

(** * Theorems *)

(** ** Production planning: the optimum of the fixed instance *)

Section ProductionPlanning.
Import LinearProgrammingDemo ProductionReference.

Lemma model_of_demo : model_of demo_data = Ok demo_problem.
Proof. reflexivity. Qed.

Lemma feasible_demo_inv (a : assignment) :
  feasible demo_problem a ->
  (0 <= a "x0" /\ 0 <= a "x1" /\ 0 <= a "x2" /\
   2 * a "x0" + 1 * a "x1" + 3 * a "x2" <= 100 /\
   1 * a "x0" + 2 * a "x1" + 1 * a "x2" <= 80)%Q.
Proof.
  intros [Hb Hc].
  unfold demo_problem in *. cbn [variables constraints x map seq] in *.
  repeat match goal with
         | H : Forall _ (_ :: _) |- _ => apply Forall_cons_1 in H; destruct H
         end.
  unfold in_bounds, holds in *. cbn -[Qplus Qmult Qle] in *.
  repeat match goal with H : _ /\ _ |- _ => destruct H end.
  repeat split; try assumption; lra.
Qed.

(** Weak duality with the prices 50/3 per hour and 20/3 per kg. *)
Lemma demo_upper_bound (a : assignment) :
  feasible demo_problem a -> (value a (objective demo_problem) <= 2200)%Q.
Proof.
  intros H. apply feasible_demo_inv in H. cbn -[Qplus Qmult Qle]. lra.
Qed.

Lemma best_plan_feasible : feasible demo_problem best_plan.
Proof.
  split; cbn [variables constraints x map seq demo_problem];
    repeat constructor; unfold in_bounds, holds; cbn; try discriminate; trivial.
Qed.

Lemma best_plan_optimal : optimal demo_problem best_plan.
Proof.
  split; [apply best_plan_feasible|].
  intros b Hb. cbn [better sense demo_problem].
  apply demo_upper_bound in Hb.
  assert (value best_plan (objective demo_problem) == 2200)%Q by reflexivity.
  lra.
Qed.

(** The run of the method, whatever the solver answers. *)
Lemma solve_production_planning_run (solver : Solver) :
  let a := solver demo_problem in
  let sol := [a "x0"; a "x1"; a "x2"] in
  let best := value a (objective demo_problem) in
  let lu := py_sum [2 * a "x0"; 1 * a "x1"; 3 * a "x2"]%Q in
  let mu := py_sum [1 * a "x0"; 2 * a "x1"; 1 * a "x2"]%Q in
  solve_production_planning solver init =
    ([EvSolve demo_problem;
      EvPrint "  劳动力" [lu; 100; lu / 100 * 100]%Q;
      EvPrint "  原材料" [mu; 80; mu / 80 * 100]%Q],
     mkState {[ 0%nat := d_profit demo_data ]}
       (Some (mkResults (d_products demo_data) sol 0%nat best lu mu 100 80
                (d_labor_req demo_data) (d_material_req demo_data))),
     Ok (sol, best)).
Proof. reflexivity. Qed.

(** C1.  When the solve of the production-planning model ends with an
    optimal plan, [solve_production_planning] returns the solver's three
    quantities as the solution and the objective value 2200, which is the
    optimum of the model (a feasible plan reaches it and no feasible plan
    exceeds it), and stores both.  The stored [labor_used] and
    [material_used] are the sums of requirement times quantity over the
    returned solution, 2 x0 + 1 x1 + 3 x2 and 1 x0 + 2 x1 + 1 x2, and
    they do not exceed 100 and 80. *)
Theorem C1_production_planning_optimum (solver : Solver) (p : LpProblem) :
  model_of demo_data = Ok p ->
  optimal p (solver p) ->
  exists tr h r sol best,
    solve_production_planning solver init = (tr, mkState h (Some r), Ok (sol, best)) /\
    solved_models tr = [p] /\
    sol = [solver p "x0"; solver p "x1"; solver p "x2"] /\
    solution r = sol /\ max_profit r = best /\
    (best == 2200)%Q /\ optimum_value p best /\
    used (d_labor_req demo_data) sol = Ok (labor_used r) /\
    used (d_material_req demo_data) sol = Ok (material_used r) /\
    (labor_used r == 2 * nth 0 sol 0 + 1 * nth 1 sol 0 + 3 * nth 2 sol 0)%Q /\
    (material_used r == 1 * nth 0 sol 0 + 2 * nth 1 sol 0 + 1 * nth 2 sol 0)%Q /\
    (labor_used r <= 100)%Q /\ (material_used r <= 80)%Q.
Proof.
  intros Hp Hopt. rewrite model_of_demo in Hp. injection Hp as <-.
  destruct Hopt as [Hfeas Hbest].
  pose proof (Hbest _ best_plan_feasible) as Hge.
  cbn [better sense demo_problem] in Hge.
  pose proof (demo_upper_bound _ Hfeas) as Hle.
  assert (Hv : (value best_plan (objective demo_problem) == 2200)%Q) by reflexivity.
  assert (Heq : (value (solver demo_problem) (objective demo_problem) == 2200)%Q) by lra.
  do 5 eexists. split; [apply solve_production_planning_run|].
  split; [reflexivity|]. split; [reflexivity|].
  split; [reflexivity|]. split; [reflexivity|]. split; [exact Heq|]. split.
  { split.
    - exists (solver demo_problem). split; [assumption | reflexivity].
    - intros b Hb. cbn [better sense demo_problem]. rewrite Heq.
      now apply demo_upper_bound. }
  split; [reflexivity|]. split; [reflexivity|].
  apply feasible_demo_inv in Hfeas.
  cbn [labor_used material_used nth]. unfold py_sum. cbn [fold_left].
  repeat split; lra.
Qed.

Lemma C1_production_planning_optimum_witness :
  model_of demo_data = Ok demo_problem /\
  optimal demo_problem (best_solver demo_problem) /\
  exists tr h r sol best,
    solve_production_planning best_solver init = (tr, mkState h (Some r), Ok (sol, best)) /\
    solved_models tr = [demo_problem] /\
    sol = [best_solver demo_problem "x0"; best_solver demo_problem "x1"; best_solver demo_problem "x2"] /\
    solution r = sol /\ max_profit r = best /\
    (best == 2200)%Q /\ optimum_value demo_problem best /\
    used (d_labor_req demo_data) sol = Ok (labor_used r) /\
    used (d_material_req demo_data) sol = Ok (material_used r) /\
    (labor_used r == 2 * nth 0 sol 0 + 1 * nth 1 sol 0 + 3 * nth 2 sol 0)%Q /\
    (material_used r == 1 * nth 0 sol 0 + 2 * nth 1 sol 0 + 1 * nth 2 sol 0)%Q /\
    (labor_used r <= 100)%Q /\ (material_used r <= 80)%Q.
Proof.
  split; [reflexivity|]. split; [exact best_plan_optimal|].
  exact (C1_production_planning_optimum best_solver demo_problem
           eq_refl best_plan_optimal).
Defined.

End ProductionPlanning.

(** ** Results that never fail *)

Lemma map_result_total {A B : Type} (f : A -> result B) (l : list A) :
  (forall a, a ∈ l -> exists b, f a = Ok b) ->
  exists bs, map_result f l = Ok bs /\ length bs = length l.
Proof.
  induction l as [|a l IH]; intros H; [exists []; split; reflexivity|].
  destruct (H a) as [b Hb]; [left|].
  destruct IH as (bs & Hbs & Hlen); [intros a' Ha'; apply H; now right|].
  exists (b :: bs). cbn [map_result]. rewrite Hb, Hbs. cbn. now rewrite Hlen.
Qed.

Lemma map_result_ext {A B : Type} (f : A -> result B) (g : A -> B) (l : list A) :
  (forall a, a ∈ l -> f a = Ok (g a)) -> map_result f l = Ok (map g l).
Proof.
  induction l as [|a l IH]; intros H; [reflexivity|].
  cbn [map_result map]. rewrite (H a) by left. rewrite IH; [reflexivity|].
  intros a' Ha'. apply H. now right.
Qed.

(** ** Maximum flow: value, minimum cut and capacities *)

Section MaxFlow.
Import NetworkFlowDemo FlowReference.

Lemma flow_network_eq : flow_network = mkGraph true mf_nodes edges_capacity.
Proof. reflexivity. Qed.

Ltac edge_cases H :=
  apply list_elem_of_In in H; vm_compute in H;
  repeat (destruct H as [H|H]; [injection H as <- <- <-|]); [..|destruct H].

Ltac node_cases H :=
  apply list_elem_of_In in H; vm_compute in H;
  repeat (destruct H as [H|H]; [subst|]); [..|destruct H].

Ltac member := apply list_elem_of_In; vm_compute; auto 12.

(** What being a flow says on the nine pipes and the four inner nodes. *)
Lemma is_flow_inv (f : flow) :
  is_flow flow_network "S" "T" f ->
  (0 <= f "S" "A" <= 16 /\ 0 <= f "S" "B" <= 13 /\ 0 <= f "A" "B" <= 4 /\
   0 <= f "A" "C" <= 12 /\ 0 <= f "B" "D" <= 14 /\ 0 <= f "C" "B" <= 9 /\
   0 <= f "C" "T" <= 20 /\ 0 <= f "D" "C" <= 7 /\ 0 <= f "D" "T" <= 4 /\
   f "S" "A" = f "A" "B" + f "A" "C" /\
   f "S" "B" + f "A" "B" + f "C" "B" = f "B" "D" /\
   f "A" "C" + f "D" "C" = f "C" "B" + f "C" "T" /\
   f "B" "D" = f "D" "C" + f "D" "T")%Z.
Proof.
  intros [Hcap Hcons].
  pose proof (Hcap "S" "A" 16%Z ltac:(member)).
  pose proof (Hcap "S" "B" 13%Z ltac:(member)).
  pose proof (Hcap "A" "B" 4%Z ltac:(member)).
  pose proof (Hcap "A" "C" 12%Z ltac:(member)).
  pose proof (Hcap "B" "D" 14%Z ltac:(member)).
  pose proof (Hcap "C" "B" 9%Z ltac:(member)).
  pose proof (Hcap "C" "T" 20%Z ltac:(member)).
  pose proof (Hcap "D" "C" 7%Z ltac:(member)).
  pose proof (Hcap "D" "T" 4%Z ltac:(member)).
  assert (HA : total [f "S" "A"] = total [f "A" "B"; f "A" "C"]).
  { apply (Hcons "A"); [member | discriminate | discriminate]. }
  assert (HB : total [f "S" "B"; f "A" "B"; f "C" "B"] = total [f "B" "D"]).
  { apply (Hcons "B"); [member | discriminate | discriminate]. }
  assert (HC : total [f "A" "C"; f "D" "C"] = total [f "C" "B"; f "C" "T"]).
  { apply (Hcons "C"); [member | discriminate | discriminate]. }
  assert (HD : total [f "B" "D"] = total [f "D" "C"; f "D" "T"]).
  { apply (Hcons "D"); [member | discriminate | discriminate]. }
  unfold total in *. cbn [foldr] in *. lia.
Qed.

Lemma flow_value_demo (f : flow) :
  flow_value flow_network f "S" = (f "S" "A" + f "S" "B")%Z.
Proof.
  change (flow_value flow_network f "S")
    with (total [f "S" "A"; f "S" "B"] - total [])%Z.
  unfold total. cbn [foldr]. lia.
Qed.

(** No flow carries more than the cut {S, A, B, D} lets through. *)
Lemma flow_value_bound (f : flow) :
  is_flow flow_network "S" "T" f -> (flow_value flow_network f "S" <= 23)%Z.
Proof.
  intros H. rewrite flow_value_demo. apply is_flow_inv in H. lia.
Qed.

Lemma demo_flow_is_flow : is_flow flow_network "S" "T" demo_flow.
Proof.
  split.
  - intros u v c H. edge_cases H; vm_compute; split; discriminate.
  - intros n H HS HT. node_cases H; try congruence; reflexivity.
Qed.

Lemma demo_flow_value : flow_value flow_network demo_flow "S" = 23%Z.
Proof. reflexivity. Qed.

Lemma demo_cut : is_cut "S" "T" ["S"; "A"; "B"; "D"] /\
                 cut_capacity flow_network ["S"; "A"; "B"; "D"] = 23%Z.
Proof.
  split; [|reflexivity]. split.
  - left.
  - intros H. node_cases H; discriminate.
Qed.

(** The capacity of a cut, edge by edge. *)
Lemma cut_capacity_by_edge (g : Graph) (X : list string) :
  cut_capacity g X =
  total (map (fun e => if bool_decide (fst (fst e) ∈ X) && negb (bool_decide (snd (fst e) ∈ X))
                       then snd e else 0%Z) (edges g)).
Proof.
  unfold cut_capacity. induction (edges g) as [|e es IH]; [reflexivity|].
  rewrite filter_cons. cbn [map total foldr]. fold (total (map
    (fun e => if bool_decide (fst (fst e) ∈ X) && negb (bool_decide (snd (fst e) ∈ X))
              then snd e else 0%Z) es)).
  rewrite <- IH. case_decide as H.
  - destruct H as [H1 H2].
    rewrite (bool_decide_eq_true_2 _ H1), (bool_decide_eq_false_2 _ H2). reflexivity.
  - destruct (bool_decide_reflect (fst (fst e) ∈ X));
      destruct (bool_decide_reflect (snd (fst e) ∈ X)); cbn; try lia.
    exfalso. apply H. split; assumption.
Qed.

Lemma every_cut_bound (X : list string) :
  is_cut "S" "T" X -> (23 <= cut_capacity flow_network X)%Z.
Proof.
  intros [HS HT]. rewrite cut_capacity_by_edge, flow_network_eq.
  unfold edges, edges_capacity. cbn [map total foldr fst snd].
  rewrite (bool_decide_eq_true_2 _ HS), (bool_decide_eq_false_2 _ HT).
  destruct (bool_decide ("A" ∈ X)); destruct (bool_decide ("B" ∈ X));
    destruct (bool_decide ("C" ∈ X)); destruct (bool_decide ("D" ∈ X));
    cbn [andb negb]; lia.
Qed.

Lemma min_cut_demo : min_cut_capacity flow_network "S" "T" 23.
Proof.
  split.
  - exists ["S"; "A"; "B"; "D"]. exact demo_cut.
  - exact every_cut_bound.
Qed.

Lemma dict_of_demo (f : flow) :
  dict_of flow_network f =
    [("S", [("A", f "S" "A"); ("B", f "S" "B")]);
     ("A", [("B", f "A" "B"); ("C", f "A" "C")]);
     ("B", [("D", f "B" "D")]);
     ("C", [("B", f "C" "B"); ("T", f "C" "T")]);
     ("D", [("C", f "D" "C"); ("T", f "D" "T")]);
     ("T", [])].
Proof. reflexivity. Qed.

Lemma py_div_nonzero (a : Q) (c : Z) :
  c ≠ 0%Z -> py_div a (inject_Z c) = Ok (a / inject_Z c)%Q.
Proof.
  intros Hc. unfold py_div. destruct (Qeq_bool (inject_Z c) 0) eqn:E; [|reflexivity].
  apply Qeq_bool_iff in E. exfalso. apply Hc.
  apply inject_Z_injective. exact E.
Qed.

Lemma edge_attr_demo (u w : string) (c : Z) :
  (u, w, c) ∈ edges_capacity -> edge_attr flow_network u w = Ok c /\ (0 < c)%Z.
Proof. intros H. edge_cases H; (split; [vm_compute; reflexivity | lia]). Qed.

(** One cell of the loop of lines 96-111. *)
Lemma flow_detail_total (g : Graph) (u w : string) (c fl : Z) :
  edge_attr g u w = Ok c -> (0 < c)%Z ->
  exists b,
    (if decide (fl > 0)%Z then
       capacity ← edge_attr g u w;
       util ← utilization fl capacity;
       Ok [mkFlowDetail u w fl capacity util]
     else Ok []) = Ok b.
Proof.
  intros He Hc. case_decide; [|eexists; reflexivity].
  rewrite He. cbn [mbind result_bind]. unfold utilization.
  rewrite py_div_nonzero by lia. eexists. reflexivity.
Qed.

(** The loop runs to its end on the dict of any flow: every pipe has a
    positive capacity to divide by. *)
Lemma flow_details_total (f : flow) :
  exists ds, flow_details_of flow_network (dict_of flow_network f) = Ok ds.
Proof.
  unfold flow_details_of. rewrite dict_of_demo.
  match goal with
  | |- context [map_result ?F ?L] =>
      destruct (map_result_total F L) as (bs & Hbs & _)
  end.
  - intros row Hrow.
    apply list_elem_of_In in Hrow. cbn [In] in Hrow.
    repeat (destruct Hrow as [<-|Hrow]); [..|destruct Hrow];
      cbn [fst snd];
      (match goal with
       | |- context [map_result ?F ?L] =>
           destruct (map_result_total F L) as (cs & Hcs & _); [|eauto]
       end);
      intros cell Hcell; apply list_elem_of_In in Hcell; cbn [In] in Hcell;
      repeat (destruct Hcell as [<-|Hcell]); try destruct Hcell;
      cbn [fst snd];
      (match goal with
       | |- context [edge_attr flow_network ?u ?w] =>
           edestruct (edge_attr_demo u w) as [He Hc];
           [apply list_elem_of_In; unfold edges_capacity; cbn [In]; eauto 12
           |exact (flow_detail_total _ _ _ _ _ He Hc)]
       end).
  - rewrite Hbs. eexists. reflexivity.
Qed.

Lemma solve_max_flow_run (nx : Library) (G : Graph) (v : Z) (d : flow_dict)
    (ds : list FlowDetail) :
  maximum_flow nx G "S" "T" = (v, d) ->
  flow_details_of G d = Ok ds ->
  solve_max_flow_problem_on G nx init =
    ([EvGraph "maximum_flow"],
     mkState (Some (mkMaxFlow G v d ds (filter (fun x => is_bottleneck x = true) ds)))
             None None (Some G) None,
     Ok (v, d)).
Proof.
  intros Hmf Hds. unfold solve_max_flow_problem_on.
  cbv [mbind Run_bind emit lift mret Run_ret set_max_flow].
  rewrite Hmf. cbn [fst snd]. rewrite Hds. reflexivity.
Qed.

Lemma flow_on_demo (f : flow) (u w : string) (c : Z) :
  (u, w, c) ∈ edges_capacity -> flow_on (dict_of flow_network f) u w = Ok (f u w).
Proof.
  intros H. rewrite dict_of_demo. edge_cases H; vm_compute; reflexivity.
Qed.

(** C2.  When [nx.maximum_flow] returns a maximum flow of the water
    network, [solve_max_flow_problem] returns and stores a value that is
    the capacity of a minimum S-T cut (23: some cut has that capacity and
    no cut has less), and the flow it returns for each of the nine pipes
    lies between 0 and the pipe's capacity. *)
Theorem C2_max_flow_equals_min_cut (nx : Library) :
  returns_maximum_flow nx flow_network "S" "T" ->
  exists tr st r v d,
    solve_max_flow_problem nx init = (tr, st, Ok (v, d)) /\
    max_flow st = Some r /\ max_flow_value r = v /\ mf_flow_dict r = d /\
    min_cut_capacity flow_network "S" "T" v /\ v = 23%Z /\
    forall u w c, (u, w, c) ∈ edges_capacity ->
      exists fl, flow_on d u w = Ok fl /\ (0 <= fl <= c)%Z.
Proof.
  intros (f & Hf & Hret & Hmax).
  destruct (flow_details_total f) as [ds Hds].
  assert (Hv : flow_value flow_network f "S" = 23%Z).
  { pose proof (flow_value_bound f Hf).
    pose proof (Hmax _ demo_flow_is_flow) as Hge. rewrite demo_flow_value in Hge. lia. }
  do 5 eexists. split; [exact (solve_max_flow_run nx _ _ _ _ Hret Hds)|].
  split; [reflexivity|]. split; [reflexivity|]. split; [reflexivity|].
  split; [rewrite Hv; exact min_cut_demo|]. split; [exact Hv|].
  intros u w c Hin. exists (f u w). split; [now apply (flow_on_demo f u w c)|].
  apply (within_capacity _ _ _ _ Hf). exact Hin.
Qed.

Lemma demo_library_maximum_flow : returns_maximum_flow demo_library flow_network "S" "T".
Proof.
  exists demo_flow. split; [exact demo_flow_is_flow|]. split; [reflexivity|].
  intros f' Hf'. rewrite demo_flow_value. now apply flow_value_bound.
Qed.

Lemma C2_max_flow_equals_min_cut_witness :
  returns_maximum_flow demo_library flow_network "S" "T" /\
  exists tr st r v d,
    solve_max_flow_problem demo_library init = (tr, st, Ok (v, d)) /\
    max_flow st = Some r /\ max_flow_value r = v /\ mf_flow_dict r = d /\
    min_cut_capacity flow_network "S" "T" v /\ v = 23%Z /\
    forall u w c, (u, w, c) ∈ edges_capacity ->
      exists fl, flow_on d u w = Ok fl /\ (0 <= fl <= c)%Z.
Proof.
  split; [exact demo_library_maximum_flow|].
  exact (C2_max_flow_equals_min_cut demo_library demo_library_maximum_flow).
Defined.
End MaxFlow.

(** ** Shortest path: the returned distance and its optimality *)

Section ShortestPath.
Import NetworkFlowDemo PathReference FlowReference.

Lemma path_weight_step (g : Graph) (u v : string) (p : list string) :
  path_weight g (u :: v :: p) =
    match edge_attr g u v, path_weight g (v :: p) with
    | Ok w, Some r => Some (w + r)%Z
    | _, _ => None
    end.
Proof. reflexivity. Qed.

Lemma walk_step (g : Graph) (u v : string) (p : list string) (acc : Z) :
  walk g (u :: v :: p) acc =
    (distance ← edge_attr g u v;
     r ← walk g (v :: p) (acc + distance)%Z;
     Ok (mkPathDetail u v distance (acc + distance)%Z :: fst r, snd r)).
Proof. reflexivity. Qed.

(** The loop of lines 290-304 adds up what [path_weight] adds up. *)
Lemma walk_weight (g : Graph) (p : list string) :
  forall acc w, path_weight g p = Some w ->
    exists ds, walk g p acc = Ok (ds, (acc + w)%Z).
Proof.
  induction p as [|u p IH]; intros acc w Hw.
  - cbn in Hw. injection Hw as <-. exists []. cbn. f_equal. f_equal. lia.
  - destruct p as [|v p].
    + cbn in Hw. injection Hw as <-. exists []. cbn. f_equal. f_equal. lia.
    + rewrite path_weight_step in Hw. rewrite walk_step.
      destruct (edge_attr g u v) as [d|] eqn:Hd; [|discriminate].
      destruct (path_weight g (v :: p)) as [r|] eqn:Hr; [|discriminate].
      injection Hw as <-.
      destruct (IH (acc + d)%Z r eq_refl) as [ds Hds].
      cbn [mbind result_bind]. rewrite Hds. cbn [mbind result_bind fst snd].
      eexists. f_equal. f_equal. lia.
Qed.

Lemma edge_attr_inv (g : Graph) (u v : string) (w : Z) :
  edge_attr g u v = Ok w ->
  exists e, e ∈ edges g /\ joins g u v e = true /\ snd e = w.
Proof.
  unfold edge_attr. intros H.
  destruct (filter (fun e => joins g u v e = true) (edges g)) as [|e l] eqn:Hf;
    [discriminate|].
  injection H as <-. exists e.
  assert (He : e ∈ filter (fun e => joins g u v e = true) (edges g)) by (rewrite Hf; left).
  apply list_elem_of_filter in He. tauto.
Qed.

Lemma road_network_eq : road_network = mkGraph false cities roads.
Proof. vm_compute. reflexivity. Qed.

(** No road is shorter than the difference of its ends' distances. *)
Lemma road_bound (u v : string) (w : Z) :
  edge_attr road_network u v = Ok w ->
  (demo_distance v - demo_distance u <= w)%Z.
Proof.
  rewrite road_network_eq.
  intros H. apply edge_attr_inv in H as (e & He & Hj & <-).
  apply list_elem_of_In in He. unfold edges, roads in He. cbn [In] in He.
  repeat (destruct He as [<-|He]); [..|destruct He];
    unfold joins in Hj; cbn [fst snd directed negb andb] in Hj;
    apply orb_true_iff in Hj; destruct Hj as [Hj|Hj];
    repeat (apply andb_true_iff in Hj; destruct Hj as [Hj ?]);
    repeat match goal with
           | H : bool_decide _ = true |- _ => apply bool_decide_eq_true_1 in H; subst
           | H : Is_true (bool_decide _) |- _ => apply bool_decide_unpack in H; subst
           end;
    vm_compute; discriminate.
Qed.

Lemma path_bound (p : list string) :
  forall u v w, head p = Some u -> last p = Some v ->
    path_weight road_network p = Some w ->
    (demo_distance v - demo_distance u <= w)%Z.
Proof.
  induction p as [|a p IH]; intros u v w Hu Hv Hw; [discriminate|].
  injection Hu as ->.
  destruct p as [|b p].
  - cbn in Hv, Hw. injection Hv as ->. injection Hw as <-. lia.
  - rewrite path_weight_step in Hw.
    destruct (edge_attr road_network u b) as [d|] eqn:Hd; [|discriminate].
    destruct (path_weight road_network (b :: p)) as [r|] eqn:Hr; [|discriminate].
    injection Hw as <-.
    pose proof (road_bound _ _ _ Hd).
    pose proof (IH b v r eq_refl Hv eq_refl). lia.
Qed.

Lemma demo_path_simple : simple_path road_network "起点" "终点" demo_path 32.
Proof.
  split; [|split; [split; reflexivity | vm_compute; reflexivity]].
  unfold demo_path. repeat constructor; intros H;
    apply list_elem_of_In in H; vm_compute in H; intuition discriminate.
Qed.

Lemma shortest_is_32 (q : list string) (wq : Z) :
  simple_path road_network "起点" "终点" q wq -> (32 <= wq)%Z.
Proof.
  intros (_ & [Hh Hl] & Hw). exact (path_bound q _ _ _ Hh Hl Hw).
Qed.

Lemma solve_shortest_path_run (nx : Library) (G : Graph) (pd : list PathDetail) (t : Z) :
  walk G (shortest_path nx G "起点" "终点") 0 = Ok (pd, t) ->
  solve_shortest_path_problem_on G nx init =
    ([EvGraph "shortest_path"; EvGraph "shortest_path_length";
      EvMetric "all_pairs_shortest_path_length"; EvMetric "diameter";
      EvMetric "average_shortest_path_length"],
     mkState None None
       (Some (mkShortestPath G (shortest_path nx G "起点" "终点")
                (shortest_path_length nx G "起点" "终点") pd))
       None (Some G),
     Ok (shortest_path nx G "起点" "终点", shortest_path_length nx G "起点" "终点")).
Proof.
  intros Hw. unfold solve_shortest_path_problem_on.
  cbv [mbind Run_bind emit lift mret Run_ret set_shortest_path].
  rewrite Hw. reflexivity.
Qed.

(** C3.  When [nx.shortest_path] and [nx.shortest_path_length] return a
    shortest simple route and its length on the road network,
    [solve_shortest_path_problem] returns a distance that is the sum of
    the edge weights along the returned path (the total that the method's
    own loop over the legs accumulates), that is at most the cost of
    every simple path from 起点 to 终点, and that is 32. *)
Theorem C3_shortest_path_cost_and_optimality (nx : Library) :
  returns_shortest_path nx road_network "起点" "终点" ->
  returns_shortest_length nx road_network "起点" "终点" ->
  exists tr st r path dist pd,
    solve_shortest_path_problem nx init = (tr, st, Ok (path, dist)) /\
    shortest_path_result st = Some r /\
    sp_shortest_path r = path /\ shortest_distance r = dist /\ path_details r = pd /\
    path_weight road_network path = Some dist /\
    walk road_network path 0 = Ok (pd, dist) /\
    (forall q wq, simple_path road_network "起点" "终点" q wq -> (dist <= wq)%Z) /\
    dist = 32%Z.
Proof.
  intros (w & Hp & Hpmin) ((q & Hq) & Hqmin).
  assert (Hwd : w = shortest_path_length nx road_network "起点" "终点").
  { pose proof (Hpmin _ _ Hq). pose proof (Hqmin _ _ Hp). lia. }
  subst w.
  destruct Hp as (Hnd & Hends & Hw).
  destruct (walk_weight _ _ 0%Z _ Hw) as [pd Hpd]. rewrite Z.add_0_l in Hpd.
  do 6 eexists. split; [exact (solve_shortest_path_run nx _ _ _ Hpd)|].
  do 4 (split; [reflexivity|]).
  split; [exact Hw|]. split; [exact Hpd|]. split; [exact Hqmin|].
  pose proof (Hqmin _ _ demo_path_simple). pose proof (shortest_is_32 _ _ Hq). lia.
Qed.

Lemma demo_library_shortest_path :
  returns_shortest_path demo_library road_network "起点" "终点".
Proof.
  exists 32%Z. split; [exact demo_path_simple|]. exact shortest_is_32.
Qed.

Lemma demo_library_shortest_length :
  returns_shortest_length demo_library road_network "起点" "终点".
Proof.
  split; [exists demo_path; exact demo_path_simple|]. exact shortest_is_32.
Qed.

Lemma C3_shortest_path_cost_and_optimality_witness :
  returns_shortest_path demo_library road_network "起点" "终点" /\
  returns_shortest_length demo_library road_network "起点" "终点" /\
  exists tr st r path dist pd,
    solve_shortest_path_problem demo_library init = (tr, st, Ok (path, dist)) /\
    shortest_path_result st = Some r /\
    sp_shortest_path r = path /\ shortest_distance r = dist /\ path_details r = pd /\
    path_weight road_network path = Some dist /\
    walk road_network path 0 = Ok (pd, dist) /\
    (forall q wq, simple_path road_network "起点" "终点" q wq -> (dist <= wq)%Z) /\
    dist = 32%Z.
Proof.
  split; [exact demo_library_shortest_path|].
  split; [exact demo_library_shortest_length|].
  exact (C3_shortest_path_cost_and_optimality demo_library
           demo_library_shortest_path demo_library_shortest_length).
Defined.
End ShortestPath.

(** ** Transportation: the balance check and the model *)

Section Transportation.
Import TransportationProblemDemo TransportReference.

Lemma py_sumZ_snoc (l : list Z) (x : Z) : py_sumZ (l ++ [x]) = (py_sumZ l + x)%Z.
Proof.
  unfold py_sumZ at 1. rewrite fold_left_app. cbn [fold_left].
  fold (py_sumZ l). reflexivity.
Qed.

(** Whenever the balance check returns, supply and demand add up to the
    same total. *)
Lemma rebalance_balanced (sc sc' : Scenario) :
  rebalance sc = Ok sc' -> py_sumZ (supply sc') = py_sumZ (demand sc').
Proof.
  unfold rebalance. intros H.
  repeat case_decide.
  - destruct (column_stack _ _); [|discriminate]. injection H as <-.
    cbn [supply demand]. rewrite py_sumZ_snoc. lia.
  - destruct (vstack _ _); [|discriminate]. injection H as <-.
    cbn [supply demand]. rewrite py_sumZ_snoc. lia.
  - injection H as <-. lia.
Qed.

(** With a surplus and three factories: one more warehouse, whose demand
    is the surplus and whose every unit cost is 0. *)
Lemma rebalance_surplus (sc : Scenario) :
  (py_sumZ (supply sc) > py_sumZ (demand sc))%Z ->
  length (cost_matrix sc) = 3%nat ->
  rebalance sc =
    Ok (mkScenario (factories sc) (warehouses sc ++ ["虚拟仓库"]) (supply sc)
          (demand sc ++ [py_sumZ (supply sc) - py_sumZ (demand sc)]%Z)
          (map (fun r => r ++ [0%Q]) (cost_matrix sc))).
Proof.
  intros Hgt Hlen. unfold rebalance.
  case_decide; [|lia]. case_decide; [|lia].
  unfold column_stack, nrows. rewrite Hlen. cbn [zeros repeat length mbind result_bind].
  case_decide; [|congruence].
  destruct (cost_matrix sc) as [|r1 [|r2 [|r3 [|r4 m]]]]; try discriminate.
  reflexivity.
Qed.

(** With a deficit: one more factory, whose supply is the deficit and
    whose every unit cost is 0. *)
Lemma rebalance_deficit (sc : Scenario) :
  (py_sumZ (supply sc) < py_sumZ (demand sc))%Z ->
  ncols (cost_matrix sc) = length (warehouses sc) ->
  rebalance sc =
    Ok (mkScenario (factories sc ++ ["虚拟工厂"]) (warehouses sc)
          (supply sc ++ [py_sumZ (demand sc) - py_sumZ (supply sc)]%Z) (demand sc)
          (cost_matrix sc ++ [repeat 0%Q (length (warehouses sc))])).
Proof.
  intros Hlt Hlen. unfold rebalance.
  case_decide; [|lia]. case_decide; [lia|].
  unfold vstack, zeros. rewrite repeat_length.
  case_decide; [|congruence]. reflexivity.
Qed.

(** With a surplus and a number of factories other than three the step
    raises: [np.zeros(3)] cannot be stacked as a column. *)
Lemma rebalance_surplus_raises (sc : Scenario) :
  (py_sumZ (supply sc) > py_sumZ (demand sc))%Z ->
  length (cost_matrix sc) ≠ 3%nat ->
  rebalance sc = Raise ValueError.
Proof.
  intros Hgt Hlen. unfold rebalance.
  case_decide; [|lia]. case_decide; [|lia].
  unfold column_stack, nrows. cbn [zeros repeat length].
  case_decide; [congruence|]. reflexivity.
Qed.




(** *** The model of a well-shaped scenario *)

Lemma constraints_add_constraints (p : LpProblem) (cs : list LpConstraint) :
  constraints (add_constraints p cs) = constraints p ++ cs.
Proof.
  unfold add_constraints. revert p. induction cs as [|c cs IH]; intros p; cbn [fold_left].
  - now rewrite app_nil_r.
  - rewrite IH. cbn [add_constraint constraints]. now rewrite <- app_assoc.
Qed.

Lemma py_index_lookup {A : Type} (l : list A) (i : nat) (v : A) :
  l !! i = Some v -> py_index l i = Ok v.
Proof. intros H. unfold py_index. now rewrite H. Qed.

Lemma map_seq_lookup {A B : Type} (f : A -> B) (l : list A) (d : A) :
  map (fun i => f (nth i l d)) (seq 0 (length l)) = map f l.
Proof.
  rewrite <- (map_map (fun i => nth i l d) f). f_equal.
  apply nth_ext with (d := d) (d' := d); [now rewrite length_map, length_seq|].
  intros n Hn. rewrite length_map, length_seq in Hn.
  rewrite (nth_indep _ _ (nth 0 l d)) by now rewrite length_map, length_seq.
  rewrite (map_nth (fun i => nth i l d)), seq_nth by assumption. reflexivity.
Qed.

Lemma lpSum_ones {A : Type} (f : A -> LpVariable) (l : list A) :
  lpSum (map (fun a => (1%Q, f a)) l) = map (fun a => (1%Q, name (f a))) l.
Proof. unfold lpSum. now rewrite map_map. Qed.

Lemma grid_inv (m n : nat) (ij : nat * nat) :
  ij ∈ flat_map (fun i => map (fun j => (i, j)) (seq 0 n)) (seq 0 m) ->
  (fst ij < m)%nat /\ (snd ij < n)%nat.
Proof.
  intros H. apply list_elem_of_In, in_flat_map in H as (i & Hi & H).
  apply in_map_iff in H as (j & <- & Hj).
  apply in_seq in Hi, Hj. cbn. lia.
Qed.

Lemma matrix_index_total (cm : matrix) (m n i j : nat) :
  length cm = m -> Forall (fun r => length r = n) cm ->
  (i < m)%nat -> (j < n)%nat -> exists c, matrix_index cm i j = Ok c.
Proof.
  intros Hm Hn Hi Hj. unfold matrix_index.
  destruct (lookup_lt_is_Some_2 cm i) as [r Hr]; [lia|].
  rewrite (py_index_lookup _ _ _ Hr). cbn [mbind result_bind].
  assert (Hlen : length r = n).
  { rewrite Forall_forall in Hn. apply Hn.
    eapply list_elem_of_lookup_2. exact Hr. }
  destruct (lookup_lt_is_Some_2 r j) as [c Hc]; [lia|].
  exists c. now apply py_index_lookup.
Qed.

Lemma py_index_nth {A : Type} (l : list A) (i : nat) (d : A) :
  (i < length l)%nat -> py_index l i = Ok (nth i l d).
Proof.
  intros Hi. destruct (lookup_lt_is_Some_2 l i Hi) as [v Hv].
  rewrite (py_index_lookup _ _ _ Hv). f_equal.
  symmetry. apply nth_lookup_Some with (d := d). exact Hv.
Qed.

(** On a well-shaped scenario the model is built, with one equality per
    factory and one per warehouse, whatever the numbers are. *)
Lemma transport_model_total (sc : Scenario) :
  dims_agree sc ->
  exists p, transport_model sc = Ok p /\
    constraints p =
      map (fun i => ships_exactly (length (warehouses sc)) i (nth i (supply sc) 0%Z))
          (seq 0 (length (factories sc)))
      ++ map (fun j => receives_exactly (length (factories sc)) j (nth j (demand sc) 0%Z))
             (seq 0 (length (warehouses sc))).
Proof.
  intros (Hrows & Hcols & Hsup & Hdem). unfold transport_model.
  match goal with
  | |- context [map_result ?F (flat_map ?G ?L)] =>
      destruct (map_result_total F (flat_map G L)) as (obj & Hobj & _)
  end.
  { intros ij Hij. apply grid_inv in Hij as [Hi Hj].
    destruct (matrix_index_total (cost_matrix sc) _ _ _ _ Hrows Hcols Hi Hj) as [c Hc].
    rewrite Hc. eexists. reflexivity. }
  rewrite Hobj. cbn [mbind result_bind].
  rewrite (map_result_ext _
             (fun i => ships_exactly (length (warehouses sc)) i (nth i (supply sc) 0%Z))
             (seq 0 (length (factories sc)))).
  2:{ intros i Hi. apply list_elem_of_In, in_seq in Hi.
      rewrite (py_index_nth _ _ 0%Z) by lia. cbn [mbind result_bind].
      unfold ships_exactly. now rewrite lpSum_ones. }
  cbn [mbind result_bind].
  rewrite (map_result_ext _
             (fun j => receives_exactly (length (factories sc)) j (nth j (demand sc) 0%Z))
             (seq 0 (length (warehouses sc)))).
  2:{ intros j Hj. apply list_elem_of_In, in_seq in Hj.
      rewrite (py_index_nth _ _ 0%Z) by lia. cbn [mbind result_bind].
      unfold receives_exactly. now rewrite lpSum_ones. }
  cbn [mbind result_bind]. eexists. split; [reflexivity|].
  rewrite !constraints_add_constraints. reflexivity.
Qed.

Lemma rebalance_total (sc : Scenario) :
  dims_agree sc -> factories sc ≠ [] ->
  ((py_sumZ (supply sc) > py_sumZ (demand sc))%Z -> length (factories sc) = 3%nat) ->
  exists sc', rebalance sc = Ok sc' /\ dims_agree sc'.
Proof.
  intros (Hrows & Hcols & Hsup & Hdem) Hne H3.
  destruct (Z.lt_trichotomy (py_sumZ (supply sc)) (py_sumZ (demand sc))) as [Hlt|[Heq|Hgt]].
  - assert (Hn : ncols (cost_matrix sc) = length (warehouses sc)).
    { destruct (cost_matrix sc) as [|r m] eqn:E.
      - destruct (factories sc); [congruence|discriminate].
      - apply Forall_cons_1 in Hcols. tauto. }
    eexists. split; [apply rebalance_deficit; assumption|].
    unfold dims_agree. cbn [cost_matrix factories warehouses supply demand].
    rewrite !length_app. cbn [length]. repeat split; try lia.
    apply Forall_app. split; [assumption|].
    constructor; [apply repeat_length | constructor].
  - exists sc. split; [|repeat split; assumption].
    unfold rebalance. case_decide; [lia|reflexivity].
  - eexists. split; [apply rebalance_surplus; [lia | rewrite Hrows; apply H3; lia]|].
    unfold dims_agree. cbn [cost_matrix factories warehouses supply demand].
    rewrite !length_app, length_map. cbn [length]. repeat split; try lia.
    apply Forall_map. eapply Forall_impl; [exact Hcols|].
    intros r Hr. cbn beta in *. rewrite !length_app. cbn [length]. lia.
Qed.

Lemma data_frame_agrees (sc : Scenario) :
  cost_shape_agrees sc ->
  data_frame (cost_matrix sc) (factories sc) (warehouses sc) = Ok tt.
Proof. intros H. unfold data_frame. now rewrite decide_True. Qed.

(** A cost matrix of the wrong shape is rejected when the cost table is
    tabulated, before the balance check and the model. *)
Lemma build_rejects_shape (sc : Scenario) :
  ~ cost_shape_agrees sc -> build sc = Raise ValueError.
Proof. intros H. unfold build, data_frame. now rewrite decide_False. Qed.

Lemma build_total (sc : Scenario) :
  dims_agree sc -> factories sc ≠ [] ->
  ((py_sumZ (supply sc) > py_sumZ (demand sc))%Z -> length (factories sc) = 3%nat) ->
  exists sc' p, build sc = Ok (sc', p) /\ dims_agree sc' /\
    constraints p =
      map (fun i => ships_exactly (length (warehouses sc')) i (nth i (supply sc') 0%Z))
          (seq 0 (length (factories sc')))
      ++ map (fun j => receives_exactly (length (factories sc')) j (nth j (demand sc') 0%Z))
             (seq 0 (length (warehouses sc'))).
Proof.
  intros Hd Hne H3.
  destruct (rebalance_total sc Hd Hne H3) as (sc' & Hsc' & Hd').
  destruct (transport_model_total sc' Hd') as (p & Hp & Hcs).
  exists sc', p. unfold build.
  rewrite data_frame_agrees by (destruct Hd as (? & ? & _); split; assumption).
  cbn [mbind result_bind]. rewrite Hsc'. cbn [mbind result_bind].
  rewrite Hp. cbn [mbind result_bind]. split; [reflexivity|]. split; assumption.
Qed.

(** C6, as the code has it.  The builder knows no InvalidScenario and
    checks no sign.  Given a supply per factory and a demand per warehouse
    (at least one factory, and three of them when supply exceeds demand):
    when the cost matrix has a row per factory and a column per warehouse
    the model is built, negative values included, and its constraints are
    equalities whose right-hand sides are the supplies and demands as given
    (after the balance check); when the cost matrix has another shape the
    method fails before the model is built, with the ValueError of
    tabulating the cost table. *)
Theorem C6_builder_checks_shape_not_signs (sc : Scenario) :
  length (supply sc) = length (factories sc) ->
  length (demand sc) = length (warehouses sc) ->
  factories sc ≠ [] ->
  ((py_sumZ (supply sc) > py_sumZ (demand sc))%Z -> length (factories sc) = 3%nat) ->
  (cost_shape_agrees sc ->
   exists sc' p, build sc = Ok (sc', p) /\
     Forall is_equality (constraints p) /\
     map rhs (constraints p) = map inject_Z (supply sc' ++ demand sc')) /\
  (~ cost_shape_agrees sc -> build sc = Raise ValueError).
Proof.
  intros Hs Hdm Hne H3. split; [|apply build_rejects_shape].
  intros [Hrows Hcols].
  destruct (build_total sc) as (sc' & p & Hb & Hd' & Hcs); try assumption.
  { repeat split; assumption. }
  exists sc', p. split; [exact Hb|].
  destruct Hd' as (_ & _ & Hsup & Hdem).
  rewrite Hcs. split.
  - apply Forall_app. split; apply Forall_map, Forall_forall; intros; reflexivity.
  - rewrite !map_app, !map_map. cbn [ships_exactly receives_exactly rhs].
    rewrite <- Hsup, <- Hdem. now rewrite !map_seq_lookup.
Qed.

Lemma negative_supply_dims : dims_agree negative_supply.
Proof. unfold dims_agree. cbn. repeat split; repeat constructor. Qed.

Lemma C6_builder_checks_shape_not_signs_witness :
  length (supply negative_supply) = length (factories negative_supply) /\
  length (demand negative_supply) = length (warehouses negative_supply) /\
  factories negative_supply ≠ [] /\
  (cost_shape_agrees negative_supply ->
   exists sc' p, build negative_supply = Ok (sc', p) /\
     Forall is_equality (constraints p) /\
     map rhs (constraints p) = map inject_Z (supply sc' ++ demand sc')) /\
  (~ cost_shape_agrees negative_supply -> build negative_supply = Raise ValueError).
Proof.
  split; [reflexivity|]. split; [reflexivity|]. split; [discriminate|].
  apply (C6_builder_checks_shape_not_signs negative_supply).
  - reflexivity.
  - reflexivity.
  - discriminate.
  - cbn. lia.
Defined.

(** C6, refuted as stated.  A negative supply is accepted: the model of
    the demo's scenario with supplies -100, 800, 500 is built, and its
    first constraint asks factory A to ship exactly -100. *)
Lemma C6_negative_supply_is_accepted :
  has_negative negative_supply /\
  exists p c, build negative_supply = Ok (negative_supply, p) /\
    head (constraints p) = Some c /\ rhs c = inject_Z (-100).
Proof.
  split; [left; cbn; lia|].
  do 2 eexists. split; [vm_compute; reflexivity|]. split; reflexivity.
Qed.

(** A cost matrix with a row too many never reaches the model. *)
Lemma extra_cost_row_rejected : build extra_cost_row = Raise ValueError.
Proof. apply build_rejects_shape. intros [H _]. discriminate H. Qed.

(** *** The run of [solve_basic_transportation] *)

Lemma solution_of_shape (sc : Scenario) (a : assignment) :
  length (solution_of sc a) = length (factories sc) /\
  Forall (fun r => length r = length (warehouses sc)) (solution_of sc a).
Proof.
  unfold solution_of. split; [now rewrite length_map, length_seq|].
  apply Forall_map, Forall_forall. intros i _. cbn. now rewrite length_map, length_seq.
Qed.

(** The loop of lines 156-168 runs to its end on a well-shaped scenario. *)
Lemma routes_of_total (sc : Scenario) (a : assignment) :
  dims_agree sc -> exists rd, routes_of sc (solution_of sc a) = Ok rd.
Proof.
  intros (Hrows & Hcols & Hsup & Hdem). unfold routes_of.
  destruct (solution_of_shape sc a) as [Hlen Hrow].
  match goal with
  | |- context [map_result ?F ?L] => destruct (map_result_total F L) as (rs & Hrs & _)
  end.
  - intros ij Hij. apply grid_inv in Hij as [Hi Hj]. cbn zeta.
    destruct (matrix_index_total _ _ _ _ _ Hlen Hrow Hi Hj) as [q ->].
    cbn [mbind result_bind]. destruct (py_gt q 0); [|eexists; reflexivity].
    destruct (matrix_index_total _ _ _ _ _ Hrows Hcols Hi Hj) as [c ->].
    cbn [mbind result_bind].
    rewrite (py_index_nth (factories sc) _ "") by lia.
    rewrite (py_index_nth (warehouses sc) _ "") by lia.
    eexists. reflexivity.
  - rewrite Hrs. eexists. reflexivity.
Qed.

Lemma solve_basic_transportation_run (sc sc' : Scenario) (p : LpProblem)
    (solver : Solver) (rd : list Route) (s : State) :
  build sc = Ok (sc', p) ->
  routes_of sc' (solution_of sc' (solver p)) = Ok rd ->
  solve_basic_transportation_on sc solver s =
    ([EvSolve p],
     mkState (Some (mkBasic (factories sc') (warehouses sc') (warehouses sc)
                      (supply sc') (demand sc') (demand sc) (cost_matrix sc')
                      (solution_of sc' (solver p))
                      (value (solver p) (objective p)) rd))
             (multi_product s),
     Ok (solution_of sc' (solver p), value (solver p) (objective p))).
Proof.
  intros Hb Hr. unfold solve_basic_transportation_on.
  cbv [mbind Run_bind emit lift mret Run_ret set_basic].
  rewrite Hb. cbn [fst snd]. fold (solution_of sc' (solver p)). rewrite Hr.
  reflexivity.
Qed.

Lemma demo_dims : dims_agree demo_scenario.
Proof. unfold dims_agree. cbn. repeat split; repeat constructor. Qed.

Lemma build_demo : build demo_scenario = Ok (demo_scenario, demo_model).
Proof. vm_compute. reflexivity. Qed.

(** C9.  The basic transportation model has seven constraints, all
    equalities: each of the three factories ships exactly its supply and
    each of the four warehouses receives exactly its demand.  Total
    supply and total demand of the hard-coded instance are both 1200, the
    balance check returns the scenario unchanged, and what the run
    stores has the three factories and the four warehouses it started
    with: no dummy node. *)
Theorem C9_basic_model_is_balanced_equalities (solver : Solver) :
  py_sumZ (supply demo_scenario) = 1200%Z /\
  py_sumZ (demand demo_scenario) = 1200%Z /\
  rebalance demo_scenario = Ok demo_scenario /\
  exists p b tr s v,
    build demo_scenario = Ok (demo_scenario, p) /\
    constraints p =
      [ships_exactly 4 0 300; ships_exactly 4 1 400; ships_exactly 4 2 500;
       receives_exactly 3 0 250; receives_exactly 3 1 350;
       receives_exactly 3 2 400; receives_exactly 3 3 200] /\
    Forall is_equality (constraints p) /\
    solve_basic_transportation solver init = (tr, s, Ok v) /\
    solved_models tr = [p] /\
    basic s = Some b /\
    b_factories b = factories demo_scenario /\
    b_warehouses b = warehouses demo_scenario /\
    b_supply b = supply demo_scenario /\
    b_demand b = demand demo_scenario /\
    b_cost_matrix b = cost_matrix demo_scenario.
Proof.
  split; [reflexivity|]. split; [reflexivity|]. split; [reflexivity|].
  destruct (routes_of_total demo_scenario (solver demo_model) demo_dims) as [rd Hrd].
  exists demo_model. do 4 eexists.
  split; [exact build_demo|]. split; [vm_compute; reflexivity|].
  split; [repeat constructor|].
  split; [exact (solve_basic_transportation_run _ _ _ solver rd init build_demo Hrd)|].
  repeat split; reflexivity.
Qed.
(** *** The cheapest plan of the demo's scenario *)

(** Weak duality with the prices 0, 3, 3 on the factories and 6, 6, 10, 2
    on the warehouses. *)
Lemma transport_lower_bound (a : assignment) :
  feasible demo_model a -> (10700 <= value a (objective demo_model))%Q.
Proof.
  intros [Hb Hc].
  let v := eval vm_compute in (variables demo_model) in
    change (variables demo_model) with v in Hb.
  let c := eval vm_compute in (constraints demo_model) in
    change (constraints demo_model) with c in Hc.
  let o := eval vm_compute in (objective demo_model) in
    change (objective demo_model) with o.
  repeat match goal with
         | H : Forall _ (_ :: _) |- _ => apply Forall_cons_1 in H; destruct H
         end.
  unfold in_bounds, holds in *. cbn -[Qplus Qmult Qle Qeq] in *.
  repeat match goal with H : _ /\ _ |- _ => destruct H end.
  lra.
Qed.

Lemma transport_best_plan_optimal :
  optimal demo_model best_plan /\ (value best_plan (objective demo_model) == 10700)%Q.
Proof.
  assert (Hv : (value best_plan (objective demo_model) == 10700)%Q) by (vm_compute; reflexivity).
  split; [|exact Hv]. split.
  - split.
    + let v := eval vm_compute in (variables demo_model) in
        change (variables demo_model) with v.
      repeat constructor; cbn; discriminate.
    + let c := eval vm_compute in (constraints demo_model) in
        change (constraints demo_model) with c.
      repeat constructor.
  - intros b Hb. change (sense demo_model) with LpMinimize. cbn [better].
    rewrite Hv. now apply transport_lower_bound.
Qed.
End Transportation.

(** ** Utilisation and its denominators *)

Section Utilisation.
Import ProductionReference FlowReference.



(** Where a flow is positive the capacity is too, so the unguarded
    division of lines 99-101 has a non-zero denominator. *)
Lemma utilization_of_positive_flow (fl c : Z) :
  (0 < fl <= c)%Z ->
  NetworkFlowDemo.utilization fl c = Ok (inject_Z fl / inject_Z c * 100)%Q.
Proof.
  intros H. unfold NetworkFlowDemo.utilization.
  rewrite py_div_nonzero by lia. reflexivity.
Qed.





End Utilisation.

(** ** Methods called before any solve *)

Section Guards.

(** C10.  On a fresh object every visualisation, analysis and report
    method of the three demos prints one warning, returns None and
    leaves the object as it was. *)
Theorem C10_guarded_methods_warn_and_return (solver : Solver) :
  warns_only warn_solve_first
    LinearProgrammingDemo.visualize_results LinearProgrammingDemo.init /\
  warns_only warn_solve_first
    (LinearProgrammingDemo.sensitivity_analysis solver) LinearProgrammingDemo.init /\
  warns_only warn_solve_first
    LinearProgrammingDemo.generate_report LinearProgrammingDemo.init /\
  warns_only warn_solve_first
    NetworkFlowDemo.visualize_results NetworkFlowDemo.init /\
  warns_only warn_solve_first
    NetworkFlowDemo.network_analysis NetworkFlowDemo.init /\
  warns_only warn_solve_first
    NetworkFlowDemo.generate_report NetworkFlowDemo.init /\
  warns_only warn_solve_first
    TransportationProblemDemo.visualize_results TransportationProblemDemo.init /\
  warns_only TransportationProblemDemo.warn_basic_first
    TransportationProblemDemo.cost_sensitivity_analysis TransportationProblemDemo.init /\
  warns_only warn_solve_first
    TransportationProblemDemo.generate_report TransportationProblemDemo.init.
Proof. repeat split; reflexivity. Qed.
End Guards.

(** ** Traces of composed runs *)

Section Traces.
Context {S : Type}.

Lemma run_bind_ok {A B} (m : Run S A) (k : A -> Run S B) (s s' : S)
    (t : list event) (a : A) :
  m s = (t, s', Ok a) ->
  (m ≫= k) s = (t ++ trace_of (k a s'), state_of (k a s'), value_of (k a s')).
Proof.
  intros H. unfold mbind, Run_bind. rewrite H.
  destruct (k a s') as [[t2 s2] r]. reflexivity.
Qed.

Lemma run_bind_raise {A B} (m : Run S A) (k : A -> Run S B) (s s' : S)
    (t : list event) (e : PyExc) :
  m s = (t, s', Raise e) -> (m ≫= k) s = (t, s', Raise e).
Proof. intros H. unfold mbind, Run_bind. now rewrite H. Qed.

Lemma emits_ret {A} (P : event -> Prop) (a : A) : emits P (mret a : Run S A).
Proof. intros s. constructor. Qed.

Lemma emits_emit (P : event -> Prop) (e : event) : P e -> emits P (emit e : Run S unit).
Proof. intros H s. repeat constructor. exact H. Qed.

Lemma emits_lift {A} (P : event -> Prop) (r : result A) : emits P (lift r : Run S A).
Proof. intros s. constructor. Qed.

Lemma emits_get (P : event -> Prop) : emits P (get : Run S S).
Proof. intros s. constructor. Qed.

Lemma emits_bind {A B} (P : event -> Prop) (m : Run S A) (k : A -> Run S B) :
  emits P m -> (forall a, emits P (k a)) -> emits P (m ≫= k).
Proof.
  intros Hm Hk s. specialize (Hm s).
  destruct (m s) as [[t s'] [a|e]] eqn:E.
  - rewrite (run_bind_ok _ _ _ _ _ _ E). cbn [trace_of fst] in *.
    apply Forall_app. split; [exact Hm | apply Hk].
  - rewrite (run_bind_raise _ _ _ _ _ _ E). exact Hm.
Qed.

Lemma emits_for_each {A} (P : event -> Prop) (l : list A) (body : A -> Run S unit) :
  (forall x, emits P (body x)) -> emits P (for_each l body).
Proof.
  intros H. induction l as [|x l IH]; cbn [for_each].
  - apply emits_ret.
  - apply emits_bind; [apply H | intros _; exact IH].
Qed.
End Traces.

Lemma quiet_no_chart (t : list event) : Forall quiet t -> Forall no_chart t.
Proof. intros H. eapply Forall_impl; [exact H|]. intros e [_ He]. exact He. Qed.

Lemma charts_app (t1 t2 : list event) : charts (t1 ++ t2) = charts t1 ++ charts t2.
Proof. apply omap_app. Qed.

Lemma charts_no_chart (t : list event) : Forall no_chart t -> charts t = [].
Proof.
  induction 1 as [|e t He _ IH]; [reflexivity|].
  destruct e; cbn in *; try exact IH. discriminate He.
Qed.

Lemma chart_after_no_chart (t1 t2 : list event) :
  Forall no_chart t1 ->
  chart_after_solves false (t1 ++ t2) = chart_after_solves false t2.
Proof.
  induction 1 as [|e t He _ IH]; [reflexivity|].
  cbn [app chart_after_solves]. unfold no_chart in He. rewrite He.
  destruct (is_solve e); cbn; exact IH.
Qed.

Lemma chart_after_quiet (w : bool) (t1 t2 : list event) :
  Forall quiet t1 ->
  chart_after_solves w (t1 ++ t2) = chart_after_solves w t2.
Proof.
  induction 1 as [|e t [H1 H2] _ IH]; [reflexivity|].
  cbn [app chart_after_solves]. rewrite H1, H2. exact IH.
Qed.

Lemma chart_after_then_quiet (t q : list event) :
  Forall quiet q -> forall w,
  chart_after_solves w t = true -> chart_after_solves w (t ++ q) = true.
Proof.
  intros Hq. induction t as [|e t IH]; intros w H.
  - cbn [app]. rewrite <- (app_nil_r q), (chart_after_quiet w q []) by assumption. reflexivity.
  - cbn [app chart_after_solves] in *.
    destruct (is_solve e); [|destruct (is_savefig e)];
      try (apply andb_true_iff in H as [-> H]; cbn [andb]); now apply IH.
  Qed.

(** A part that writes no chart may come first. *)
Lemma chart_once_prefix {S A B} (f : string) (m : Run S A) (k : A -> Run S B) (s : S) :
  Forall no_chart (trace_of (m s)) ->
  (forall t s' a, m s = (t, s', Ok a) -> chart_once f (k a s')) ->
  chart_once f ((m ≫= k) s).
Proof.
  intros Hm Hk. destruct (m s) as [[t s'] [a|e]] eqn:E; cbn [trace_of fst] in Hm.
  - rewrite (run_bind_ok _ _ _ _ _ _ E). destruct (Hk _ _ _ eq_refl) as [H1 H2].
    unfold chart_once. cbn [trace_of value_of fst snd].
    rewrite (chart_after_no_chart t), charts_app, (charts_no_chart t) by assumption.
    split; assumption.
  - rewrite (run_bind_raise _ _ _ _ _ _ E). unfold chart_once. cbn [trace_of value_of fst snd].
    split.
    + rewrite <- (app_nil_r t), (chart_after_no_chart t []) by assumption. reflexivity.
    + right. split; [now apply charts_no_chart | now exists e].
Qed.

(** A quiet part may come last. *)
Lemma chart_once_suffix {S A B} (f : string) (m : Run S A) (k : A -> Run S B) (s : S) :
  chart_once f (m s) -> (forall a, emits quiet (k a)) ->
  chart_once f ((m ≫= k) s).
Proof.
  unfold chart_once at 1. destruct (m s) as [[t s'] [a|e]] eqn:E;
    cbn [trace_of value_of fst snd]; intros [H1 H2] Hk.
  - rewrite (run_bind_ok _ _ _ _ _ _ E). unfold chart_once. cbn [trace_of value_of fst snd].
    pose proof (Hk a s') as Hq.
    rewrite charts_app, (charts_no_chart (trace_of (k a s'))), app_nil_r
      by now apply quiet_no_chart.
    split; [now apply chart_after_then_quiet|].
    destruct H2 as [H2|[_ [e He]]]; [now left | discriminate He].
  - rewrite (run_bind_raise _ _ _ _ _ _ E). unfold chart_once.
    cbn [trace_of value_of fst snd]. split; [assumption|].
    destruct H2 as [H2|[H2 _]]; [now left|]. right. split; [assumption|]. now exists e.
Qed.

Ltac emits_step :=
  first [ apply emits_ret | apply emits_lift | apply emits_get
        | apply emits_emit; first [reflexivity | split; reflexivity]
        | apply emits_for_each; intros ?
        | apply emits_bind; [|intros ?]
        | progress cbn zeta
        | match goal with
          | |- emits _ (match ?x with _ => _ end) => destruct x
          | |- emits _ (if ?b then _ else _) => destruct b
          end
        | intros ?; apply Forall_nil ].

Ltac emits_all := repeat emits_step.

(** ** Sensitivity analysis *)

Section Sensitivity.
Import LinearProgrammingDemo ProductionReference.
Import TransportReference (estimate).

Lemma weighted_total (coef : list Q) :
  (3 <= length coef)%nat -> weighted coef = Ok (weights coef).
Proof.
  intros H. unfold weighted.
  rewrite (map_result_ext _ (fun i => (nth i coef 0%Q, nth i x (mkVar "" None None)))).
  - reflexivity.
  - intros i Hi. apply list_elem_of_In, in_seq in Hi.
    rewrite (py_index_nth coef i 0%Q) by lia. cbn [mbind result_bind].
    rewrite (py_index_nth x i (mkVar "" None None)) by (cbn; lia). reflexivity.
Qed.

Lemma production_model_total (n : string) (pr lr mr : list Q) (lc mc : Q) :
  (3 <= length pr)%nat -> (3 <= length lr)%nat -> (3 <= length mr)%nat ->
  production_model n pr lr mr lc mc =
    Ok (mkProblem n LpMaximize x (weights pr)
          [mkConstraint (weights lr) LpConstraintLE lc;
           mkConstraint (weights mr) LpConstraintLE mc]).
Proof.
  intros Hp Hl Hm. unfold production_model.
  rewrite !weighted_total by assumption. reflexivity.
Qed.

Lemma sensitivity_analysis_unfold (solver : Solver) (s : State) (r : Results) :
  results s = Some r ->
  sensitivity_analysis solver s =
    for_each (enumerate (products r)) (fun ip =>
      for_each changes (variant_step solver r (fst ip))) s.
Proof.
  intros H. unfold sensitivity_analysis. cbv [mbind Run_bind get]. rewrite H.
  destruct (for_each _ _ s) as [[t s'] v]. reflexivity.
Qed.

Lemma variant_step_run (solver : Solver) (s0 s : State) (r : Results) (base : list Q)
    (i : nat) (change : Z) :
  well_formed s0 r base -> kept s0 s -> (i < 3)%nat ->
  exists s', variant_step solver r i change s
               = (variant_events solver r base (i, change), s', Ok tt) /\
             kept s0 s' /\
             heap s' = <[fresh (dom (heap s)) := varied base i change]> (heap s).
Proof.
  intros (Hr & Hb & Hlen & Hprod & Hlab & Hmat) [Hres Hsub] Hi.
  assert (Hbase : heap s !! profit r = Some base)
    by (eapply lookup_weaken; eassumption).
  assert (Hfresh : heap s !! fresh (dom (heap s)) = None)
    by (apply not_elem_of_dom, is_fresh).
  destruct (lookup_lt_is_Some_2 base i) as [b Hbi]; [lia|].
  eexists. split; [|split].
  - unfold variant_step, copy, load, alloc, store_at.
    cbv [mbind Run_bind emit lift mret Run_ret].
    rewrite Hbase, (py_index_lookup _ _ _ Hbi). cbn [heap results app].
    rewrite Hbase. cbn [heap results app].
    rewrite lookup_insert_eq, decide_True by lia. cbn [heap results app].
    rewrite lookup_insert_eq, insert_insert_eq.
    rewrite production_model_total by (rewrite ?length_insert; lia).
    unfold variant_events, variant_model, varied. cbn [fst snd]. rewrite Hbi.
    reflexivity.
  - split; [exact Hres|]. cbn [heap].
    etransitivity; [exact Hsub|]. now apply insert_subseteq.
  - cbn [heap]. unfold varied. now rewrite Hbi.
Qed.

Lemma inner_loop_run (solver : Solver) (s0 : State) (r : Results) (base : list Q)
    (i : nat) :
  well_formed s0 r base -> (i < 3)%nat ->
  forall cs s, kept s0 s ->
    exists s', for_each cs (variant_step solver r i) s
                 = (flat_map (fun c => variant_events solver r base (i, c)) cs, s', Ok tt) /\
               kept s0 s'.
Proof.
  intros Hwf Hi. induction cs as [|c cs IH]; intros s Hs.
  - exists s. split; [reflexivity | exact Hs].
  - destruct (variant_step_run solver s0 s r base i c Hwf Hs Hi) as (s1 & H1 & Hs1 & _).
    destruct (IH s1 Hs1) as (s2 & H2 & Hs2).
    exists s2. split; [|exact Hs2].
    cbn [for_each flat_map]. rewrite (run_bind_ok _ _ _ _ _ _ H1), H2. reflexivity.
Qed.

Lemma outer_loop_run (solver : Solver) (s0 : State) (r : Results) (base : list Q) :
  well_formed s0 r base ->
  forall (ips : list (nat * string)) s,
    Forall (fun ip => (fst ip < 3)%nat) ips -> kept s0 s ->
    exists s',
      for_each ips (fun ip => for_each changes (variant_step solver r (fst ip))) s
        = (flat_map (fun ip => flat_map (fun c => variant_events solver r base (fst ip, c))
                                        changes) ips, s', Ok tt) /\
      kept s0 s'.
Proof.
  intros Hwf. induction ips as [|ip ips IH]; intros s Hips Hs.
  - exists s. split; [reflexivity | exact Hs].
  - apply Forall_cons_1 in Hips as [Hi Hips].
    destruct (inner_loop_run solver s0 r base (fst ip) Hwf Hi changes s Hs)
      as (s1 & H1 & Hs1).
    destruct (IH s1 Hips Hs1) as (s2 & H2 & Hs2).
    exists s2. split; [|exact Hs2].
    cbn [for_each flat_map]. rewrite (run_bind_ok _ _ _ _ _ _ H1), H2. reflexivity.
Qed.

Lemma solved_models_variants (solver : Solver) (r : Results) (base : list Q)
    (g : list (nat * Z)) :
  let tr := flat_map (variant_events solver r base) g in
  solved_models tr = map (variant_model r base) g /\
  length (variants tr) = length g /\
  resolved false tr = true /\
  charts tr = [].
Proof.
  induction g as [|ic g (IH1 & IH2 & IH3 & IH4)]; [repeat split|].
  cbn [flat_map variant_events app]. cbn zeta in *.
  repeat split; cbn; auto.
  f_equal. exact IH1.
Qed.

Lemma nested_emits {S A B : Type} (f : A -> B -> event) (l : list A) (l2 : list B) (s : S) :
  for_each l (fun a => for_each l2 (fun b => (emit (f a b) : Run S unit))) s
    = (flat_map (fun a => map (f a) l2) l, s, Ok tt).
Proof.
  assert (Hin : forall a s', for_each l2 (fun b => (emit (f a b) : Run S unit)) s'
                               = (map (f a) l2, s', Ok tt)).
  { intros a s'. induction l2 as [|b l2 IH]; [reflexivity|].
    cbn [for_each map]. rewrite (run_bind_ok _ _ s' s' [f a b] tt eq_refl), IH.
    reflexivity. }
  induction l as [|a l IH]; [reflexivity|].
  cbn [for_each flat_map]. rewrite (run_bind_ok _ _ _ _ _ _ (Hin a s)), IH. reflexivity.
Qed.

(** The run of the linear-programming analysis on complete results. *)
Lemma sensitivity_analysis_run (solver : Solver) (s : State) (r : Results)
    (base : list Q) :
  well_formed s r base ->
  exists s',
    sensitivity_analysis solver s
      = (flat_map (variant_events solver r base) (variant_grid 3), s', Ok tt) /\
    results s' = results s /\ heap s ⊆ heap s'.
Proof.
  intros Hwf. pose proof Hwf as (Hr & Hbase & Hlen & Hprod & Hlab & Hmat).
  destruct (outer_loop_run solver s r base Hwf (enumerate (products r)) s)
    as (s' & Hrun & Hres & Hsub).
  { unfold enumerate. rewrite Hprod.
    destruct (products r) as [|a [|b' [|c [|d l]]]]; try discriminate.
    repeat constructor. }
  { split; reflexivity. }
  assert (Htr : flat_map (fun ip : nat * string =>
                   flat_map (fun c => variant_events solver r base (fst ip, c)) changes)
                 (enumerate (products r))
                = flat_map (variant_events solver r base) (variant_grid 3)).
  { unfold enumerate. rewrite Hprod.
    destruct (products r) as [|a [|b' [|c [|d l]]]]; try discriminate. reflexivity. }
  exists s'. rewrite (sensitivity_analysis_unfold solver s r Hr), Hrun, Htr.
  repeat split; assumption.
Qed.

(** The run of the transportation analysis on a solved basic problem. *)
Lemma cost_sensitivity_analysis_run (st : TransportationProblemDemo.State)
    (b : TransportationProblemDemo.Basic) :
  TransportationProblemDemo.basic st = Some b ->
  TransportationProblemDemo.cost_sensitivity_analysis st
    = (flat_map (fun route => map (estimate b route) TransportationProblemDemo.cost_changes)
                (take 3 (TransportationProblemDemo.route_details b)), st, Ok tt).
Proof.
  intros Hb. unfold TransportationProblemDemo.cost_sensitivity_analysis.
  cbv [mbind Run_bind get]. rewrite Hb.
  rewrite (nested_emits (estimate b)). reflexivity.
Qed.

(** C5, as the code has it.  In the linear-programming demo every one of
    the twelve variants (three products, four percentages) gets a model
    of its own, built from a copy of the profit list in which only that
    product's entry is changed, and a solve of its own just before its
    line is printed; the stored results and every list object that
    existed before, the original profit list among them, are as they
    were.  The transportation demo's [cost_sensitivity_analysis] solves
    nothing: for each of the first three routes and each percentage it
    prints the stored minimum cost plus that percentage of the route's
    cost, and leaves the object as it was. *)
Theorem C5_variants_resolved_on_copies_or_estimated (solver : Solver)
    (s : State) (r : Results) (base : list Q)
    (st : TransportationProblemDemo.State) (b : TransportationProblemDemo.Basic) :
  well_formed s r base ->
  TransportationProblemDemo.basic st = Some b ->
  (exists tr s',
     sensitivity_analysis solver s = (tr, s', Ok tt) /\
     results s' = results s /\ heap s ⊆ heap s' /\ heap s' !! profit r = Some base /\
     tr = flat_map (variant_events solver r base) (variant_grid 3) /\
     solved_models tr = map (variant_model r base) (variant_grid 3) /\
     length (variants tr) = 12%nat /\ resolved false tr = true) /\
  (exists tr,
     TransportationProblemDemo.cost_sensitivity_analysis st = (tr, st, Ok tt) /\
     tr = flat_map (fun route => map (estimate b route) TransportationProblemDemo.cost_changes)
                   (take 3 (TransportationProblemDemo.route_details b)) /\
     solved_models tr = []).
Proof.
  intros Hwf Hb. split.
  - destruct (sensitivity_analysis_run solver s r base Hwf) as (s' & Hrun & Hres & Hsub).
    destruct (solved_models_variants solver r base (variant_grid 3)) as (M1 & M2 & M3 & _).
    cbn zeta in M1, M2, M3.
    exists (flat_map (variant_events solver r base) (variant_grid 3)), s'.
    repeat split; try assumption.
    destruct Hwf as (_ & Hbase & _). eapply lookup_weaken; eassumption.
  - eexists. split; [exact (cost_sensitivity_analysis_run st b Hb)|]. split; [reflexivity|].
    induction (take 3 (TransportationProblemDemo.route_details b)) as [|x l IH];
      [reflexivity | exact IH].
Qed.

Lemma solved_state_well_formed : well_formed solved_state solved_results [40; 30; 50]%Q.
Proof. repeat split; vm_compute; reflexivity. Qed.

Lemma solved_basic_stored :
  TransportationProblemDemo.basic TransportReference.solved_state
    = Some TransportReference.solved_basic.
Proof. vm_compute. reflexivity. Qed.

Lemma C5_variants_resolved_on_copies_or_estimated_witness :
  well_formed solved_state solved_results [40; 30; 50]%Q /\
  TransportationProblemDemo.basic TransportReference.solved_state
    = Some TransportReference.solved_basic /\
  (exists tr s',
     sensitivity_analysis best_solver solved_state = (tr, s', Ok tt) /\
     results s' = results solved_state /\ heap solved_state ⊆ heap s' /\
     heap s' !! profit solved_results = Some [40; 30; 50]%Q /\
     tr = flat_map (variant_events best_solver solved_results [40; 30; 50]%Q)
                   (variant_grid 3) /\
     solved_models tr = map (variant_model solved_results [40; 30; 50]%Q) (variant_grid 3) /\
     length (variants tr) = 12%nat /\ resolved false tr = true) /\
  (exists tr,
     TransportationProblemDemo.cost_sensitivity_analysis TransportReference.solved_state
       = (tr, TransportReference.solved_state, Ok tt) /\
     tr = flat_map (fun route => map (estimate TransportReference.solved_basic route)
                                     TransportationProblemDemo.cost_changes)
                   (take 3 (TransportationProblemDemo.route_details
                              TransportReference.solved_basic)) /\
     solved_models tr = []).
Proof.
  split; [exact solved_state_well_formed|]. split; [exact solved_basic_stored|].
  exact (C5_variants_resolved_on_copies_or_estimated best_solver _ _ _ _ _
           solved_state_well_formed solved_basic_stored).
Defined.

(** C5, refuted as stated.  On the object that holds the cheapest plan of
    the basic transportation problem, [cost_sensitivity_analysis] reports
    twelve variants and invokes the solver for none of them: the first
    line, for route 工厂A → 仓库2 at -20%, is the stored cost 10700 minus
    a fifth of that route's cost 300. *)
Lemma C5_transport_variants_are_not_resolved :
  let tr := trace_of (TransportationProblemDemo.cost_sensitivity_analysis
                        TransportReference.solved_state) in
  length (variants tr) = 12%nat /\
  solved_models tr = [] /\
  resolved false tr = false /\
  exists v d, head (variants tr) = Some ((-20)%Z, v, d) /\ (v == 10640)%Q /\ (d == -60)%Q.
Proof.
  cbn zeta. split; [vm_compute; reflexivity|]. split; [vm_compute; reflexivity|].
  split; [vm_compute; reflexivity|].
  do 2 eexists. split; [vm_compute; reflexivity|]. split; reflexivity.
Qed.
End Sensitivity.

(** ** When the chart file is written *)

Section ChartOrder.
Import ProductionReference.

(** *** Transportation *)

Lemma transport_solve_basic_no_chart (sc : TransportationProblemDemo.Scenario)
    (solver : Solver) :
  emits no_chart (TransportationProblemDemo.solve_basic_transportation_on sc solver).
Proof. unfold TransportationProblemDemo.solve_basic_transportation_on. emits_all. Qed.

Lemma transport_solve_multi_no_chart (solver : Solver) :
  emits no_chart (TransportationProblemDemo.solve_multi_product_transportation solver).
Proof. unfold TransportationProblemDemo.solve_multi_product_transportation. emits_all. Qed.

Lemma transport_solve_multi_stores (solver : Solver)
    (s s' : TransportationProblemDemo.State) (t : list event) (v : Q) :
  TransportationProblemDemo.solve_multi_product_transportation solver s = (t, s', Ok v) ->
  TransportationProblemDemo.no_results s' = false.
Proof.
  unfold TransportationProblemDemo.solve_multi_product_transportation.
  cbv [mbind Run_bind emit lift mret Run_ret TransportationProblemDemo.set_multi_product].
  destruct TransportationProblemDemo.multi_product_model as [p|]; [|discriminate].
  destruct (map_result _ _) as [rs|]; [|discriminate].
  intros H. injection H as _ <- _. unfold TransportationProblemDemo.no_results.
  cbn. now destruct (TransportationProblemDemo.basic s).
Qed.

Lemma transport_report_quiet :
  emits quiet (TransportationProblemDemo.cost_sensitivity_analysis ;;
               TransportationProblemDemo.generate_report).
Proof.
  unfold TransportationProblemDemo.cost_sensitivity_analysis,
    TransportationProblemDemo.generate_report,
    TransportationProblemDemo.report_basic, TransportationProblemDemo.report_multi.
  emits_all.
Qed.

Lemma transport_visualize_chart (s : TransportationProblemDemo.State) :
  TransportationProblemDemo.no_results s = false ->
  chart_once TransportationProblemDemo.chart_file
    (TransportationProblemDemo.visualize_results s).
Proof.
  intros H. unfold TransportationProblemDemo.visualize_results.
  cbv [mbind Run_bind get emit lift mret Run_ret]. rewrite H.
  destruct (TransportationProblemDemo.basic s) as [b|];
    [destruct (TransportationProblemDemo.route_network b)|];
    try (destruct (TransportationProblemDemo.multi_product s) as [m|];
         [destruct (TransportationProblemDemo.cost_shares m);
            [destruct (TransportationProblemDemo.efficiency m)|]|]);
    (split; [reflexivity|]);
    first [left; reflexivity | right; split; [reflexivity | eexists; reflexivity]].
Qed.

Lemma transport_main_chart (solver : Solver) :
  chart_once TransportationProblemDemo.chart_file
    (TransportationProblemDemo.main solver TransportationProblemDemo.init).
Proof.
  unfold TransportationProblemDemo.main.
  apply chart_once_prefix; [apply transport_solve_basic_no_chart | intros t1 s1 a1 _].
  apply chart_once_prefix; [apply transport_solve_multi_no_chart | intros t2 s2 a2 H2].
  apply transport_solve_multi_stores in H2.
  apply chart_once_suffix.
  - now apply transport_visualize_chart.
  - intros _. emits_all; try apply transport_report_quiet.
    all: unfold TransportationProblemDemo.cost_sensitivity_analysis,
           TransportationProblemDemo.generate_report,
           TransportationProblemDemo.report_basic, TransportationProblemDemo.report_multi;
         emits_all.
Qed.

(** *** Network flow *)

Lemma network_solve_max_flow_no_chart (G : Graph) (nx : Library) :
  emits no_chart (NetworkFlowDemo.solve_max_flow_problem_on G nx).
Proof. unfold NetworkFlowDemo.solve_max_flow_problem_on. emits_all. Qed.

Lemma network_solve_min_cost_flow_no_chart (solver : Solver) :
  emits no_chart (NetworkFlowDemo.solve_min_cost_flow_problem solver).
Proof. unfold NetworkFlowDemo.solve_min_cost_flow_problem. emits_all. Qed.

Lemma network_solve_shortest_path_no_chart (G : Graph) (nx : Library) :
  emits no_chart (NetworkFlowDemo.solve_shortest_path_problem_on G nx).
Proof. unfold NetworkFlowDemo.solve_shortest_path_problem_on. emits_all. Qed.

Lemma network_solve_shortest_path_stores (G : Graph) (nx : Library)
    (s s' : NetworkFlowDemo.State) (t : list event) (v : list string * Z) :
  NetworkFlowDemo.solve_shortest_path_problem_on G nx s = (t, s', Ok v) ->
  NetworkFlowDemo.no_results s' = false.
Proof.
  unfold NetworkFlowDemo.solve_shortest_path_problem_on.
  cbv [mbind Run_bind emit lift mret Run_ret NetworkFlowDemo.set_shortest_path].
  destruct (NetworkFlowDemo.walk _ _ _) as [pd|]; [|discriminate].
  intros H. injection H as _ <- _. unfold NetworkFlowDemo.no_results. cbn.
  destruct (NetworkFlowDemo.max_flow s); [reflexivity|].
  now destruct (NetworkFlowDemo.min_cost_flow s).
Qed.

Lemma network_visualize_chart (s : NetworkFlowDemo.State) :
  NetworkFlowDemo.no_results s = false ->
  chart_once NetworkFlowDemo.chart_file (NetworkFlowDemo.visualize_results s).
Proof.
  intros H. unfold NetworkFlowDemo.visualize_results.
  cbv [mbind Run_bind get emit lift mret Run_ret]. rewrite H.
  destruct (NetworkFlowDemo.max_flow s) as [r|];
    [destruct (NetworkFlowDemo.draw_nodes (NetworkFlowDemo.mf_graph r));
       [destruct (NetworkFlowDemo.edge_widths r);
          [destruct (NetworkFlowDemo.utilization_rates r)|]|]|];
    try (destruct (NetworkFlowDemo.indicators s) as [|v vs];
         [|destruct (NetworkFlowDemo.normalized (v :: vs))]);
    (split; [reflexivity|]);
    first [left; reflexivity | right; split; [reflexivity | eexists; reflexivity]].
Qed.

Lemma network_main_chart (nx : Library) (solver : Solver) :
  chart_once NetworkFlowDemo.chart_file
    (NetworkFlowDemo.main nx solver NetworkFlowDemo.init).
Proof.
  unfold NetworkFlowDemo.main.
  apply chart_once_prefix; [apply network_solve_max_flow_no_chart | intros t1 s1 a1 _].
  apply chart_once_prefix; [apply network_solve_min_cost_flow_no_chart | intros t2 s2 a2 _].
  apply chart_once_prefix; [apply network_solve_shortest_path_no_chart | intros t3 s3 a3 H3].
  apply network_solve_shortest_path_stores in H3.
  apply chart_once_suffix; [now apply network_visualize_chart|].
  intros _. unfold NetworkFlowDemo.network_analysis, NetworkFlowDemo.generate_report,
    NetworkFlowDemo.analyse.
  emits_all.
Qed.

(** *** Linear programming *)

Lemma quiet_trace (t : list event) :
  Forall quiet t -> solved_models t = [] /\ charts t = [].
Proof.
  induction 1 as [|e t [H1 H2] _ [IH1 IH2]]; [split; reflexivity|].
  destruct e; cbn in *; try discriminate; split; assumption.
Qed.

Lemma lp_report_quiet : emits quiet LinearProgrammingDemo.generate_report.
Proof. unfold LinearProgrammingDemo.generate_report. emits_all. Qed.

(** The run of the whole script: the baseline solve, the chart, then the
    twelve variants, then the report. *)
Lemma lp_main_trace (solver : Solver) :
  exists t1 t2,
    trace_of (LinearProgrammingDemo.main solver LinearProgrammingDemo.init)
      = t1 ++ EvSaveFig LinearProgrammingDemo.chart_file :: t2 /\
    charts t1 = [] /\ charts t2 = [] /\
    solved_models t1 = [demo_problem] /\ length (solved_models t2) = 12%nat.
Proof.
  pose proof (solve_production_planning_run solver) as Hsolve. cbn zeta in Hsolve.
  match type of Hsolve with
  | _ = (_, {| LinearProgrammingDemo.results := Some ?r |}, _) => set (r1 := r) in *
  end.
  match type of Hsolve with _ = (_, ?s, _) => set (s1 := s) in * end.
  assert (Hvis : exists bars,
             LinearProgrammingDemo.visualize_results s1
             = ([EvPlot "资源利用率分析" bars;
                 EvSaveFig LinearProgrammingDemo.chart_file;
                 EvPrint "✅ 可视化图表已保存" []], s1, Ok tt))
    by (eexists; reflexivity).
  destruct Hvis as [bars Hvis].
  assert (Hwf : well_formed s1 r1 (LinearProgrammingDemo.d_profit
                                     LinearProgrammingDemo.demo_data)).
  { repeat split; first [reflexivity | apply lookup_singleton_eq]. }
  destruct (sensitivity_analysis_run solver s1 r1 _ Hwf) as (s2 & Hsens & _ & _).
  destruct (solved_models_variants solver r1
              (LinearProgrammingDemo.d_profit LinearProgrammingDemo.demo_data)
              (variant_grid 3)) as (M1 & M2 & _ & M4).
  cbn zeta in M1, M2, M4.
  unfold LinearProgrammingDemo.main.
  rewrite (run_bind_ok _ _ _ _ _ _ Hsolve). cbn [trace_of fst].
  rewrite (run_bind_ok _ _ _ _ _ _ Hvis). cbn [trace_of fst].
  rewrite (run_bind_ok _ _ _ _ _ _ Hsens). cbn [trace_of fst].
  match goal with |- context [trace_of ?o] => set (rest := trace_of o) end.
  assert (Hrest : Forall quiet rest).
  { subst rest. apply emits_bind; [apply lp_report_quiet | intros _; emits_all]. }
  apply quiet_trace in Hrest as [R1 R2].
  cbn [app].
  match goal with
  | |- exists t1 t2, ?tr = _ /\ _ => exists (firstn 4 tr), (skipn 5 tr)
  end.
  cbn [firstn skipn app]. split; [reflexivity|].
  repeat split; try reflexivity.
  - change (charts (EvPrint ?l ?a :: ?t)) with (charts t).
    rewrite charts_app, M4, R2. reflexivity.
  - change (solved_models (EvPrint ?l ?a :: ?t)) with (solved_models t).
    unfold solved_models in *.
    rewrite omap_app, M1, R1, app_nil_r, length_map. reflexivity.
Qed.

(** C8, as the code has it.  The network-flow and the transportation
    script write their chart file once and invoke no solver after the
    write (unless an exception ends the run before the chart is due).
    The linear-programming script writes its chart once as well, after
    the baseline solve and before the twelve solves of the sensitivity
    analysis. *)
Theorem C8_chart_written_once_after_baseline_solves (nx : Library) (solver : Solver) :
  chart_once NetworkFlowDemo.chart_file
    (NetworkFlowDemo.main nx solver NetworkFlowDemo.init) /\
  chart_once TransportationProblemDemo.chart_file
    (TransportationProblemDemo.main solver TransportationProblemDemo.init) /\
  exists t1 t2,
    trace_of (LinearProgrammingDemo.main solver LinearProgrammingDemo.init)
      = t1 ++ EvSaveFig LinearProgrammingDemo.chart_file :: t2 /\
    charts t1 = [] /\ charts t2 = [] /\
    solved_models t1 = [demo_problem] /\ length (solved_models t2) = 12%nat.
Proof.
  split; [apply network_main_chart|]. split; [apply transport_main_chart|].
  apply lp_main_trace.
Qed.

(** C8, refuted as stated.  In the run of the linear-programming script
    with the best plan as the solver's answer, solver invocations follow
    the write of the chart file. *)
Lemma C8_lp_chart_precedes_resolves :
  ~ chart_once LinearProgrammingDemo.chart_file
      (LinearProgrammingDemo.main best_solver LinearProgrammingDemo.init).
Proof.
  intros [H _]. vm_compute in H. discriminate H.
Qed.
End ChartOrder.

(** ** Sums and loops *)

Section Loops.

Lemma map_result_inv {A B : Type} (f : A -> result B) (l : list A) (ys : list B) :
  map_result f l = Ok ys -> Forall2 (fun a y => f a = Ok y) l ys.
Proof.
  revert ys. induction l as [|a l IH]; intros ys H; cbn in H.
  - injection H as <-. constructor.
  - destruct (f a) as [y|] eqn:E; [|discriminate].
    destruct (map_result f l) as [ys'|]; [|discriminate].
    injection H as <-. constructor; [exact E | now apply IH].
Qed.

Lemma py_sum_from (l : list Q) (a : Q) : (fold_left Qplus l a == a + py_sum l)%Q.
Proof.
  unfold py_sum. revert a. induction l as [|x l IH]; intros a; cbn.
  - lra.
  - rewrite (IH (a + x)%Q), (IH (0 + x)%Q). lra.
Qed.

Lemma py_sum_cons (x : Q) (l : list Q) : (py_sum (x :: l) == x + py_sum l)%Q.
Proof. unfold py_sum at 1. cbn. rewrite py_sum_from. lra. Qed.

Lemma py_sum_app (l1 l2 : list Q) : (py_sum (l1 ++ l2) == py_sum l1 + py_sum l2)%Q.
Proof.
  induction l1 as [|x l1 IH]; cbn [app].
  - unfold py_sum at 2. cbn. lra.
  - rewrite !py_sum_cons, IH. lra.
Qed.

Lemma py_sum_nonneg (l : list Q) : Forall (fun q => 0 <= q)%Q l -> (0 <= py_sum l)%Q.
Proof.
  induction 1 as [|x l Hx _ IH].
  - unfold py_sum. cbn. lra.
  - rewrite py_sum_cons. lra.
Qed.

Lemma py_sum_pos (l : list Q) :
  l <> [] -> Forall (fun q => 0 < q)%Q l -> (0 < py_sum l)%Q.
Proof.
  intros Hne H. destruct H as [|x l Hx Hl]; [congruence|].
  rewrite py_sum_cons.
  assert (0 <= py_sum l)%Q.
  { apply py_sum_nonneg. eapply Forall_impl; [exact Hl|]. cbn. intros; lra. }
  lra.
Qed.

Lemma py_gt_iff (a b : Q) : py_gt a b = true <-> (b < a)%Q.
Proof.
  unfold py_gt. rewrite negb_true_iff. split.
  - intros H. apply Qnot_le_lt. intros Hle. apply Qle_bool_iff in Hle. congruence.
  - intros H. destruct (Qle_bool a b) eqn:E; [|reflexivity].
    apply Qle_bool_iff in E. lra.
Qed.

Lemma py_div_ok (a b : Q) : ~ (b == 0)%Q -> py_div a b = Ok (a / b)%Q.
Proof.
  intros H. unfold py_div. destruct (Qeq_bool b 0) eqn:E; [|reflexivity].
  apply Qeq_bool_iff in E. contradiction.
Qed.

Lemma py_div_zero (a b : Q) : (b == 0)%Q -> py_div a b = Raise ZeroDivisionError.
Proof.
  intros H. unfold py_div. apply Qeq_bool_iff in H. now rewrite H.
Qed.

End Loops.

(** ** Runs in sequence *)

Section Scripts.
Context {S : Type}.

Lemma run_seq {A B} (m : Run S A) (k : A -> Run S B) (s s' s'' : S)
    (t t' : list event) (a : A) (r : result B) :
  m s = (t, s', Ok a) -> k a s' = (t', s'', r) -> (m ≫= k) s = (t ++ t', s'', r).
Proof. intros Hm Hk. rewrite (run_bind_ok _ _ _ _ _ _ Hm), Hk. reflexivity. Qed.

End Scripts.

(** What holds of a whole trace holds of what comes before its last
    lines. *)
Lemma chart_after_prefix (t u : list event) : forall written,
  chart_after_solves written (t ++ u) = true -> chart_after_solves written t = true.
Proof.
  induction t as [|e t IH]; intros written H; [reflexivity|].
  cbn [app chart_after_solves] in *.
  destruct (is_solve e); [|destruct (is_savefig e)].
  - apply andb_true_iff in H as [H1 H2]. rewrite H1. cbn. now apply IH.
  - apply andb_true_iff in H as [H1 H2]. rewrite H1. cbn. now apply IH.
  - now apply IH.
Qed.

(** ** Maximum flow: the bottleneck pipes *)

Section Bottlenecks.
Import NetworkFlowDemo FlowReference NetworkFigures.

Lemma edge_attr_directed (g : Graph) (u v : string) (c : Z) :
  directed g = true -> edge_attr g u v = Ok c -> (u, v, c) ∈ edges g.
Proof.
  intros Hd H. apply edge_attr_inv in H as ([[a b] w] & Hin & Hj & Hw).
  unfold joins in Hj. rewrite Hd in Hj. cbn in Hj, Hw.
  rewrite orb_false_r in Hj. apply andb_true_iff in Hj as [Ha Hb].
  apply bool_decide_eq_true in Ha, Hb. now subst.
Qed.

Lemma edge_attr_member (g : Graph) (u v : string) (c : Z) :
  directed g = true -> (u, v, c) ∈ edges g -> exists c', edge_attr g u v = Ok c'.
Proof.
  intros Hd Hin. unfold edge_attr.
  destruct (filter _ (edges g)) as [|e l] eqn:E; [|eauto].
  exfalso. assert (H : (u, v, c) ∈ filter (fun e => joins g u v e = true) (edges g)).
  { apply list_elem_of_filter. split; [|exact Hin].
    unfold joins. cbn. rewrite !bool_decide_eq_true_2 by reflexivity. reflexivity. }
  rewrite E in H. inversion H.
Qed.

(** One cell of the loop of lines 96-111 on the dict of a flow. *)
Lemma flow_detail_cell (g : Graph) (f : flow) (s t u v : string) (c : Z) :
  directed g = true -> is_flow g s t f -> (u, v, c) ∈ edges g ->
  exists ds,
    (if decide (f u v > 0)%Z then
       capacity ← edge_attr g u v;
       util ← utilization (f u v) capacity;
       Ok [mkFlowDetail u v (f u v) capacity util]
     else Ok []) = Ok ds /\ Forall (records_pipe g f) ds.
Proof.
  intros Hd Hf Hin. case_decide as Hpos; [|eexists; split; [reflexivity|constructor]].
  destruct (edge_attr_member g u v c Hd Hin) as [c' Hc'].
  rewrite Hc'. cbn [mbind result_bind].
  pose proof (edge_attr_directed g u v c' Hd Hc') as Hin'.
  pose proof (within_capacity g s t f Hf u v c' Hin') as Hcap.
  rewrite utilization_of_positive_flow by lia. cbn [mbind result_bind].
  eexists. split; [reflexivity|].
  repeat constructor; cbn; try assumption; lia.
Qed.

Lemma adj_directed (g : Graph) (u : string) (vw : string * Z) :
  directed g = true -> vw ∈ adj g u -> (u, fst vw, snd vw) ∈ edges g.
Proof.
  intros Hd H. unfold adj in H. apply list_elem_of_In, in_flat_map in H as (e & He & H).
  rewrite Hd in H. cbn [negb andb] in H.
  case_bool_decide as Hu; [|destruct H].
  destruct H as [<-|[]]. cbn. destruct e as [[a b] w]. cbn in *. subst.
  now apply list_elem_of_In.
Qed.

Lemma flow_details_records (g : Graph) (f : flow) (s t : string) :
  directed g = true -> is_flow g s t f ->
  exists ds, flow_details_of g (dict_of g f) = Ok ds /\ Forall (records_pipe g f) ds.
Proof.
  intros Hd Hf. unfold flow_details_of, dict_of. cbv zeta.
  assert (Hrows : forall ns, exists dss,
    map_result (fun row =>
      map_result (fun cell =>
        if decide (snd cell > 0)%Z then
          capacity ← edge_attr g (fst row) (fst cell);
          u ← utilization (snd cell) capacity;
          Ok [mkFlowDetail (fst row) (fst cell) (snd cell) capacity u]
        else Ok []) (snd row))
      (map (fun u => (u, map (fun vw => (fst vw, f u (fst vw))) (adj g u))) ns) = Ok dss /\
    Forall (Forall (Forall (records_pipe g f))) dss).
  { induction ns as [|u ns (dss & Hdss & Hall)].
    - eexists. split; [reflexivity|constructor].
    - cbn [map map_result fst snd].
      assert (Hcells : forall cells, Forall (fun vw => (u, fst vw, snd vw) ∈ edges g) cells ->
        exists cs,
        map_result (fun cell : string * Z =>
          if decide (snd cell > 0)%Z then
            capacity ← edge_attr g u (fst cell);
            u0 ← utilization (snd cell) capacity;
            Ok [mkFlowDetail u (fst cell) (snd cell) capacity u0]
          else Ok []) (map (fun vw => (fst vw, f u (fst vw))) cells) = Ok cs /\
        Forall (Forall (records_pipe g f)) cs).
      { induction 1 as [|vw cells Hvw _ (cs & Hcs & Hall')].
        - eexists. split; [reflexivity|constructor].
        - cbn [map map_result fst snd].
          destruct (flow_detail_cell g f s t u (fst vw) (snd vw) Hd Hf Hvw) as (d & Hdd & Hrec).
          rewrite Hdd, Hcs. eexists. split; [reflexivity|].
          constructor; assumption. }
      destruct (Hcells (adj g u)) as (cs & Hcs & Hall').
      { apply Forall_forall. intros vw Hvw. now apply adj_directed. }
      rewrite Hcs, Hdss. eexists. split; [reflexivity|]. constructor; assumption. }
  destruct (Hrows (nodes g)) as (dss & Hdss & Hall).
  rewrite Hdss. cbn [mbind result_bind]. eexists. split; [reflexivity|].
  do 2 apply Forall_concat. exact Hall.
Qed.

(** When no capacity reaches 1000, a utilisation of 99.9 percent or more
    is one of 100 percent. *)
Lemma is_bottleneck_saturated (g : Graph) (f : flow) (d : FlowDetail) :
  records_pipe g f d -> (fd_capacity d < 1000)%Z ->
  is_bottleneck d = saturated d.
Proof.
  intros (_ & _ & Hb & Hu) Hc. unfold is_bottleneck, saturated. rewrite Hu.
  set (fl := fd_flow d) in *. set (c := fd_capacity d) in *.
  assert (Hq : (inject_Z fl / inject_Z c * inject_Z c == inject_Z fl)%Q).
  { field. intros E. apply (inject_Z_injective c 0) in E. lia. }
  assert (Hcq : (0 < inject_Z c)%Q) by (unfold Qlt; cbn; lia).
  apply eq_true_iff_eq. rewrite Qle_bool_iff, bool_decide_eq_true. split.
  - intros H.
    assert (H' : ((999 # 10) * inject_Z c <= inject_Z fl * 100)%Q).
    { pose proof (Qmult_le_compat_r _ _ (inject_Z c) H (Qlt_le_weak _ _ Hcq)) as Hm.
      revert Hm Hq. generalize (inject_Z fl / inject_Z c)%Q. intros q Hm Hq.
      rewrite <- Hq. lra. }
    assert (H'' : (inject_Z (999 * c) <= inject_Z (fl * 1000))%Q).
    { rewrite !inject_Z_mult.
      change (inject_Z 999) with 999%Q. change (inject_Z 1000) with 1000%Q. lra. }
    unfold Qle in H''. cbn in H''. lia.
  - intros E. rewrite E.
    assert (Hone : (inject_Z c / inject_Z c == 1)%Q) by (field; lra).
    rewrite Hone. discriminate.
Qed.

Lemma filter_bottlenecks (g : Graph) (f : flow) (ds : list FlowDetail) :
  Forall (records_pipe g f) ds -> Forall (fun d => (fd_capacity d < 1000)%Z) ds ->
  filter (fun d => is_bottleneck d = true) ds = filter (fun d => saturated d = true) ds.
Proof.
  induction 1 as [|d ds Hd _ IH]; intros Hc; [reflexivity|].
  apply Forall_cons in Hc as [Hcd Hc].
  rewrite !filter_cons, (is_bottleneck_saturated g f d Hd Hcd), (IH Hc). reflexivity.
Qed.

(** X1.  On any directed network whose capacities stay below 1000, given
    the dict of a flow that respects the capacities,
    [solve_max_flow_problem] runs to its end (no pipe with a positive
    flow has capacity 0 to divide by); every entry of [flow_details] is a
    pipe of the network with a positive flow, its capacity and their
    ratio in percent; and the entries it marks as bottlenecks
    (utilisation at least 99.9) are exactly those whose flow equals the
    capacity. *)
Theorem X1_bottlenecks_are_the_saturated_pipes (nx : Library) (G : Graph) (f : flow) (v : Z) :
  directed G = true ->
  is_flow G "S" "T" f ->
  Forall (fun e => (snd e < 1000)%Z) (edges G) ->
  maximum_flow nx G "S" "T" = (v, dict_of G f) ->
  exists r,
    solve_max_flow_problem_on G nx init
      = ([EvGraph "maximum_flow"], mkState (Some r) None None (Some G) None,
         Ok (v, dict_of G f)) /\
    Forall (records_pipe G f) (flow_details r) /\
    bottleneck_edges r = filter (fun d => saturated d = true) (flow_details r).
Proof.
  intros Hd Hf Hsmall Hmf.
  destruct (flow_details_records G f "S" "T" Hd Hf) as (ds & Hds & Hrec).
  eexists. split; [apply (solve_max_flow_run nx G v _ ds Hmf Hds)|].
  cbn [flow_details bottleneck_edges]. split; [exact Hrec|].
  apply (filter_bottlenecks G f); [exact Hrec|].
  eapply Forall_impl; [exact Hrec|]. intros d (Hin & _).
  rewrite Forall_forall in Hsmall. exact (Hsmall _ Hin).
Qed.

Lemma X1_bottlenecks_are_the_saturated_pipes_witness :
  directed flow_network = true /\
  is_flow flow_network "S" "T" demo_flow /\
  Forall (fun e => (snd e < 1000)%Z) (edges flow_network) /\
  maximum_flow demo_library flow_network "S" "T" = (23%Z, dict_of flow_network demo_flow) /\
  exists r,
    solve_max_flow_problem_on flow_network demo_library init
      = ([EvGraph "maximum_flow"],
         mkState (Some r) None None (Some flow_network) None,
         Ok (23%Z, dict_of flow_network demo_flow)) /\
    Forall (records_pipe flow_network demo_flow) (flow_details r) /\
    bottleneck_edges r = filter (fun d => saturated d = true) (flow_details r).
Proof.
  assert (H1 : directed flow_network = true) by reflexivity.
  assert (H3 : Forall (fun e => (snd e < 1000)%Z) (edges flow_network)).
  { rewrite flow_network_eq. cbn [edges edges_capacity]. repeat constructor. }
  assert (H4 : maximum_flow demo_library flow_network "S" "T"
               = (23%Z, dict_of flow_network demo_flow)) by reflexivity.
  split; [exact H1|]. split; [exact demo_flow_is_flow|].
  split; [exact H3|]. split; [exact H4|].
  exact (X1_bottlenecks_are_the_saturated_pipes demo_library flow_network demo_flow 23
           H1 demo_flow_is_flow H3 H4).
Defined.

End Bottlenecks.

(** ** Maximum flow: the panels of the chart *)

Section FlowPanels.
Import NetworkFlowDemo FlowReference NetworkFigures.

Lemma dict_get_map {V : Type} (h : string -> V) (l : list string) (k : string) :
  k ∈ l -> dict_get (map (fun u => (u, h u)) l) k = Ok (h k).
Proof.
  unfold dict_get. induction l as [|u l IH]; intros Hk; [inversion Hk|].
  cbn [map]. rewrite filter_cons. cbn [fst].
  destruct (decide (u = k)) as [->|Hne].
  - rewrite decide_True by (now apply bool_decide_pack). reflexivity.
  - rewrite decide_False by (intros H; apply bool_decide_unpack in H; congruence).
    apply IH. apply elem_of_cons in Hk as [->|Hk]; [congruence|exact Hk].
Qed.

Lemma dict_get_cells {V : Type} (h : string -> V) (l : list (string * Z)) (k : string) :
  k ∈ map fst l -> dict_get (map (fun vw => (fst vw, h (fst vw))) l) k = Ok (h k).
Proof.
  unfold dict_get. induction l as [|u l IH]; intros Hk; [inversion Hk|].
  cbn [map]. rewrite filter_cons. cbn [fst].
  destruct (decide (fst u = k)) as [<-|Hne].
  - rewrite decide_True by (now apply bool_decide_pack). reflexivity.
  - rewrite decide_False by (intros H; apply bool_decide_unpack in H; congruence).
    apply IH. cbn [map] in Hk. apply elem_of_cons in Hk as [->|Hk]; [congruence|exact Hk].
Qed.

Lemma adj_member (g : Graph) (u v : string) (c : Z) :
  (u, v, c) ∈ edges g -> v ∈ map fst (adj g u).
Proof.
  intros H. apply list_elem_of_In, in_map_iff. exists (v, c). split; [reflexivity|].
  unfold adj. apply in_flat_map. exists (u, v, c). split; [now apply list_elem_of_In|].
  cbn. rewrite bool_decide_eq_true_2 by reflexivity. now left.
Qed.

(** [flow_dict[start][end]] on the dict of a flow *)
Lemma flow_on_dict_of (g : Graph) (f : flow) (u v : string) (c : Z) :
  u ∈ nodes g -> (u, v, c) ∈ edges g -> flow_on (dict_of g f) u v = Ok (f u v).
Proof.
  intros Hu Hin. unfold flow_on, dict_of.
  rewrite (dict_get_map (fun u => map (fun vw => (fst vw, f u (fst vw))) (adj g u)))
    by exact Hu.
  cbn [mbind result_bind].
  apply (dict_get_cells (f u)). now apply (adj_member g u v c).
Qed.

Lemma ratio_bounds (fl c : Z) :
  (0 <= fl <= c)%Z -> (0 < c)%Z ->
  (0 <= inject_Z fl / inject_Z c <= 1)%Q /\
  ((0 < fl)%Z -> 0 < inject_Z fl / inject_Z c)%Q.
Proof.
  intros Hb Hc.
  assert (Hcq : (0 < inject_Z c)%Q) by (unfold Qlt; cbn; lia).
  assert (Hfq : (0 <= inject_Z fl)%Q) by (unfold Qle; cbn; lia).
  assert (Hle : (inject_Z fl <= inject_Z c)%Q) by (unfold Qle; cbn; lia).
  repeat split.
  - apply Qle_shift_div_l; [exact Hcq | lra].
  - apply Qle_shift_div_r; [exact Hcq | lra].
  - intros Hpos. apply Qlt_shift_div_l; [exact Hcq|].
    assert (0 < inject_Z fl)%Q by (unfold Qlt; cbn; lia). lra.
Qed.

Lemma positioned_node (n : string) :
  n ∈ map fst pos -> exists xy, dict_get pos n = Ok xy.
Proof.
  intros H. unfold pos in H. cbn [map fst] in H.
  repeat (apply elem_of_cons in H as [->|H]; [eexists; reflexivity|]).
  inversion H.
Qed.

Lemma draw_edge_positioned (u v : string) :
  u ∈ map fst pos -> v ∈ map fst pos -> draw_networkx_edges pos [(u, v)] = Ok tt.
Proof.
  intros Hu Hv. destruct (positioned_node u Hu) as [a Ha].
  destruct (positioned_node v Hv) as [b Hb].
  unfold draw_networkx_edges. cbn [map_result fst snd]. rewrite Ha, Hb. reflexivity.
Qed.

(** The nodes of a graph whose nodes all have a position are drawn. *)
Lemma draw_nodes_positioned (g : Graph) : positioned g -> draw_nodes g = Ok tt.
Proof.
  intros Hp. unfold draw_nodes. cbv zeta.
  change (draw_networkx_nodes pos source_sink) with (Ok tt : result unit).
  cbn [mbind result_bind].
  assert (Hmid : draw_networkx_nodes pos (filter (fun n => n ∉ source_sink) (nodes g))
                 = Ok tt).
  { unfold draw_networkx_nodes.
    destruct (forallb _ _) eqn:E; [reflexivity|].
    apply not_true_iff_false in E. exfalso. apply E, forallb_forall.
    intros n Hn. apply bool_decide_eq_true. apply list_elem_of_In in Hn.
    apply list_elem_of_filter in Hn as [_ Hn].
    unfold positioned in Hp. rewrite Forall_forall in Hp. exact (Hp n Hn). }
  rewrite Hmid. cbn [mbind result_bind]. unfold draw_networkx_labels.
  destruct (map_result_total (dict_get pos) (nodes g)) as (xs & Hxs & _).
  { intros n Hn. apply positioned_node.
    unfold positioned in Hp. rewrite Forall_forall in Hp. exact (Hp n Hn). }
  rewrite Hxs. reflexivity.
Qed.

(** A node without a position stops the panel at the second drawing
    call: the first draws the source and the sink, which have one. *)
Lemma draw_nodes_unpositioned (g : Graph) (n : string) :
  n ∈ nodes g -> n ∉ map fst pos -> draw_nodes g = Raise NetworkXError.
Proof.
  intros Hn Hpos. unfold draw_nodes. cbv zeta.
  change (draw_networkx_nodes pos source_sink) with (Ok tt : result unit).
  cbn [mbind result_bind]. unfold draw_networkx_nodes.
  destruct (forallb _ _) eqn:E; [|reflexivity].
  exfalso. rewrite forallb_forall in E.
  assert (Hmid : n ∈ filter (fun n => n ∉ source_sink) (nodes g)).
  { apply list_elem_of_filter. split; [|exact Hn].
    intros Hs. apply Hpos. unfold source_sink in Hs.
    repeat (apply elem_of_cons in Hs as [->|Hs]; [apply list_elem_of_In; vm_compute; auto 8|]).
    inversion Hs. }
  apply list_elem_of_In, E, bool_decide_eq_true in Hmid. contradiction.
Qed.

(** The figures of the first two panels on the dict of a flow. *)
Lemma flow_panels_in_range (G : Graph) (f : flow) (s t : string) (r : MaxFlow) :
  directed G = true ->
  edges_join_nodes G ->
  positioned G ->
  is_flow G s t f ->
  mf_graph r = G ->
  mf_flow_dict r = dict_of G f ->
  exists ws us,
    edge_widths r = Ok ws /\ Forall (fun w => 2 <= w <= 8)%Q ws /\
    utilization_rates r = Ok us /\ length us = length (edges G) /\
    Forall (fun u => 0 <= u <= 100)%Q us.
Proof.
  intros Hd Hn Hp Hf HG Hdict.
  assert (Hedge : forall e, e ∈ edges G ->
            exists c, flow_on (dict_of G f) (fst (fst e)) (snd (fst e))
                        = Ok (f (fst (fst e)) (snd (fst e))) /\
                      edge_attr G (fst (fst e)) (snd (fst e)) = Ok c /\
                      (0 <= f (fst (fst e)) (snd (fst e)) <= c)%Z /\
                      fst (fst e) ∈ map fst pos /\ snd (fst e) ∈ map fst pos).
  { intros [[u v] c] Hin. cbn [fst snd].
    destruct (edge_attr_member G u v c Hd Hin) as [c' Hc'].
    unfold edges_join_nodes in Hn. rewrite Forall_forall in Hn.
    destruct (Hn _ Hin) as [Hu Hv]. cbn [fst snd] in Hu, Hv.
    unfold positioned in Hp. rewrite Forall_forall in Hp.
    exists c'. split; [|split; [exact Hc'|split; [|split; [exact (Hp u Hu) | exact (Hp v Hv)]]]].
    - apply (flow_on_dict_of G f u v c); [exact Hu | exact Hin].
    - apply (within_capacity G s t f Hf u v c'). now apply edge_attr_directed. }
  unfold edge_widths, utilization_rates, edge_list. rewrite HG, Hdict.
  revert Hedge. generalize (edges G). intros es Hedge.
  induction es as [|e es IH].
  - exists [], []. repeat split; constructor.
  - destruct IH as (ws & us & Hws & Hwb & Hus & Hlen & Hub).
    { intros e' He'. apply Hedge. now right. }
    destruct (Hedge e) as (c & Hfl & Hc & Hb & Hpu & Hpv); [now left|].
    destruct (map_result _ (map fst es)) as [wss|] eqn:Ewss in Hws; [|discriminate].
    cbn [mbind result_bind] in Hws. injection Hws as <-.
    destruct (positioned_node _ Hpu) as [xy1 Hxy1].
    destruct (positioned_node _ Hpv) as [xy2 Hxy2].
    pose proof (draw_edge_positioned _ _ Hpu Hpv) as Hdraw.
    rewrite <- surjective_pairing in Hdraw.
    cbn [map map_result]. rewrite Ewss, Hus, Hfl, Hc. cbn [mbind result_bind].
    set (fl := f (fst (fst e)) (snd (fst e))) in *.
    destruct (decide (c > 0)%Z) as [Hcpos|Hczero].
    + destruct (ratio_bounds fl c Hb ltac:(lia)) as ((Hq0 & Hq1) & Hqpos).
      rewrite py_div_nonzero by lia. cbn [mbind result_bind].
      destruct (decide (fl > 0)%Z) as [Hpos|Hzero].
      * cbv zeta. rewrite Hdraw, Hxy1, Hxy2. cbn [mbind result_bind].
        eexists _, _. split; [reflexivity|]. cbn [concat app].
        repeat split; try (cbn; lia).
        -- constructor; [|exact Hwb].
           destruct (Qle_bool _ 2) eqn:E; [lra|].
           split; [|lra].
           apply Qlt_le_weak, Qnot_le_lt. intros Hle.
           apply Qle_bool_iff in Hle. congruence.
        -- constructor; [lra | exact Hub].
      * rewrite Hdraw. cbn [mbind result_bind].
        eexists _, _. split; [reflexivity|]. cbn [concat app].
        repeat split; try (cbn; lia); [exact Hwb|].
        constructor; [lra | exact Hub].
    + assert (fl = 0%Z) by lia.
      destruct (decide (fl > 0)%Z) as [Hpos|Hzero]; [lia|].
      rewrite Hdraw. cbn [mbind result_bind].
      eexists _, _. split; [reflexivity|]. cbn [concat app].
      repeat split; try (cbn; lia); [exact Hwb|].
      constructor; [lra | exact Hub].
Qed.

(** X2.  Panel 1 draws at six hard-coded positions.  On a directed
    network whose nodes are among S, A, B, C, D and T, with the dict of a
    flow that respects the capacities, the nodes are drawn and the
    figures of the first two panels are computed for every edge without
    a missing key or a division by zero: an edge that carries flow is
    drawn between 2 and 8 wide, and every utilisation bar lies between 0
    and 100 percent, one bar per edge.  On a network with any other node
    the second drawing call raises NetworkXError, and [visualize_results]
    ends there without a chart. *)
Theorem X2_flow_panels_stay_in_range (G : Graph) (f : flow) (s t : string) (r : MaxFlow) :
  directed G = true ->
  edges_join_nodes G ->
  is_flow G s t f ->
  mf_graph r = G ->
  mf_flow_dict r = dict_of G f ->
  (positioned G ->
   draw_nodes G = Ok tt /\
   exists ws us,
     edge_widths r = Ok ws /\ Forall (fun w => 2 <= w <= 8)%Q ws /\
     utilization_rates r = Ok us /\ length us = length (edges G) /\
     Forall (fun u => 0 <= u <= 100)%Q us) /\
  (forall n st, n ∈ nodes G -> n ∉ map fst pos -> max_flow st = Some r ->
     visualize_results st = ([], st, Raise NetworkXError)).
Proof.
  intros Hd Hn Hf HG Hdict. split.
  - intros Hp. split; [exact (draw_nodes_positioned G Hp)|].
    exact (flow_panels_in_range G f s t r Hd Hn Hp Hf HG Hdict).
  - intros n st Hin Hpos Hst. unfold visualize_results.
    cbv [mbind Run_bind get lift]. unfold no_results. rewrite Hst, HG.
    rewrite (draw_nodes_unpositioned G n Hin Hpos). reflexivity.
Qed.

Lemma flow_network_edges_join_nodes : edges_join_nodes flow_network.
Proof.
  unfold edges_join_nodes. rewrite flow_network_eq. cbn [edges nodes edges_capacity].
  repeat constructor; cbn [fst snd]; apply list_elem_of_In; vm_compute; auto 12.
Qed.

Lemma flow_network_positioned : positioned flow_network.
Proof.
  unfold positioned. rewrite flow_network_eq. cbn [nodes].
  repeat constructor; apply list_elem_of_In; vm_compute; auto 12.
Qed.

Lemma X2_flow_panels_stay_in_range_witness :
  directed flow_network = true /\
  edges_join_nodes flow_network /\
  is_flow flow_network "S" "T" demo_flow /\
  mf_graph (mkMaxFlow flow_network 23 (dict_of flow_network demo_flow) [] [])
    = flow_network /\
  mf_flow_dict (mkMaxFlow flow_network 23 (dict_of flow_network demo_flow) [] [])
    = dict_of flow_network demo_flow /\
  positioned flow_network /\
  draw_nodes flow_network = Ok tt /\
  exists ws us,
    edge_widths (mkMaxFlow flow_network 23 (dict_of flow_network demo_flow) [] [])
      = Ok ws /\
    Forall (fun w => 2 <= w <= 8)%Q ws /\
    utilization_rates (mkMaxFlow flow_network 23 (dict_of flow_network demo_flow) [] [])
      = Ok us /\
    length us = length (edges flow_network) /\
    Forall (fun u => 0 <= u <= 100)%Q us.
Proof.
  split; [reflexivity|]. split; [exact flow_network_edges_join_nodes|].
  split; [exact demo_flow_is_flow|]. split; [reflexivity|]. split; [reflexivity|].
  split; [exact flow_network_positioned|].
  exact (proj1 (X2_flow_panels_stay_in_range flow_network demo_flow "S" "T"
                  (mkMaxFlow flow_network 23 (dict_of flow_network demo_flow) [] [])
                  eq_refl flow_network_edges_join_nodes demo_flow_is_flow
                  eq_refl eq_refl) flow_network_positioned).
Defined.

End FlowPanels.

(** ** Network analysis: the normalised indicators *)

Section Indicators.
Import NetworkFlowDemo FlowReference.

Lemma py_max_spec (vs : list Q) : forall v,
  py_max v vs ∈ v :: vs /\ Forall (fun w => w <= py_max v vs)%Q (v :: vs).
Proof.
  unfold py_max. induction vs as [|w vs IH]; intros v; cbn [fold_left].
  - split; [left | repeat constructor; lra].
  - destruct (py_gt w v) eqn:E.
    + apply py_gt_iff in E. destruct (IH w) as [Hin Hall]. split.
      * right. exact Hin.
      * apply Forall_cons in Hall as [Hw Hall].
        constructor; [lra|]. constructor; assumption.
    + assert (Hle : (w <= v)%Q).
      { destruct (Qlt_le_dec v w) as [Hlt|Hle]; [|exact Hle].
        apply py_gt_iff in Hlt. congruence. }
      destruct (IH v) as [Hin Hall]. split.
      * apply elem_of_cons in Hin as [Hin|Hin]; [apply elem_of_cons; left; exact Hin | right; right; exact Hin].
      * apply Forall_cons in Hall as [Hv Hall].
        constructor; [exact Hv|]. constructor; [lra | exact Hall].
Qed.

(** The scaling of line 553, by the sign of the largest value. *)
Lemma normalized_by_largest (v : Q) (vs : list Q) :
  normalized [] = Ok [] /\
  ((py_max v vs == 0)%Q -> normalized (v :: vs) = Raise ZeroDivisionError) /\
  ((0 < py_max v vs)%Q ->
   normalized (v :: vs) = Ok (map (fun w => w / py_max v vs * 100)%Q (v :: vs)) /\
   Forall (fun n => n <= 100)%Q (map (fun w => w / py_max v vs * 100)%Q (v :: vs)) /\
   Exists (fun n => n == 100)%Q (map (fun w => w / py_max v vs * 100)%Q (v :: vs))).
Proof.
  split; [reflexivity|]. split.
  - intros Hz. unfold normalized. cbn [map_result]. now rewrite py_div_zero.
  - intros Hpos. destruct (py_max_spec vs v) as [Hin Hall].
    set (m := py_max v vs) in *. split; [|split].
    + unfold normalized. fold m. apply (map_result_ext _ (fun w => w / m * 100)%Q).
      intros w _. rewrite py_div_ok by lra. reflexivity.
    + apply Forall_map. eapply Forall_impl; [exact Hall|]. cbn. intros w Hw.
      assert (w / m <= 1)%Q by (apply Qle_shift_div_r; lra). lra.
    + apply Exists_exists. exists (m / m * 100)%Q. split.
      * apply list_elem_of_In, in_map_iff. exists m. split; [reflexivity|].
        now apply list_elem_of_In.
      * assert (m / m == 1)%Q by (field; lra). lra.
Qed.

(** X3.  The indicators of the fifth chart panel are scaled by the
    largest of them.  When the largest is positive every scaled value is
    at most 100 and the largest becomes 100; when it is 0 (a network
    without flow as the only result, say) the division of line 553 raises
    ZeroDivisionError; with nothing to show nothing is computed. *)
Theorem X3_indicators_scaled_by_the_largest (v : Q) (vs : list Q) :
  normalized [] = Ok [] /\
  ((py_max v vs == 0)%Q -> normalized (v :: vs) = Raise ZeroDivisionError) /\
  ((0 < py_max v vs)%Q ->
   normalized (v :: vs) = Ok (map (fun w => w / py_max v vs * 100)%Q (v :: vs)) /\
   Forall (fun n => n <= 100)%Q (map (fun w => w / py_max v vs * 100)%Q (v :: vs)) /\
   Exists (fun n => n == 100)%Q (map (fun w => w / py_max v vs * 100)%Q (v :: vs))).
Proof. exact (normalized_by_largest v vs). Qed.

End Indicators.

(** ** Shortest path: the legs of the path *)

Section PathDetails.
Import NetworkFlowDemo FlowReference PathReference.

Lemma walk_inv (g : Graph) (path : list string) : forall acc,
  match walk g path acc with
  | Ok (ds, t) =>
      length ds = (length path - 1)%nat /\
      map pd_from ds = take (length path - 1) path /\
      map pd_to ds = drop 1 path /\
      Forall (fun d => edge_attr g (pd_from d) (pd_to d) = Ok (pd_distance d)) ds /\
      (forall i d, ds !! i = Some d ->
         pd_cumulative d = (acc + total (map pd_distance (take (S i) ds)))%Z) /\
      t = (acc + total (map pd_distance ds))%Z
  | Raise e => e = KeyError /\ path_weight g path = None
  end.
Proof.
  induction path as [|u path IH]; intros acc.
  - cbn. repeat split; try constructor; try lia. intros i d H. destruct i; discriminate H.
  - destruct path as [|v path].
    + cbn. repeat split; try constructor; try lia. intros i d H. destruct i; discriminate H.
    + rewrite walk_step, path_weight_step.
      destruct (edge_attr g u v) as [w|e] eqn:Hw.
      2:{ cbn [mbind result_bind]. split; [|reflexivity].
          unfold edge_attr in Hw. destruct (filter _ _); [congruence | discriminate]. }
      cbn [mbind result_bind]. specialize (IH (acc + w)%Z).
      destruct (walk g (v :: path) (acc + w)) as [[ds t]|e]; cbn [mbind result_bind fst snd].
      * destruct IH as (Hlen & Hfrom & Hto & Hedge & Hcum & Ht).
        cbn [length] in *. repeat split.
        -- cbn [length]. lia.
        -- cbn [map pd_from]. rewrite Hfrom.
           replace (S (S (length path)) - 1)%nat with (S (S (length path) - 1)) by lia.
           reflexivity.
        -- cbn [map pd_to]. rewrite Hto. reflexivity.
        -- constructor; [exact Hw | exact Hedge].
        -- intros [|i] d Hd.
           ++ injection Hd as <-. unfold total. simpl. lia.
           ++ cbn [lookup list_lookup] in Hd. rewrite (Hcum i d Hd).
              unfold total. simpl. lia.
        -- rewrite Ht. unfold total. cbn [map foldr pd_distance]. lia.
      * destruct IH as [-> Hnone]. split; [reflexivity|]. now rewrite Hnone.
Qed.

(** X4.  The loop that details the shortest path either follows every
    leg or stops with KeyError at a leg that is no road.  When it runs to
    its end there is one entry for each pair of consecutive nodes of the
    path, in order and head to tail; every [distance] is the weight of
    that road; every [cumulative] is the sum of the distances up to and
    including its leg; and the total is the sum of all distances. *)
Theorem X4_path_details_follow_the_path (g : Graph) (path : list string) :
  match walk g path 0 with
  | Ok (ds, t) =>
      length ds = (length path - 1)%nat /\
      map pd_from ds = take (length path - 1) path /\
      map pd_to ds = drop 1 path /\
      Forall (fun d => edge_attr g (pd_from d) (pd_to d) = Ok (pd_distance d)) ds /\
      (forall i d, ds !! i = Some d ->
         pd_cumulative d = total (map pd_distance (take (S i) ds))) /\
      t = total (map pd_distance ds)
  | Raise e => e = KeyError /\ path_weight g path = None
  end.
Proof. exact (walk_inv g path 0). Qed.

End PathDetails.

(** ** Minimum-cost delivery *)

Section MinCostFlow.
Import NetworkFlowDemo FlowReference NetworkFigures.

Lemma mcf_model_eq : min_cost_flow_model = Ok mcf_model.
Proof. vm_compute. reflexivity. Qed.

Lemma mcf_objective :
  objective mcf_model
    = map (fun t => (snd (fst t), x_name (fst (fst (fst t))) (snd (fst (fst t)))))
          transport_data.
Proof. vm_compute. reflexivity. Qed.

Lemma mcf_variables :
  variables mcf_model
    = map (fun t => mkVar (x_name (fst (fst (fst t))) (snd (fst (fst t))))
                          (Some 0%Q) (Some (snd t))) transport_data.
Proof. vm_compute. reflexivity. Qed.

Lemma capacity_positive (t : string * string * Q * Q) :
  t ∈ transport_data -> (0 < snd t)%Q.
Proof.
  intros H. apply list_elem_of_In in H. unfold transport_data in H. cbn [In] in H.
  repeat (destruct H as [<-|H]; [reflexivity|]). destruct H.
Qed.

(** The run of the method, whatever the solver answers: no capacity of
    [transport_data] is zero. *)
Lemma solve_min_cost_flow_run (solver : Solver) (s : State) :
  let a := solver mcf_model in
  solve_min_cost_flow_problem solver s =
    ([EvSolve mcf_model],
     mkState (max_flow s)
       (Some (mkMinCostFlow (value a (objective mcf_model))
                (map (fun d => (cd_from d, cd_to d, cd_flow d)) (cost_details_of a))
                (cost_details_of a)))
       (shortest_path_result s) (graph_max_flow s) (graph_shortest_path s),
     Ok (value a (objective mcf_model),
         map (fun d => (cd_from d, cd_to d, cd_flow d)) (cost_details_of a))).
Proof.
  intros a. unfold solve_min_cost_flow_problem.
  cbv [mbind Run_bind emit lift mret Run_ret set_min_cost_flow].
  rewrite mcf_model_eq. cbv zeta. fold a.
  rewrite (map_result_ext _
             (fun t => if py_gt (shipped a t) 0 then [detail_of a t] else []) transport_data).
  - reflexivity.
  - intros t Ht. unfold shipped, detail_of. destruct (py_gt _ 0); [|reflexivity].
    pose proof (capacity_positive t Ht).
    rewrite py_div_ok by lra. reflexivity.
Qed.

Lemma value_py_sum (a : assignment) (e : LpAffineExpression) :
  (value a e == py_sum (map (fun t => fst t * a (snd t)) e))%Q.
Proof.
  induction e as [|t e IH]; [reflexivity|].
  cbn [map]. rewrite py_sum_cons, <- IH. reflexivity.
Qed.

Lemma py_sum_ext {A : Type} (f g : A -> Q) (l : list A) :
  (forall a, a ∈ l -> f a == g a)%Q -> (py_sum (map f l) == py_sum (map g l))%Q.
Proof.
  induction l as [|a l IH]; intros H; [reflexivity|].
  cbn [map]. rewrite !py_sum_cons, IH, (H a) by (intros; try apply H; now constructor).
  reflexivity.
Qed.

(** Adding up over the entries that a loop keeps. *)
Lemma py_sum_kept {A B : Type} (keep : A -> bool) (mk : A -> B) (h : B -> Q) (l : list A) :
  (py_sum (map h (concat (map (fun a => if keep a then [mk a] else []) l)))
   == py_sum (map (fun a => if keep a then h (mk a) else 0) l))%Q.
Proof.
  induction l as [|a l IH]; [reflexivity|].
  cbn [map concat]. rewrite map_app, py_sum_app, py_sum_cons, IH.
  destruct (keep a); cbn [map]; [rewrite py_sum_cons|]; unfold py_sum; cbn; lra.
Qed.

Lemma Forall_kept {A B : Type} (keep : A -> bool) (mk : A -> B) (P : B -> Prop) (l : list A) :
  (forall a, a ∈ l -> keep a = true -> P (mk a)) ->
  Forall P (concat (map (fun a => if keep a then [mk a] else []) l)).
Proof.
  induction l as [|a l IH]; intros H; [constructor|].
  cbn [map concat]. apply Forall_app. split.
  - destruct (keep a) eqn:E; repeat constructor. apply H; [now left | exact E].
  - apply IH. intros b Hb. apply H. now right.
Qed.

Lemma mcf_in_bounds (a : assignment) (t : string * string * Q * Q) :
  Forall (in_bounds a) (variables mcf_model) -> t ∈ transport_data ->
  (0 <= shipped a t <= snd t)%Q.
Proof.
  rewrite mcf_variables, Forall_map, Forall_forall. intros H Ht.
  exact (H t Ht).
Qed.

(** X5.  [solve_min_cost_flow_problem] raises for no answer of the
    solver, and the report that follows it does not either: the
    capacities it divides by are non-zero constants, and the average cost
    is computed only when some route carries a positive quantity.  Each
    entry of [cost_details] is a route of [transport_data] with the
    positive quantity the solver gave it, that quantity times the unit
    cost, and its share of the capacity in percent. *)
Theorem X5_min_cost_flow_and_its_report_never_raise (solver : Solver) (s : State) :
  exists tr s' r v fs,
    solve_min_cost_flow_problem solver s = (tr, s', Ok (v, fs)) /\
    solved_models tr = [mcf_model] /\
    min_cost_flow s' = Some r /\ min_cost r = v /\ flow_solution r = fs /\
    v = value (solver mcf_model) (objective mcf_model) /\
    Forall (records_route (solver mcf_model)) (cost_details r) /\
    fs = map (fun d => (cd_from d, cd_to d, cd_flow d)) (cost_details r) /\
    max_flow s' = max_flow s /\ shortest_path_result s' = shortest_path_result s /\
    graph_max_flow s' = graph_max_flow s /\ graph_shortest_path s' = graph_shortest_path s /\
    value_of (generate_report s') = Ok tt.
Proof.
  pose proof (solve_min_cost_flow_run solver s) as Hrun. cbv zeta in Hrun.
  set (a := solver mcf_model) in *.
  assert (Hrec : Forall (records_route a) (cost_details_of a)).
  { apply Forall_kept. intros t Ht Hpos. exists t.
    apply py_gt_iff in Hpos. repeat split; try reflexivity; assumption. }
  eexists _, _, _, _, _. split; [exact Hrun|].
  cbn [min_cost_flow min_cost flow_solution cost_details max_flow shortest_path_result
       graph_max_flow graph_shortest_path].
  repeat split; try reflexivity; try exact Hrec.
  unfold generate_report. cbv [mbind Run_bind get]. 
  unfold no_results. cbn [min_cost_flow max_flow shortest_path_result cost_details min_cost].
  assert (Havg : cost_details_of a <> [] ->
            exists q, py_div (value a (objective mcf_model))
                        (py_sum (map cd_flow (cost_details_of a))) = Ok q).
  { intros Hne. eexists. apply py_div_ok.
    assert (0 < py_sum (map cd_flow (cost_details_of a)))%Q; [|lra].
    apply py_sum_pos.
    - intros E. apply Hne. now apply map_eq_nil in E.
    - apply Forall_map. eapply Forall_impl; [exact Hrec|].
      intros d (t & _ & _ & _ & _ & Hpos & _). exact Hpos. }
  destruct (max_flow s) as [mf|], (shortest_path_result s) as [sp|];
    destruct (cost_details_of a) as [|d ds] eqn:E;
    try (destruct Havg as [q Hq]; [discriminate|]);
    cbv [emit lift mret Run_ret value_of]; cbn [app snd];
    try rewrite Hq; reflexivity.
Qed.

(** X6.  When the solver's quantities respect the bounds of the variables
    (none negative, none above the capacity of its route), the entries of
    [cost_details] account for the whole reported cost: their
    [total_cost] adds up to [min_cost], although routes without a
    positive quantity are left out; and no [utilization] exceeds 100. *)
Theorem X6_cost_details_account_for_the_cost (solver : Solver) (s : State) :
  Forall (in_bounds (solver mcf_model)) (variables mcf_model) ->
  exists tr s' r v fs,
    solve_min_cost_flow_problem solver s = (tr, s', Ok (v, fs)) /\
    min_cost_flow s' = Some r /\ min_cost r = v /\
    (py_sum (map cd_total_cost (cost_details r)) == v)%Q /\
    Forall (fun d => 0 < cd_utilization d <= 100)%Q (cost_details r).
Proof.
  intros Hb.
  pose proof (solve_min_cost_flow_run solver s) as Hrun. cbv zeta in Hrun.
  set (a := solver mcf_model) in *.
  eexists _, _, _, _, _. split; [exact Hrun|].
  cbn [min_cost_flow min_cost cost_details]. repeat split.
  - unfold cost_details_of. eapply Qeq_trans; [apply py_sum_kept|].
    symmetry. eapply Qeq_trans; [apply value_py_sum|].
    rewrite mcf_objective, map_map.
    apply py_sum_ext. intros t Ht. cbn [fst snd detail_of cd_total_cost].
    pose proof (mcf_in_bounds a t Hb Ht) as [H0 _]. fold (shipped a t).
    destruct (py_gt (shipped a t) 0) eqn:E; [ring|].
    assert (~ (0 < shipped a t)%Q) by (rewrite <- py_gt_iff; congruence).
    assert (Hz : (shipped a t == 0)%Q) by lra. rewrite Hz. ring.
  - apply Forall_kept. intros t Ht Hpos. apply py_gt_iff in Hpos.
    cbn [detail_of cd_utilization].
    pose proof (mcf_in_bounds a t Hb Ht) as [_ H1].
    pose proof (capacity_positive t Ht) as Hc.
    assert (0 < shipped a t / snd t)%Q by (apply Qlt_shift_div_l; lra).
    assert (shipped a t / snd t <= 1)%Q by (apply Qle_shift_div_r; lra).
    lra.
Qed.

Lemma mcf_best_plan_in_bounds : Forall (in_bounds mcf_best_plan) (variables mcf_model).
Proof.
  let v := eval vm_compute in (variables mcf_model) in
    change (variables mcf_model) with v.
  repeat constructor; cbn; discriminate.
Qed.

Lemma X6_cost_details_account_for_the_cost_witness :
  Forall (in_bounds (mcf_best_solver mcf_model)) (variables mcf_model) /\
  exists tr s' r v fs,
    solve_min_cost_flow_problem mcf_best_solver init = (tr, s', Ok (v, fs)) /\
    min_cost_flow s' = Some r /\ min_cost r = v /\
    (py_sum (map cd_total_cost (cost_details r)) == v)%Q /\
    Forall (fun d => 0 < cd_utilization d <= 100)%Q (cost_details r).
Proof.
  split; [exact mcf_best_plan_in_bounds|].
  exact (X6_cost_details_account_for_the_cost mcf_best_solver init mcf_best_plan_in_bounds).
Defined.

(** What being a feasible delivery plan says, and the bound it implies:
    with 250 units to deliver from 250 available, every supply and every
    demand is met exactly, and no plan costs less than 1230. *)
Lemma mcf_lower_bound (a : assignment) :
  feasible mcf_model a -> (1230 <= value a (objective mcf_model))%Q.
Proof.
  intros [Hb Hc].
  let v := eval vm_compute in (variables mcf_model) in
    change (variables mcf_model) with v in Hb.
  let c := eval vm_compute in (constraints mcf_model) in
    change (constraints mcf_model) with c in Hc.
  let o := eval vm_compute in (objective mcf_model) in
    change (objective mcf_model) with o.
  repeat match goal with
         | H : Forall _ (_ :: _) |- _ => apply Forall_cons_1 in H; destruct H
         end.
  unfold in_bounds, holds in *. cbn -[Qplus Qmult Qle Qeq] in *.
  repeat match goal with H : _ /\ _ |- _ => destruct H end.
  lra.
Qed.

Lemma mcf_best_plan_optimal :
  optimal mcf_model mcf_best_plan /\ (value mcf_best_plan (objective mcf_model) == 1230)%Q.
Proof.
  assert (Hv : (value mcf_best_plan (objective mcf_model) == 1230)%Q) by (vm_compute; reflexivity).
  split; [|exact Hv]. split.
  - split; [exact mcf_best_plan_in_bounds|].
    let c := eval vm_compute in (constraints mcf_model) in
      change (constraints mcf_model) with c.
    repeat constructor; unfold holds; cbn; discriminate.
  - intros b Hb. change (sense mcf_model) with LpMinimize. cbn [better].
    rewrite Hv. now apply mcf_lower_bound.
Qed.

(** X7.  When the solve of the delivery model ends with an optimal plan,
    [solve_min_cost_flow_problem] returns and stores the cost 1230, which
    is the optimum of the model it built (a feasible plan reaches it and
    no feasible plan costs less). *)
Theorem X7_min_cost_flow_optimum (solver : Solver) (s : State) :
  optimal mcf_model (solver mcf_model) ->
  exists tr s' r v fs,
    solve_min_cost_flow_problem solver s = (tr, s', Ok (v, fs)) /\
    solved_models tr = [mcf_model] /\
    min_cost_flow s' = Some r /\ min_cost r = v /\
    (v == 1230)%Q /\ optimum_value mcf_model v.
Proof.
  intros [Hfeas Hopt].
  pose proof (solve_min_cost_flow_run solver s) as Hrun. cbv zeta in Hrun.
  set (a := solver mcf_model) in *.
  destruct mcf_best_plan_optimal as [[Hbf _] Hbv].
  assert (Hv : (value a (objective mcf_model) == 1230)%Q).
  { pose proof (mcf_lower_bound a Hfeas).
    pose proof (Hopt mcf_best_plan Hbf) as Hle.
    change (sense mcf_model) with LpMinimize in Hle. cbn [better] in Hle. lra. }
  eexists _, _, _, _, _. split; [exact Hrun|].
  cbn [min_cost_flow min_cost]. repeat split; try reflexivity; try exact Hv.
  - exists a. split; [exact Hfeas | reflexivity].
  - intros b Hb. change (sense mcf_model) with LpMinimize. cbn [better].
    rewrite Hv. now apply mcf_lower_bound.
Qed.

Lemma X7_min_cost_flow_optimum_witness :
  optimal mcf_model (mcf_best_solver mcf_model) /\
  exists tr s' r v fs,
    solve_min_cost_flow_problem mcf_best_solver init = (tr, s', Ok (v, fs)) /\
    solved_models tr = [mcf_model] /\
    min_cost_flow s' = Some r /\ min_cost r = v /\
    (v == 1230)%Q /\ optimum_value mcf_model v.
Proof.
  split; [exact (proj1 mcf_best_plan_optimal)|].
  exact (X7_min_cost_flow_optimum mcf_best_solver init (proj1 mcf_best_plan_optimal)).
Defined.

End MinCostFlow.

(** ** Network analysis without a graph *)

Section AnalysisGuard.
Import NetworkFlowDemo FlowReference NetworkFigures.

(** X8.  [network_analysis] is guarded by [self.graphs], which
    [solve_min_cost_flow_problem] never fills: on an object that has
    solved the delivery problem only, it prints the solve-first warning
    and analyses nothing, whatever the solver answered, while
    [generate_report] on the same object reports the stored cost. *)
Theorem X8_analysis_needs_a_graph (solver : Solver) :
  exists tr s v,
    solve_min_cost_flow_problem solver init = (tr, s, Ok v) /\
    no_results s = false /\ no_graphs s = true /\
    warns_only warn_solve_first network_analysis s /\
    head (trace_of (generate_report s)) = Some (EvPrint "  • 最小成本" [fst v]).
Proof.
  pose proof (solve_min_cost_flow_run solver init) as Hrun. cbv zeta in Hrun.
  eexists _, _, _. split; [exact Hrun|].
  repeat split.
  unfold generate_report. cbv [mbind Run_bind get]. unfold no_results.
  cbn [min_cost_flow max_flow shortest_path_result cost_details min_cost init].
  cbv [emit lift mret Run_ret].
  destruct (cost_details_of _); [reflexivity|].
  destruct (py_div _ _); reflexivity.
Qed.

End AnalysisGuard.

(** ** Transportation: the routes of a plan *)

Section TransportRoutes.
Import TransportationProblemDemo TransportReference TransportFigures.

Lemma matrix_index_nth (cm : matrix) (m n i j : nat) :
  length cm = m -> Forall (fun r => length r = n) cm ->
  (i < m)%nat -> (j < n)%nat ->
  matrix_index cm i j = Ok (nth j (nth i cm []) 0%Q).
Proof.
  intros Hm Hn Hi Hj. unfold matrix_index.
  rewrite (py_index_nth cm i []) by lia. cbn [mbind result_bind].
  apply py_index_nth.
  rewrite Forall_forall in Hn. rewrite Hn; [exact Hj|].
  apply list_elem_of_In, nth_In. lia.
Qed.

Lemma solution_of_index (sc : Scenario) (a : assignment) (ij : nat * nat) :
  ij ∈ grid sc ->
  matrix_index (solution_of sc a) (fst ij) (snd ij) = Ok (shipped a ij).
Proof.
  intros H. apply grid_inv in H as [Hi Hj].
  destruct (solution_of_shape sc a) as [Hlen Hrow].
  rewrite (matrix_index_nth _ _ _ _ _ Hlen Hrow Hi Hj). f_equal.
  unfold solution_of, shipped.
  rewrite (nth_indep _ [] (map (fun j => a (x_name 0 j)) (seq 0 (length (warehouses sc)))))
    by (rewrite length_map, length_seq; exact Hi).
  rewrite (map_nth (fun i => map (fun j => a (x_name i j)) (seq 0 (length (warehouses sc))))
             (seq 0 (length (factories sc))) 0%nat (fst ij)).
  rewrite seq_nth by exact Hi. cbn [Nat.add].
  rewrite (nth_indep _ 0%Q (a (x_name (fst ij) 0)))
    by (rewrite length_map, length_seq; exact Hj).
  rewrite (map_nth (fun j => a (x_name (fst ij) j)) (seq 0 (length (warehouses sc))) 0%nat).
  now rewrite seq_nth by exact Hj.
Qed.

Lemma cost_index (sc : Scenario) (ij : nat * nat) :
  cost_shape_agrees sc -> ij ∈ grid sc ->
  matrix_index (cost_matrix sc) (fst ij) (snd ij) = Ok (cost_at sc ij).
Proof.
  intros [Hrows Hcols] H. apply grid_inv in H as [Hi Hj].
  exact (matrix_index_nth _ _ _ _ _ Hrows Hcols Hi Hj).
Qed.

(** The loop of lines 156-168 on the matrix of the solver's values. *)
Lemma routes_of_kept (sc : Scenario) (a : assignment) :
  cost_shape_agrees sc -> routes_of sc (solution_of sc a) = Ok (routes_kept sc a).
Proof.
  intros Hshape. unfold routes_of. fold (grid sc).
  rewrite (map_result_ext _
             (fun ij => if py_gt (shipped a ij) 0 then [route_of sc a ij] else []) (grid sc)).
  - reflexivity.
  - intros ij Hij. cbv zeta. rewrite (solution_of_index sc a ij Hij).
    cbn [mbind result_bind]. destruct (py_gt (shipped a ij) 0); [|reflexivity].
    rewrite (cost_index sc ij Hshape Hij). cbn [mbind result_bind].
    pose proof (grid_inv _ _ _ Hij) as [Hi Hj].
    rewrite (py_index_nth (factories sc) _ "") by exact Hi.
    rewrite (py_index_nth (warehouses sc) _ "") by exact Hj.
    reflexivity.
Qed.

(** The variables and the objective of the model of a well-shaped
    scenario. *)
Lemma transport_model_objective (sc : Scenario) (p : LpProblem) :
  cost_shape_agrees sc -> transport_model sc = Ok p ->
  variables p = map (fun ij => x (fst ij) (snd ij)) (grid sc) /\
  objective p = map (fun ij => (cost_at sc ij, x_name (fst ij) (snd ij))) (grid sc) /\
  sense p = LpMinimize.
Proof.
  intros Hshape. unfold transport_model. fold (grid sc).
  rewrite (map_result_ext _ (fun ij => (cost_at sc ij, x (fst ij) (snd ij))) (grid sc)).
  2:{ intros ij Hij. now rewrite (cost_index sc ij Hshape Hij). }
  cbn [mbind result_bind].
  destruct (map_result _ (seq 0 (length (factories sc)))) as [sup|]; [|discriminate].
  cbn [mbind result_bind].
  destruct (map_result _ (seq 0 (length (warehouses sc)))) as [dem|]; [|discriminate].
  cbn [mbind result_bind]. intros H. injection H as <-.
  assert (Hkeep : forall q cs, variables (add_constraints q cs) = variables q /\
                               objective (add_constraints q cs) = objective q /\
                               sense (add_constraints q cs) = sense q).
  { intros q cs. revert q. unfold add_constraints.
    induction cs as [|c cs IH]; intros q; cbn [fold_left]; [tauto|].
    destruct (IH (add_constraint q c)) as (-> & -> & ->). tauto. }
  destruct (Hkeep (add_constraints
                     (set_objective
                        (new_problem "运输问题" LpMinimize
                           (flat_map (fun i => map (fun j => x i j)
                                                   (seq 0 (length (warehouses sc))))
                                     (seq 0 (length (factories sc)))))
                        (lpSum (map (fun ij => (cost_at sc ij, x (fst ij) (snd ij))) (grid sc))))
                     sup) dem) as (-> & -> & ->).
  destruct (Hkeep (set_objective
                        (new_problem "运输问题" LpMinimize
                           (flat_map (fun i => map (fun j => x i j)
                                                   (seq 0 (length (warehouses sc))))
                                     (seq 0 (length (factories sc)))))
                        (lpSum (map (fun ij => (cost_at sc ij, x (fst ij) (snd ij))) (grid sc))))
                     sup) as (-> & -> & ->).
  cbn [variables objective sense set_objective new_problem].
  repeat split.
  - unfold grid. induction (seq 0 (length (factories sc))) as [|i rows IH]; [reflexivity|].
    cbn [flat_map]. rewrite map_app, map_map, IH. reflexivity.
  - unfold lpSum. rewrite map_map. reflexivity.
Qed.

Lemma build_inv (sc sc' : Scenario) (p : LpProblem) :
  build sc = Ok (sc', p) -> rebalance sc = Ok sc' /\ transport_model sc' = Ok p.
Proof.
  unfold build. destruct (data_frame _ _ _); [|discriminate]. cbn [mbind result_bind].
  destruct (rebalance sc) as [sc1|]; [|discriminate]. cbn [mbind result_bind].
  destruct (transport_model sc1) as [p1|] eqn:E; [|discriminate]. cbn [mbind result_bind].
  intros H. injection H as <- <-. tauto.
Qed.

(** The run of the method on a scenario that reaches the solver. *)
Lemma solve_basic_run (sc : Scenario) (solver : Solver) (s : State) :
  solvable sc ->
  exists sc' p,
    build sc = Ok (sc', p) /\ dims_agree sc' /\
    rebalance sc = Ok sc' /\ transport_model sc' = Ok p /\
    solve_basic_transportation_on sc solver s =
      ([EvSolve p],
       mkState (Some (mkBasic (factories sc') (warehouses sc') (warehouses sc)
                        (supply sc') (demand sc') (demand sc) (cost_matrix sc')
                        (solution_of sc' (solver p))
                        (value (solver p) (objective p))
                        (routes_kept sc' (solver p))))
               (multi_product s),
       Ok (solution_of sc' (solver p), value (solver p) (objective p))).
Proof.
  intros (Hd & Hne & H3).
  destruct (build_total sc Hd Hne H3) as (sc' & p & Hb & Hd' & _).
  destruct (build_inv sc sc' p Hb) as [Hr Hm].
  exists sc', p. do 4 (split; [assumption|]).
  apply solve_basic_transportation_run; [exact Hb|].
  apply routes_of_kept. destruct Hd' as (? & ? & _). now split.
Qed.

Lemma shipped_nonneg (sc : Scenario) (p : LpProblem) (a : assignment) (ij : nat * nat) :
  cost_shape_agrees sc -> transport_model sc = Ok p ->
  Forall (in_bounds a) (variables p) -> ij ∈ grid sc -> (0 <= shipped a ij)%Q.
Proof.
  intros Hshape Hm Hb Hij.
  destruct (transport_model_objective sc p Hshape Hm) as (Hv & _).
  rewrite Hv, Forall_map, Forall_forall in Hb. exact (proj1 (Hb ij Hij)).
Qed.

(** X9.  On every scenario that reaches the solver, when the solver's
    quantities are not negative, the entries of [route_details] account
    for the whole reported cost: each entry has a positive quantity and
    that quantity times the unit cost as its cost, and the costs add up
    to [min_cost], although the routes without a positive quantity are
    left out. *)
Theorem X9_route_details_account_for_the_cost (sc : Scenario) (solver : Solver) (s : State) :
  solvable sc ->
  (forall sc' p, build sc = Ok (sc', p) -> Forall (in_bounds (solver p)) (variables p)) ->
  exists tr s' b sol v,
    solve_basic_transportation_on sc solver s = (tr, s', Ok (sol, v)) /\
    basic s' = Some b /\ multi_product s' = multi_product s /\ min_cost b = v /\
    Forall carries (route_details b) /\
    (py_sum (map total_cost (route_details b)) == v)%Q.
Proof.
  intros Hs Hbounds.
  destruct (solve_basic_run sc solver s Hs) as (sc' & p & Hb & Hd' & _ & Hm & Hrun).
  specialize (Hbounds sc' p Hb).
  assert (Hshape : cost_shape_agrees sc') by (destruct Hd' as (? & ? & _); now split).
  eexists _, _, _, _, _. split; [exact Hrun|].
  cbn [basic multi_product min_cost route_details]. repeat split.
  - apply Forall_kept. intros ij _ Hpos. apply py_gt_iff in Hpos. split; [exact Hpos|reflexivity].
  - unfold routes_kept. eapply Qeq_trans; [apply py_sum_kept|].
    symmetry. eapply Qeq_trans; [apply value_py_sum|].
    destruct (transport_model_objective sc' p Hshape Hm) as (_ & -> & _).
    rewrite map_map. apply py_sum_ext. intros ij Hij.
    cbn [fst snd route_of total_cost].
    pose proof (shipped_nonneg sc' p (solver p) ij Hshape Hm Hbounds Hij) as H0.
    fold (shipped (solver p) ij).
    destruct (py_gt (shipped (solver p) ij) 0) eqn:E; [ring|].
    assert (~ (0 < shipped (solver p) ij)%Q) by (rewrite <- py_gt_iff; congruence).
    assert (Hz : (shipped (solver p) ij == 0)%Q) by lra. rewrite Hz. ring.
Qed.

Lemma demo_solvable : solvable demo_scenario.
Proof.
  split; [exact demo_dims|]. split; [discriminate|]. intros _. reflexivity.
Qed.

Lemma best_plan_bounds (sc' : Scenario) (p : LpProblem) :
  build demo_scenario = Ok (sc', p) -> Forall (in_bounds (best_solver p)) (variables p).
Proof.
  rewrite build_demo. intros H. injection H as <- <-.
  exact (proj1 (proj1 (proj1 transport_best_plan_optimal))).
Qed.

Lemma X9_route_details_account_for_the_cost_witness :
  solvable demo_scenario /\
  (forall sc' p, build demo_scenario = Ok (sc', p) ->
     Forall (in_bounds (best_solver p)) (variables p)) /\
  exists tr s' b sol v,
    solve_basic_transportation_on demo_scenario best_solver init = (tr, s', Ok (sol, v)) /\
    basic s' = Some b /\ multi_product s' = multi_product init /\ min_cost b = v /\
    Forall carries (route_details b) /\
    (py_sum (map total_cost (route_details b)) == v)%Q.
Proof.
  split; [exact demo_solvable|]. split; [exact best_plan_bounds|].
  exact (X9_route_details_account_for_the_cost demo_scenario best_solver init
           demo_solvable best_plan_bounds).
Defined.

End TransportRoutes.

(** ** Transportation: the total quantity *)

Section TransportTotals.
Import TransportationProblemDemo TransportReference TransportFigures.

Lemma py_sum_flat_map {A B : Type} (f : B -> Q) (g : A -> list B) (l : list A) :
  (py_sum (map f (flat_map g l)) == py_sum (map (fun a => py_sum (map f (g a))) l))%Q.
Proof.
  induction l as [|a l IH]; [reflexivity|].
  cbn [flat_map map]. rewrite map_app, py_sum_app, py_sum_cons, IH. reflexivity.
Qed.

Lemma py_sum_one (q : Q) : (py_sum [q] == q)%Q.
Proof. unfold py_sum. cbn. lra. Qed.

Lemma py_sum_inject (l : list Z) : (py_sum (map inject_Z l) == inject_Z (py_sumZ l))%Q.
Proof.
  induction l as [|z l IH] using rev_ind; [reflexivity|].
  rewrite map_app, py_sum_app, py_sumZ_snoc, inject_Z_plus, IH. cbn [map].
  rewrite py_sum_one. reflexivity.
Qed.

Lemma rebalance_supply_total (sc sc' : Scenario) :
  solvable sc -> rebalance sc = Ok sc' ->
  py_sumZ (supply sc') = Z.max (py_sumZ (supply sc)) (py_sumZ (demand sc)).
Proof.
  intros ((Hrows & Hcols & Hsup & Hdem) & Hne & H3) Hr.
  destruct (Z.lt_trichotomy (py_sumZ (supply sc)) (py_sumZ (demand sc))) as [Hlt|[Heq|Hgt]].
  - rewrite rebalance_deficit in Hr; [|exact Hlt|].
    + injection Hr as <-. cbn [supply]. rewrite py_sumZ_snoc. lia.
    + destruct (cost_matrix sc) as [|r m] eqn:E.
      * destruct (factories sc); [congruence|discriminate].
      * apply Forall_cons_1 in Hcols. tauto.
  - unfold rebalance in Hr. rewrite decide_False in Hr by lia. injection Hr as <-. lia.
  - rewrite rebalance_surplus in Hr; [|lia|rewrite Hrows; apply H3; lia].
    injection Hr as <-. cbn [supply]. lia.
Qed.

(** What a feasible plan ships in all: every factory its supply. *)
Lemma total_quantity_of_feasible (sc : Scenario) (solver : Solver) (s : State) :
  solvable sc ->
  (forall sc' p, build sc = Ok (sc', p) -> feasible p (solver p)) ->
  exists tr s' b v,
    solve_basic_transportation_on sc solver s = (tr, s', Ok v) /\
    basic s' = Some b /\
    (py_sum (map quantity (route_details b))
     == inject_Z (Z.max (py_sumZ (supply sc)) (py_sumZ (demand sc))))%Q.
Proof.
  intros Hs Hfeas.
  destruct (solve_basic_run sc solver s Hs) as (sc' & p & Hb & Hd' & Hr & Hm & Hrun).
  destruct (Hfeas sc' p Hb) as [Hbounds Hcons].
  assert (Hshape : cost_shape_agrees sc') by (destruct Hd' as (? & ? & _); now split).
  eexists _, _, _, _. split; [exact Hrun|].
  cbn [basic route_details]. split; [reflexivity|].
  rewrite <- (rebalance_supply_total sc sc' Hs Hr).
  set (a := solver p) in *.
  unfold routes_kept. eapply Qeq_trans; [apply py_sum_kept|].
  eapply Qeq_trans.
  { apply (py_sum_ext _ (shipped a)). intros ij Hij. cbn [route_of quantity].
    pose proof (shipped_nonneg sc' p a ij Hshape Hm Hbounds Hij) as H0.
    destruct (py_gt (shipped a ij) 0) eqn:E; [reflexivity|].
    assert (~ (0 < shipped a ij)%Q) by (rewrite <- py_gt_iff; congruence). lra. }
  unfold grid. eapply Qeq_trans; [apply py_sum_flat_map|].
  destruct (transport_model_total sc' Hd') as (p' & Hm' & Hc).
  rewrite Hm in Hm'. injection Hm' as <-.
  rewrite Hc in Hcons. apply Forall_app in Hcons as [Hsup _].
  rewrite Forall_map, Forall_forall in Hsup.
  eapply Qeq_trans.
  { apply (py_sum_ext _ (fun i => inject_Z (nth i (supply sc') 0%Z))).
    intros i Hi. specialize (Hsup i Hi). unfold holds, ships_exactly in Hsup.
    cbn [cmp lhs rhs] in Hsup. rewrite <- Hsup.
    symmetry. eapply Qeq_trans; [apply value_py_sum|].
    rewrite !map_map. apply py_sum_ext. intros j _. cbn [fst snd]. unfold shipped.
    cbn [fst snd]. ring. }
  destruct Hd' as (_ & _ & Hlen & _). rewrite <- Hlen.
  rewrite <- (map_map (fun i => nth i (supply sc') 0%Z) inject_Z).
  rewrite (map_seq_lookup (fun z => z) (supply sc') 0%Z), map_id.
  apply py_sum_inject.
Qed.


(** X10.  When the solver's plan is feasible, the quantities of
    [route_details] add up to the larger of total supply and total
    demand: what a dummy factory or a dummy warehouse ships or receives
    is counted in the report's total quantity (line 586) as well. *)
Theorem X10_total_quantity_counts_the_dummy (sc : Scenario) (solver : Solver) (s : State) :
  solvable sc ->
  (forall sc' p, build sc = Ok (sc', p) -> feasible p (solver p)) ->
  exists tr s' b v,
    solve_basic_transportation_on sc solver s = (tr, s', Ok v) /\
    basic s' = Some b /\
    (py_sum (map quantity (route_details b))
     == inject_Z (Z.max (py_sumZ (supply sc)) (py_sumZ (demand sc))))%Q.
Proof. exact (total_quantity_of_feasible sc solver s). Qed.

Lemma best_plan_feasible_demo (sc' : Scenario) (p : LpProblem) :
  build demo_scenario = Ok (sc', p) -> feasible p (best_solver p).
Proof.
  rewrite build_demo. intros H. injection H as <- <-.
  exact (proj1 (proj1 transport_best_plan_optimal)).
Qed.

Lemma X10_total_quantity_counts_the_dummy_witness :
  solvable demo_scenario /\
  (forall sc' p, build demo_scenario = Ok (sc', p) -> feasible p (best_solver p)) /\
  exists tr s' b v,
    solve_basic_transportation_on demo_scenario best_solver init = (tr, s', Ok v) /\
    basic s' = Some b /\
    (py_sum (map quantity (route_details b))
     == inject_Z (Z.max (py_sumZ (supply demo_scenario)) (py_sumZ (demand demo_scenario))))%Q.
Proof.
  split; [exact demo_solvable|]. split; [exact best_plan_feasible_demo|].
  exact (X10_total_quantity_counts_the_dummy demo_scenario best_solver init
           demo_solvable best_plan_feasible_demo).
Defined.

(** X11.  The report divides the minimum cost by the total quantity
    without a guard (line 588).  On a scenario whose supplies and demands
    add up to 0, solved with a feasible plan, [generate_report] prints the
    minimum cost and then raises ZeroDivisionError. *)
Theorem X11_report_of_nothing_shipped_raises (sc : Scenario) (solver : Solver) (s : State) :
  solvable sc ->
  (forall sc' p, build sc = Ok (sc', p) -> feasible p (solver p)) ->
  py_sumZ (supply sc) = 0%Z -> py_sumZ (demand sc) = 0%Z ->
  exists tr s' b v,
    solve_basic_transportation_on sc solver s = (tr, s', Ok v) /\
    basic s' = Some b /\
    generate_report s' = ([EvPrint "  • 最小运输成本" [min_cost b]], s', Raise ZeroDivisionError).
Proof.
  intros Hs Hfeas HS HD.
  destruct (total_quantity_of_feasible sc solver s Hs Hfeas)
    as (tr & s' & b & v & Hrun & Hb & Htotal).
  exists tr, s', b, v. split; [exact Hrun|]. split; [exact Hb|].
  rewrite HS, HD in Htotal. change (inject_Z (Z.max 0 0)) with 0%Q in Htotal.
  unfold generate_report. cbv [mbind Run_bind get]. unfold no_results. rewrite Hb.
  unfold report_basic. rewrite Hb. cbv [mbind Run_bind emit lift].
  rewrite (py_div_zero _ _ Htotal). reflexivity.
Qed.

Lemma nothing_to_ship_solvable : solvable nothing_to_ship.
Proof.
  split; [|split; [discriminate | intros H; vm_compute in H; discriminate]].
  unfold dims_agree. cbn. repeat split; repeat constructor.
Qed.

Lemma idle_plan_feasible (sc' : Scenario) (p : LpProblem) :
  build nothing_to_ship = Ok (sc', p) -> feasible p (idle_solver p).
Proof.
  intros H. vm_compute in H. injection H as <- <-.
  split; repeat constructor; cbn; discriminate.
Qed.

Lemma X11_report_of_nothing_shipped_raises_witness :
  solvable nothing_to_ship /\
  (forall sc' p, build nothing_to_ship = Ok (sc', p) -> feasible p (idle_solver p)) /\
  py_sumZ (supply nothing_to_ship) = 0%Z /\ py_sumZ (demand nothing_to_ship) = 0%Z /\
  exists tr s' b v,
    solve_basic_transportation_on nothing_to_ship idle_solver init = (tr, s', Ok v) /\
    basic s' = Some b /\
    generate_report s' = ([EvPrint "  • 最小运输成本" [min_cost b]], s', Raise ZeroDivisionError).
Proof.
  split; [exact nothing_to_ship_solvable|]. split; [exact idle_plan_feasible|].
  split; [reflexivity|]. split; [reflexivity|].
  exact (X11_report_of_nothing_shipped_raises nothing_to_ship idle_solver init
           nothing_to_ship_solvable idle_plan_feasible eq_refl eq_refl).
Defined.

End TransportTotals.

(** ** Transportation: rebalancing *)

Section Rebalancing.
Import TransportationProblemDemo TransportReference TransportFigures.

Lemma solvable_ncols (sc : Scenario) :
  solvable sc -> ncols (cost_matrix sc) = length (warehouses sc).
Proof.
  intros ((Hrows & Hcols & _) & Hne & _).
  destruct (cost_matrix sc) as [|r m] eqn:E.
  - destruct (factories sc); [congruence|discriminate].
  - apply Forall_cons_1 in Hcols. tauto.
Qed.

(** The balance check, case by case. *)
Lemma rebalance_cases (sc : Scenario) :
  solvable sc ->
  exists sc',
    rebalance sc = Ok sc' /\ dims_agree sc' /\
    py_sumZ (supply sc') = py_sumZ (demand sc') /\
    (py_sumZ (supply sc) = py_sumZ (demand sc) -> sc' = sc) /\
    ((py_sumZ (supply sc) > py_sumZ (demand sc))%Z ->
     sc' = mkScenario (factories sc) (warehouses sc ++ ["虚拟仓库"]) (supply sc)
             (demand sc ++ [py_sumZ (supply sc) - py_sumZ (demand sc)]%Z)
             (map (fun r => r ++ [0%Q]) (cost_matrix sc))) /\
    ((py_sumZ (supply sc) < py_sumZ (demand sc))%Z ->
     sc' = mkScenario (factories sc ++ ["虚拟工厂"]) (warehouses sc)
             (supply sc ++ [py_sumZ (demand sc) - py_sumZ (supply sc)]%Z) (demand sc)
             (cost_matrix sc ++ [repeat 0%Q (length (warehouses sc))])).
Proof.
  intros Hs. pose proof Hs as (Hd & Hne & H3).
  destruct (rebalance_total sc Hd Hne H3) as (sc' & Hr & Hd').
  exists sc'. split; [exact Hr|]. split; [exact Hd'|].
  split; [exact (rebalance_balanced sc sc' Hr)|].
  split; [|split].
  - intros Heq. unfold rebalance in Hr. rewrite decide_False in Hr by lia.
    now injection Hr.
  - intros Hgt. rewrite rebalance_surplus in Hr; [now injection Hr | exact Hgt|].
    destruct Hd as (-> & _). apply H3. exact Hgt.
  - intros Hlt. rewrite rebalance_deficit in Hr; [now injection Hr | exact Hlt|].
    now apply solvable_ncols.
Qed.


(** X12.  On a scenario that reaches the balance check with tables of the
    right shape (and, when supply exceeds demand, exactly three
    factories) the check ends with supply and demand in balance and
    changes nothing but what the dummy node needs: a balanced scenario is
    returned as it is; a surplus adds the warehouse 虚拟仓库 with the
    surplus as its demand and a 0 at the end of every cost row; a deficit
    adds the factory 虚拟工厂 with the deficit as its supply and a cost
    row of zeros. *)
Theorem X12_rebalancing_adds_one_free_dummy (sc : Scenario) :
  solvable sc ->
  exists sc',
    rebalance sc = Ok sc' /\ dims_agree sc' /\
    py_sumZ (supply sc') = py_sumZ (demand sc') /\
    (py_sumZ (supply sc) = py_sumZ (demand sc) -> sc' = sc) /\
    ((py_sumZ (supply sc) > py_sumZ (demand sc))%Z ->
     sc' = mkScenario (factories sc) (warehouses sc ++ ["虚拟仓库"]) (supply sc)
             (demand sc ++ [py_sumZ (supply sc) - py_sumZ (demand sc)]%Z)
             (map (fun r => r ++ [0%Q]) (cost_matrix sc))) /\
    ((py_sumZ (supply sc) < py_sumZ (demand sc))%Z ->
     sc' = mkScenario (factories sc ++ ["虚拟工厂"]) (warehouses sc)
             (supply sc ++ [py_sumZ (demand sc) - py_sumZ (supply sc)]%Z) (demand sc)
             (cost_matrix sc ++ [repeat 0%Q (length (warehouses sc))])).
Proof. exact (rebalance_cases sc). Qed.

Lemma short_supply_solvable : solvable short_supply.
Proof.
  split; [|split; [discriminate | intros H; vm_compute in H; discriminate]].
  unfold dims_agree. cbn. repeat split; repeat constructor.
Qed.

Lemma X12_rebalancing_adds_one_free_dummy_witness :
  solvable short_supply /\
  exists sc',
    rebalance short_supply = Ok sc' /\ dims_agree sc' /\
    py_sumZ (supply sc') = py_sumZ (demand sc') /\
    (py_sumZ (supply short_supply) = py_sumZ (demand short_supply) -> sc' = short_supply) /\
    ((py_sumZ (supply short_supply) > py_sumZ (demand short_supply))%Z ->
     sc' = mkScenario (factories short_supply) (warehouses short_supply ++ ["虚拟仓库"])
             (supply short_supply)
             (demand short_supply
              ++ [py_sumZ (supply short_supply) - py_sumZ (demand short_supply)]%Z)
             (map (fun r => r ++ [0%Q]) (cost_matrix short_supply))) /\
    ((py_sumZ (supply short_supply) < py_sumZ (demand short_supply))%Z ->
     sc' = mkScenario (factories short_supply ++ ["虚拟工厂"]) (warehouses short_supply)
             (supply short_supply
              ++ [py_sumZ (demand short_supply) - py_sumZ (supply short_supply)]%Z)
             (demand short_supply)
             (cost_matrix short_supply ++ [repeat 0%Q (length (warehouses short_supply))])).
Proof.
  split; [exact short_supply_solvable|].
  exact (X12_rebalancing_adds_one_free_dummy short_supply short_supply_solvable).
Defined.

End Rebalancing.

(** ** Transportation: the chart of a solved problem *)

Section TransportChart.
Import TransportationProblemDemo TransportReference TransportFigures.

(** *** The graph of panel 1 *)

Lemma dict_get_member {V : Type} (d : list (string * V)) (k : string) :
  k ∈ map fst d -> exists v, dict_get d k = Ok v.
Proof.
  unfold dict_get. induction d as [|[k' v] d IH]; intros H; [inversion H|].
  rewrite filter_cons. cbn [fst].
  destruct (decide (k' = k)) as [->|Hne].
  - rewrite decide_True by (now apply bool_decide_pack). eexists. reflexivity.
  - rewrite decide_False by (intros E; apply bool_decide_unpack in E; congruence).
    apply IH. cbn [map fst] in H. apply elem_of_cons in H as [->|H]; [congruence|exact H].
Qed.

Lemma dict_get_missing {V : Type} (d : list (string * V)) (k : string) :
  (k ∉ map fst d) -> dict_get d k = Raise KeyError.
Proof.
  unfold dict_get. induction d as [|[k' v] d IH]; intros H; [reflexivity|].
  rewrite filter_cons. cbn [fst]. cbn [map fst] in H. apply not_elem_of_cons in H as [H1 H2].
  rewrite decide_False by (intros E; apply bool_decide_unpack in E; congruence).
  now apply IH.
Qed.

Lemma enumerate_from_snd {A : Type} (l : list A) : forall k,
  map snd (combine (seq k (length l)) l) = l.
Proof.
  induction l as [|x l IH]; intros k; [reflexivity|].
  cbn [length seq combine map snd]. now rewrite IH.
Qed.

Lemma route_positions_keys (F W : list string) (n : string) :
  n ∈ map fst (route_positions F W) <-> n ∈ F ++ W.
Proof.
  unfold route_positions, enumerate.
  rewrite map_rev, !list_elem_of_In, <- in_rev, map_app, !map_map. cbn [fst].
  rewrite (enumerate_from_snd F), (enumerate_from_snd W). reflexivity.
Qed.

Lemma node_added_member (ns : list string) (m n : string) :
  n ∈ node_added ns m <-> n ∈ ns \/ n = m.
Proof.
  unfold node_added. destruct (bool_decide (m ∈ ns)) eqn:E.
  - apply bool_decide_eq_true in E. split; [now left|]. intros [H| ->]; assumption.
  - rewrite elem_of_app, list_elem_of_singleton. reflexivity.
Qed.

Lemma nodes_added_member (l : list string) : forall ns n,
  n ∈ fold_left node_added l ns <-> n ∈ ns \/ n ∈ l.
Proof.
  induction l as [|m l IH]; intros ns n; cbn [fold_left].
  - split; [now left|]. intros [H|H]; [exact H | inversion H].
  - rewrite IH, node_added_member, elem_of_cons. tauto.
Qed.

Lemma graph_nodes_member (es : list (string * string * Q)) (ns : list string) (n : string) :
  n ∈ graph_nodes ns es <->
  n ∈ ns \/ exists e, e ∈ es /\ (n = fst (fst e) \/ n = snd (fst e)).
Proof.
  unfold graph_nodes.
  assert (H : forall acc,
             n ∈ fold_left (fun ns e => node_added (node_added ns (fst (fst e))) (snd (fst e)))
                           es acc
             <-> n ∈ acc \/ exists e, e ∈ es /\ (n = fst (fst e) \/ n = snd (fst e))).
  { induction es as [|e es IH]; intros acc; cbn [fold_left].
    - split; [now left|]. intros [H|(e & He & _)]; [exact H | inversion He].
    - rewrite IH, !node_added_member. split.
      + intros [[[H|H]|H]|(e' & He' & H)].
        * now left.
        * right. exists e. split; [left | now left].
        * right. exists e. split; [left | now right].
        * right. exists e'. split; [now right | exact H].
      + intros [H|(e' & He' & H)]; [now left; left; left|].
        apply elem_of_cons in He' as [->|He'].
        * destruct H as [H|H]; [left; left; now right | left; now right].
        * right. exists e'. split; assumption. }
  rewrite H, nodes_added_member. split.
  - intros [[H0|H0]|H0]; [inversion H0 | now left | now right].
  - intros [H0|H0]; [left; now right | now right].
Qed.

Lemma dict_set_keys (k : string) (v : Q) (d : list (string * Q)) (k' : string) :
  k' ∈ map fst (dict_set k v d) <-> k' ∈ map fst d \/ k' = k.
Proof.
  induction d as [|[k0 w] d IH]; cbn [dict_set map fst].
  - rewrite list_elem_of_singleton. split; [now right|]. intros [H|H]; [inversion H | exact H].
  - destruct (decide (k0 = k)) as [->|Hne]; cbn [map fst]; rewrite !elem_of_cons.
    + split; [now left|]. intros [H| ->]; [exact H | now left].
    + rewrite IH. tauto.
Qed.

Lemma dict_set_values (k : string) (v : Q) (d : list (string * Q)) (kw : string * Q) :
  kw ∈ dict_set k v d -> kw = (k, v) \/ kw ∈ d.
Proof.
  induction d as [|[k0 w] d IH]; cbn [dict_set].
  - intros H. apply list_elem_of_singleton in H. now left.
  - destruct (decide (k0 = k)) as [->|Hne]; rewrite !elem_of_cons.
    + intros [H|H]; [now left | right; now right].
    + intros [H|H]; [right; now left|]. destruct (IH H); [now left | right; now right].
Qed.

(** A neighbour comes from an edge that was added. *)
Lemma neighbours_inv (es : list (string * string * Q)) (n m : string) (w : Q) :
  (m, w) ∈ neighbours es n ->
  exists e, e ∈ es /\ snd e = w /\
    ((fst (fst e) = n /\ snd (fst e) = m) \/ (snd (fst e) = n /\ fst (fst e) = m)).
Proof.
  unfold neighbours. induction es as [|e es IH] using rev_ind; [intros H; inversion H|].
  rewrite fold_left_app. cbn [fold_left]. cbv zeta.
  set (d := fold_left _ es []) in *. intros H.
  assert (Hold : (m, w) ∈ d -> exists e0, e0 ∈ es ++ [e] /\ snd e0 = w /\
            ((fst (fst e0) = n /\ snd (fst e0) = m) \/ (snd (fst e0) = n /\ fst (fst e0) = m))).
  { intros Hd. destruct (IH Hd) as (e0 & He0 & Hrest). exists e0.
    split; [apply elem_of_app; now left | exact Hrest]. }
  assert (Hnew : forall P : Prop, P -> snd e = w -> 
            ((fst (fst e) = n /\ snd (fst e) = m) \/ (snd (fst e) = n /\ fst (fst e) = m)) ->
            exists e0, e0 ∈ es ++ [e] /\ snd e0 = w /\
            ((fst (fst e0) = n /\ snd (fst e0) = m) \/ (snd (fst e0) = n /\ fst (fst e0) = m))).
  { intros _ _ Hw Hj. exists e. split; [apply elem_of_app; right; now left|]. now split. }
  destruct (decide (fst (fst e) = n)) as [Hu|Hu], (decide (snd (fst e) = n)) as [Hv|Hv].
  - apply dict_set_values in H as [H|H].
    + injection H as -> ->. apply (Hnew True I eq_refl). right. now split.
    + apply dict_set_values in H as [H|H]; [|now apply Hold].
      injection H as -> ->. apply (Hnew True I eq_refl). left. now split.
  - apply dict_set_values in H as [H|H]; [|now apply Hold].
    injection H as -> ->. apply (Hnew True I eq_refl). left. now split.
  - apply dict_set_values in H as [H|H]; [|now apply Hold].
    injection H as -> ->. apply (Hnew True I eq_refl). right. now split.
  - now apply Hold.
Qed.

Lemma neighbours_keys_grow (es : list (string * string * Q)) (e : string * string * Q)
    (n k : string) :
  k ∈ map fst (neighbours es n) -> k ∈ map fst (neighbours (es ++ [e]) n).
Proof.
  unfold neighbours. rewrite fold_left_app. cbn [fold_left]. cbv zeta.
  set (d := fold_left _ es []). intros H.
  destruct (decide (fst (fst e) = n)), (decide (snd (fst e) = n));
    rewrite ?dict_set_keys; tauto.
Qed.

(** Both ends of an added edge are neighbours of each other. *)
Lemma neighbours_complete (es : list (string * string * Q)) (e : string * string * Q) :
  e ∈ es ->
  snd (fst e) ∈ map fst (neighbours es (fst (fst e))) /\
  fst (fst e) ∈ map fst (neighbours es (snd (fst e))).
Proof.
  induction es as [|e' es IH] using rev_ind; [intros H; inversion H|].
  intros H. apply elem_of_app in H as [H|H].
  - destruct (IH H) as [H1 H2]. split; now apply neighbours_keys_grow.
  - apply list_elem_of_singleton in H as ->.
    unfold neighbours. rewrite !fold_left_app. cbn [fold_left]. cbv zeta. split.
    + destruct (decide (fst (fst e') = fst (fst e'))) as [_|C]; [|congruence].
      destruct (decide (snd (fst e') = fst (fst e'))) as [E|E].
      * rewrite dict_set_keys. right. exact E.
      * rewrite dict_set_keys. now right.
    + destruct (decide (snd (fst e') = snd (fst e'))) as [_|C]; [|congruence].
      destruct (decide (fst (fst e') = snd (fst e'))) as [E|E];
        rewrite dict_set_keys; now right.
Qed.

Lemma edges_view_inv (es : list (string * string * Q)) (ns : list string) : forall seen e,
  e ∈ edges_view es seen ns ->
  fst (fst e) ∈ ns /\ (snd (fst e), snd e) ∈ neighbours es (fst (fst e)).
Proof.
  induction ns as [|n ns IH]; intros seen e H; [inversion H|].
  cbn [edges_view] in H. apply elem_of_app in H as [H|H].
  - apply list_elem_of_fmap in H as ([m w] & -> & H). cbn [fst snd].
    apply list_elem_of_filter in H as [_ H]. split; [left | exact H].
  - destruct (IH _ _ H) as [H1 H2]. split; [now right | exact H2].
Qed.

(** Every pair of neighbours is listed, one way round or the other. *)
Lemma edges_view_complete (es : list (string * string * Q)) (ns : list string) :
  forall seen n m,
    n ∈ ns -> n ∉ seen -> m ∉ seen ->
    m ∈ map fst (neighbours es n) -> n ∈ map fst (neighbours es m) ->
    exists e, e ∈ edges_view es seen ns /\
      ((fst (fst e) = n /\ snd (fst e) = m) \/ (fst (fst e) = m /\ snd (fst e) = n)).
Proof.
  induction ns as [|h ns IH]; intros seen n m Hn Hsn Hsm Hm Hn'; [inversion Hn|].
  cbn [edges_view].
  assert (Hhead : forall a b, b ∉ seen -> b ∈ map fst (neighbours es a) ->
            exists w, (a, b, w) ∈ map (fun kv => (a, fst kv, snd kv))
                          (filter (fun kv => fst kv ∉ seen) (neighbours es a))).
  { intros a b Hb Hin. apply list_elem_of_fmap in Hin as ([b' w] & -> & Hin).
    exists w. apply list_elem_of_fmap. exists (b', w). split; [reflexivity|].
    apply list_elem_of_filter. split; assumption. }
  destruct (decide (h = n)) as [->|Hhn].
  - destruct (Hhead n m Hsm Hm) as [w Hw]. exists (n, m, w).
    split; [apply elem_of_app; now left | left; now split].
  - destruct (decide (h = m)) as [->|Hhm].
    + destruct (Hhead m n Hsn Hn') as [w Hw]. exists (m, n, w).
      split; [apply elem_of_app; now left | right; now split].
    + apply elem_of_cons in Hn as [Hn|Hn]; [congruence|].
      destruct (IH (seen ++ [h]) n m Hn) as (e & He & Hj); try assumption.
      * rewrite elem_of_app, list_elem_of_singleton. intros [H|H]; [contradiction|congruence].
      * rewrite elem_of_app, list_elem_of_singleton. intros [H|H]; [contradiction|congruence].
      * exists e. split; [apply elem_of_app; now right | exact Hj].
Qed.

(** *** When panel 1 is drawn *)

Lemma draw_nodes_placed (pos : positions) (l : list string) :
  (forall n, n ∈ l -> n ∈ map fst pos) -> draw_networkx_nodes pos l = Ok tt.
Proof.
  intros H. unfold draw_networkx_nodes. destruct (forallb _ l) eqn:E; [reflexivity|].
  apply not_true_iff_false in E. exfalso. apply E, forallb_forall.
  intros n Hn. apply bool_decide_eq_true, H, list_elem_of_In, Hn.
Qed.

Lemma draw_edge_placed (pos : positions) (u v : string) :
  u ∈ map fst pos -> v ∈ map fst pos -> draw_networkx_edges pos [(u, v)] = Ok tt.
Proof.
  intros Hu Hv. destruct (dict_get_member pos u Hu) as [a Ha].
  destruct (dict_get_member pos v Hv) as [b Hb].
  unfold draw_networkx_edges. cbn [map_result fst snd]. rewrite Ha, Hb. reflexivity.
Qed.

Lemma draw_edge_unplaced (pos : positions) (u v : string) :
  (u ∉ map fst pos) \/ (v ∉ map fst pos) ->
  draw_networkx_edges pos [(u, v)] = Raise KeyError.
Proof.
  intros H. unfold draw_networkx_edges. cbn [map_result fst snd].
  destruct (decide (u ∈ map fst pos)) as [Hu|Hu].
  - destruct (dict_get_member pos u Hu) as [a Ha]. rewrite Ha. cbn [mbind result_bind].
    destruct H as [H|H]; [contradiction|]. rewrite (dict_get_missing pos v H). reflexivity.
  - rewrite (dict_get_missing pos u Hu). reflexivity.
Qed.

Lemma map_result_raises {A B : Type} (f : A -> result B) (l : list A) (x : A) (exc : PyExc) :
  (forall a, a ∈ l -> (exists b, f a = Ok b) \/ f a = Raise exc) ->
  x ∈ l -> f x = Raise exc -> map_result f l = Raise exc.
Proof.
  induction l as [|a l IH]; intros Hall Hx Hfx; [inversion Hx|].
  cbn [map_result]. destruct (Hall a) as [[b Hb]|Hb]; [left| |]; rewrite Hb; [|reflexivity].
  apply elem_of_cons in Hx as [->|Hx]; [congruence|].
  rewrite IH; [reflexivity | | exact Hx | exact Hfx].
  intros a' Ha'. apply Hall. now right.
Qed.

(** The edges of the panel's graph carry the positive quantity of a
    stored route between the same two places. *)
Lemma panel_edge_inv (b : Basic) (ns : list string) (e : string * string * Q) :
  e ∈ edges_view
        (map (fun detail => (r_from detail, r_to detail, quantity detail))
             (filter (fun detail => py_gt (quantity detail) 0 = true) (route_details b)))
        [] ns ->
  (0 < snd e)%Q /\
  exists d, d ∈ route_details b /\ py_gt (quantity d) 0 = true /\
    ((r_from d = fst (fst e) /\ r_to d = snd (fst e)) \/
     (r_to d = fst (fst e) /\ r_from d = snd (fst e))).
Proof.
  intros H. apply edges_view_inv in H as [_ H].
  apply neighbours_inv in H as (e0 & He0 & Hw & Hj).
  apply list_elem_of_fmap in He0 as (d & -> & Hd).
  apply list_elem_of_filter in Hd as [Hpos Hd]. cbn [fst snd] in *.
  split; [rewrite <- Hw; now apply py_gt_iff|].
  exists d. split; [exact Hd|]. split; [exact Hpos|]. tauto.
Qed.

Lemma max_weight_positive (ws : list Q) :
  Forall (fun w => 0 < w)%Q ws ->
  let max_weight := match ws with [] => 1%Q | w :: ws' => py_max w ws' end in
  (0 < max_weight)%Q /\ Forall (fun w => w <= max_weight)%Q ws.
Proof.
  intros H. destruct ws as [|w ws]; cbn zeta; [split; [lra | constructor]|].
  destruct (py_max_spec ws w) as [Hin Hall]. split; [|exact Hall].
  rewrite Forall_forall in H. exact (H _ Hin).
Qed.

(** Panel 1 is drawn when every stored route joins two of the places
    that have a position: the widths lie between 1 and 6. *)
Lemma route_network_placed (b : Basic) :
  (forall d, d ∈ route_details b -> py_gt (quantity d) 0 = true ->
     r_from d ∈ chart_factories b ++ chart_warehouses b /\
     r_to d ∈ chart_factories b ++ chart_warehouses b) ->
  exists widths, route_network b = Ok widths /\ Forall (fun w => 1 < w <= 6)%Q widths.
Proof.
  intros Hplaced. unfold route_network. cbv zeta.
  fold (chart_factories b). fold (chart_warehouses b).
  set (F := chart_factories b) in *. set (W := chart_warehouses b) in *.
  set (added := map _ (filter _ (route_details b))).
  set (pos := route_positions F W).
  assert (Hkeys : forall n, n ∈ F ++ W -> n ∈ map fst pos)
    by (intros n; apply route_positions_keys).
  assert (Hnodes : forall n, n ∈ graph_nodes (F ++ W) added -> n ∈ map fst pos).
  { intros n Hn. apply Hkeys. apply graph_nodes_member in Hn as [Hn|(e & He & Hn)]; [exact Hn|].
    apply list_elem_of_fmap in He as (d & -> & Hd).
    apply list_elem_of_filter in Hd as [Hpos Hd]. cbn [fst snd] in Hn.
    destruct (Hplaced d Hd Hpos) as [H1 H2]. destruct Hn as [->| ->]; assumption. }
  rewrite (draw_nodes_placed pos (filter (fun n => n ∈ F) _)).
  2:{ intros n Hn. apply list_elem_of_filter in Hn as [_ Hn]. now apply Hnodes. }
  cbn [mbind result_bind].
  rewrite (draw_nodes_placed pos (filter (fun n => n ∈ W) _)).
  2:{ intros n Hn. apply list_elem_of_filter in Hn as [_ Hn]. now apply Hnodes. }
  cbn [mbind result_bind].
  set (edges := edges_view added [] (graph_nodes (F ++ W) added)).
  assert (Hedges : forall e, e ∈ edges ->
            (0 < snd e)%Q /\ fst (fst e) ∈ map fst pos /\ snd (fst e) ∈ map fst pos).
  { intros e He. destruct (panel_edge_inv b _ e He) as (Hw & d & Hd & Hpos & Hj).
    split; [exact Hw|]. destruct (Hplaced d Hd Hpos) as [H1 H2].
    destruct Hj as [[<- <-]|[<- <-]]; split; now apply Hkeys. }
  destruct (max_weight_positive (map snd edges)) as [Hmax Hle].
  { apply Forall_map, Forall_forall. intros e He. exact (proj1 (Hedges e He)). }
  set (max_weight := match map snd edges with [] => 1%Q | w :: ws => py_max w ws end) in *.
  rewrite Forall_map, Forall_forall in Hle.
  rewrite (map_result_ext _ (fun e => snd e / max_weight * 5 + 1)%Q edges).
  2:{ intros e He. destruct (Hedges e He) as (_ & Hu & Hv).
      rewrite py_div_ok by lra. cbn [mbind result_bind]. cbv zeta.
      rewrite (surjective_pairing (fst e)), (draw_edge_placed pos _ _ Hu Hv). reflexivity. }
  cbn [mbind result_bind]. unfold draw_networkx_labels.
  destruct (map_result_total (dict_get pos) (graph_nodes (F ++ W) added)) as (xs & -> & _).
  { intros n Hn. apply dict_get_member. now apply Hnodes. }
  cbn [mbind result_bind]. unfold draw_networkx_edge_labels.
  destruct (map_result_total (fun e => dict_get pos (fst e);; dict_get pos (snd e))
              (map fst edges)) as (ys & -> & _).
  { intros uv Huv. apply list_elem_of_fmap in Huv as (e & -> & He).
    destruct (Hedges e He) as (_ & Hu & Hv).
    destruct (dict_get_member pos _ Hu) as [a ->]. cbn [mbind result_bind].
    exact (dict_get_member pos _ Hv). }
  cbn [mbind result_bind]. eexists. split; [reflexivity|].
  apply Forall_map, Forall_forall. intros e He.
  destruct (Hedges e He) as (Hw & _). specialize (Hle e He). cbn beta in Hle.
  assert (0 < snd e / max_weight <= 1)%Q.
  { split; [apply Qlt_shift_div_l; lra | apply Qle_shift_div_r; lra]. }
  lra.
Qed.

(** A stored route to or from a place without a position stops panel 1
    with KeyError when its edge is drawn (line 376). *)
Lemma route_network_unplaced (b : Basic) (d : Route) :
  d ∈ route_details b -> py_gt (quantity d) 0 = true ->
  (r_from d ∉ chart_factories b ++ chart_warehouses b) \/
  (r_to d ∉ chart_factories b ++ chart_warehouses b) ->
  route_network b = Raise KeyError.
Proof.
  intros Hd Hq Hmiss. unfold route_network. cbv zeta.
  fold (chart_factories b). fold (chart_warehouses b).
  set (F := chart_factories b) in *. set (W := chart_warehouses b) in *.
  set (added := map _ (filter _ (route_details b))).
  set (pos := route_positions F W).
  assert (Hkeys : forall n, n ∈ map fst pos <-> n ∈ F ++ W)
    by (intros n; apply route_positions_keys).
  rewrite (draw_nodes_placed pos (filter (fun n => n ∈ F) _)).
  2:{ intros n Hn. apply list_elem_of_filter in Hn as [Hn _].
      apply Hkeys, elem_of_app. now left. }
  cbn [mbind result_bind].
  rewrite (draw_nodes_placed pos (filter (fun n => n ∈ W) _)).
  2:{ intros n Hn. apply list_elem_of_filter in Hn as [Hn _].
      apply Hkeys, elem_of_app. now right. }
  cbn [mbind result_bind].
  set (G_nodes := graph_nodes (F ++ W) added).
  set (edges := edges_view added [] G_nodes).
  destruct (max_weight_positive (map snd edges)) as [Hmax _].
  { apply Forall_map, Forall_forall. intros e He.
    exact (proj1 (panel_edge_inv b _ e He)). }
  set (max_weight := match map snd edges with [] => 1%Q | w :: ws => py_max w ws end) in *.
  assert (Hin : (r_from d, r_to d, quantity d) ∈ added).
  { apply list_elem_of_fmap. exists d. split; [reflexivity|].
    apply list_elem_of_filter. split; assumption. }
  destruct (neighbours_complete added _ Hin) as [N1 N2]. cbn [fst snd] in N1, N2.
  destruct (edges_view_complete added G_nodes [] (r_from d) (r_to d))
    as (e & He & Hj); try assumption; try (intros H; inversion H).
  { apply graph_nodes_member. right. eexists. split; [exact Hin | now left]. }
  fold edges in He.
  rewrite (map_result_raises _ edges e KeyError); [reflexivity | | exact He |].
  - intros e' _. rewrite py_div_ok by lra. cbn [mbind result_bind]. cbv zeta.
    rewrite (surjective_pairing (fst e')).
    destruct (decide (fst (fst e') ∈ map fst pos)) as [Hu|Hu];
      [destruct (decide (snd (fst e') ∈ map fst pos)) as [Hv|Hv]|].
    + left. rewrite (draw_edge_placed pos _ _ Hu Hv). eexists. reflexivity.
    + right. rewrite (draw_edge_unplaced pos); [reflexivity | now right].
    + right. rewrite (draw_edge_unplaced pos); [reflexivity | now left].
  - rewrite py_div_ok by lra. cbn [mbind result_bind]. cbv zeta.
    rewrite (surjective_pairing (fst e)), (draw_edge_unplaced pos); [reflexivity|].
    rewrite !Hkeys. destruct Hj as [[-> ->]|[-> ->]]; tauto.
Qed.

(** *** The routes of a solved problem *)

Lemma routes_kept_inv (sc : Scenario) (a : assignment) (d : Route) :
  d ∈ routes_kept sc a ->
  exists ij, ij ∈ grid sc /\ d = route_of sc a ij /\ py_gt (shipped a ij) 0 = true.
Proof.
  unfold routes_kept. intros H. apply list_elem_of_In, in_concat in H as (l & Hl & Hd).
  apply in_map_iff in Hl as (ij & <- & Hij).
  destruct (py_gt (shipped a ij) 0) eqn:E; [|inversion Hd].
  destruct Hd as [<-|[]]. exists ij. split; [now apply list_elem_of_In|]. now split.
Qed.

Lemma routes_kept_member (sc : Scenario) (a : assignment) (ij : nat * nat) :
  ij ∈ grid sc -> py_gt (shipped a ij) 0 = true -> route_of sc a ij ∈ routes_kept sc a.
Proof.
  intros Hij Hpos. unfold routes_kept. apply list_elem_of_In, in_concat.
  exists [route_of sc a ij]. split; [|now left].
  apply in_map_iff. exists ij. rewrite Hpos. split; [reflexivity | now apply list_elem_of_In].
Qed.

Lemma grid_member (sc : Scenario) (i j : nat) :
  (i < length (factories sc))%nat -> (j < length (warehouses sc))%nat -> (i, j) ∈ grid sc.
Proof.
  intros Hi Hj. unfold grid. apply list_elem_of_In, in_flat_map. exists i.
  split; [apply in_seq; lia|]. apply in_map_iff. exists j. split; [reflexivity|].
  apply in_seq. lia.
Qed.

Lemma nth_member (l : list string) (i : nat) : (i < length l)%nat -> nth i l "" ∈ l.
Proof. intros H. apply list_elem_of_In, nth_In, H. Qed.

Lemma py_sum_has_positive {A : Type} (f : A -> Q) (l : list A) :
  (0 < py_sum (map f l))%Q -> exists x, x ∈ l /\ (0 < f x)%Q.
Proof.
  induction l as [|x l IH]; cbn [map].
  - unfold py_sum. cbn. lra.
  - rewrite py_sum_cons. intros H.
    destruct (Qlt_le_dec 0 (f x)) as [Hx|Hx]; [exists x; split; [left | exact Hx]|].
    destruct IH as (y & Hy & Hfy); [lra|]. exists y. split; [now right | exact Hfy].
Qed.

(** The places of every stored route are a factory and a warehouse of the
    scenario that was solved. *)
Lemma stored_route_places (sc : Scenario) (a : assignment) (d : Route) :
  d ∈ routes_kept sc a -> r_from d ∈ factories sc /\ r_to d ∈ warehouses sc.
Proof.
  intros H. apply routes_kept_inv in H as (ij & Hij & -> & _).
  apply grid_inv in Hij as [Hi Hj]. cbn [route_of r_from r_to].
  split; now apply nth_member.
Qed.

(** After a surplus a feasible plan ships something to the dummy
    warehouse. *)
Lemma surplus_route (sc sc' : Scenario) (p : LpProblem) (a : assignment) :
  solvable sc -> build sc = Ok (sc', p) -> feasible p a ->
  (py_sumZ (supply sc) > py_sumZ (demand sc))%Z ->
  exists d, d ∈ routes_kept sc' a /\ py_gt (quantity d) 0 = true /\ r_to d = "虚拟仓库".
Proof.
  intros Hs Hb [_ Hcons] Hgt.
  destruct (rebalance_cases sc Hs) as (sc'' & Hr & Hd' & _ & _ & Hsur & _).
  apply build_inv in Hb as [Hr' Hm]. rewrite Hr in Hr'. injection Hr' as ->.
  destruct (transport_model_total sc' Hd') as (p' & Hm' & Hc).
  rewrite Hm in Hm'. injection Hm' as <-.
  rewrite Hc in Hcons. apply Forall_app in Hcons as [_ Hdem].
  rewrite Forall_map, Forall_forall in Hdem.
  pose proof Hs as ((_ & _ & _ & Hlen) & _).
  set (j := length (warehouses sc)).
  assert (Hw : warehouses sc' = warehouses sc ++ ["虚拟仓库"]) by (now rewrite (Hsur Hgt)).
  assert (Hj : (j < length (warehouses sc'))%nat) by (rewrite Hw, length_app; cbn; lia).
  specialize (Hdem j ltac:(apply list_elem_of_In, in_seq; lia)).
  unfold holds, receives_exactly in Hdem. cbn [cmp lhs rhs] in Hdem.
  assert (Hdj : nth j (demand sc') 0%Z = (py_sumZ (supply sc) - py_sumZ (demand sc))%Z).
  { rewrite (Hsur Hgt). cbn [demand]. unfold j. rewrite <- Hlen.
    rewrite app_nth2, Nat.sub_diag by lia. reflexivity. }
  rewrite Hdj in Hdem.
  assert (Hsum : (0 < py_sum (map (fun i => shipped a (i, j))
                                  (seq 0 (length (factories sc')))))%Q).
  { assert (Heq : (py_sum (map (fun i => shipped a (i, j)) (seq 0 (length (factories sc'))))
                   == inject_Z (py_sumZ (supply sc) - py_sumZ (demand sc)))%Q).
    { rewrite <- Hdem. symmetry. eapply Qeq_trans; [apply value_py_sum|].
      rewrite !map_map. apply py_sum_ext. intros i _. cbn [fst snd]. unfold shipped.
      cbn [fst snd]. ring. }
    rewrite Heq. unfold Qlt. cbn. lia. }
  apply py_sum_has_positive in Hsum as (i & Hi & Hpos).
  apply list_elem_of_In, in_seq in Hi.
  exists (route_of sc' a (i, j)). split; [|split].
  - apply routes_kept_member; [apply grid_member; lia | now apply py_gt_iff].
  - cbn [route_of quantity]. now apply py_gt_iff.
  - cbn [route_of r_to snd]. rewrite Hw. unfold j.
    rewrite app_nth2, Nat.sub_diag by lia. reflexivity.
Qed.

(** What the chart reads of a solved basic problem.  The slice of the
    factory names by the number of cost rows keeps every name, a dummy
    factory included, while the warehouses and demands are the original
    ones, without a dummy warehouse. *)
Lemma chart_slices (sc : Scenario) (solver : Solver) (s : State) :
  solvable sc ->
  exists tr s' b v,
    solve_basic_transportation_on sc solver s = (tr, s', Ok v) /\
    basic s' = Some b /\
    chart_factories b = b_factories b /\
    chart_warehouses b = warehouses sc /\
    chart_supply b = b_supply b /\
    chart_demand b = demand sc /\
    ((py_sumZ (supply sc) >= py_sumZ (demand sc))%Z ->
     b_factories b = factories sc /\ original_cost_matrix b = cost_matrix sc) /\
    ((py_sumZ (supply sc) < py_sumZ (demand sc))%Z ->
     b_factories b = factories sc ++ ["虚拟工厂"] /\
     original_cost_matrix b = cost_matrix sc ++ [repeat 0%Q (length (warehouses sc))]) /\
    length (supply_bars b) = length (x_pos b) /\
    length (demand_bars b) = length (x_pos b).
Proof.
  intros Hs.
  destruct (solve_basic_run sc solver s Hs) as (sc' & p & Hb & Hd' & Hr & Hm & Hrun).
  destruct (rebalance_cases sc Hs) as (sc'' & Hr' & _ & _ & Heq & Hgt & Hlt).
  rewrite Hr in Hr'. injection Hr' as <-.
  pose proof Hs as ((Hrows & Hcols & Hsup & Hdem) & Hne & H3).
  pose proof Hd' as (Hrows' & Hcols' & Hsup' & Hdem').
  eexists _, _, _, _. split; [exact Hrun|]. cbn [basic]. split; [reflexivity|].
  assert (Hf : take (length (cost_matrix sc')) (factories sc') = factories sc').
  { apply take_ge. lia. }
  assert (Hcut : forall m : matrix, Forall (fun r => length r = length (warehouses sc)) m ->
            map (take (length (warehouses sc))) m = m).
  { intros m Hm'. induction Hm' as [|r m Hr0 _ IH]; [reflexivity|].
    cbn [map]. rewrite IH, take_ge by lia. reflexivity. }
  unfold chart_factories, chart_warehouses, chart_supply, chart_demand, original_cost_matrix,
    supply_bars, demand_bars, x_pos, supply_padded, demand_padded,
    chart_factories, chart_warehouses.
  cbn [b_factories b_cost_matrix original_warehouses b_supply b_demand].
  rewrite Hf.
  assert (Hdemand : take (length (warehouses sc)) (demand sc') = demand sc).
  { destruct (Z.lt_trichotomy (py_sumZ (supply sc)) (py_sumZ (demand sc))) as [H|[H|H]].
    - rewrite (Hlt H). cbn [demand]. apply take_ge. lia.
    - rewrite (Heq H). apply take_ge. lia.
    - rewrite (Hgt ltac:(lia)). cbn [demand]. rewrite <- Hdem. now rewrite take_app_length. }
  rewrite Hdemand.
  split; [reflexivity|]. split; [reflexivity|].
  split; [apply take_ge; lia|]. split; [reflexivity|].
  split; [|split; [|split]].
  - intros Hge. destruct (Z.eq_dec (py_sumZ (supply sc)) (py_sumZ (demand sc))) as [H|H].
    + rewrite (Heq H). split; [reflexivity | now apply Hcut].
    + rewrite (Hgt ltac:(lia)). split; [reflexivity|]. cbn [cost_matrix]. rewrite map_map.
      rewrite <- (Hcut (cost_matrix sc) Hcols) at 2. apply map_ext_in.
      intros r Hr0. rewrite Forall_forall in Hcols.
      assert (Hlen : length r = length (warehouses sc)).
      { apply Hcols. apply list_elem_of_In. exact Hr0. }
      rewrite <- Hlen, take_app_length, take_ge by lia. reflexivity.
  - intros H. rewrite (Hlt H). split; [reflexivity|].
    cbn [cost_matrix]. rewrite map_app, (Hcut _ Hcols).
    cbn [map]. rewrite take_ge by (rewrite repeat_length; lia). reflexivity.
  - repeat (rewrite length_take || rewrite length_app || rewrite repeat_length
            || rewrite length_seq). lia.
  - repeat (rewrite length_take || rewrite length_app || rewrite repeat_length
            || rewrite length_seq). lia.
Qed.

(** X13.  The chart of a basic problem after the balance check.  Panel 1
    gives a position to the stored factories, a dummy factory included,
    and to the original warehouses, not to a dummy warehouse.  On balanced
    data and after a deficit every stored route joins two places with a
    position: the chart is written, with edge widths between 1 and 6, the
    cost table cut to the original warehouses is the original table (with
    the dummy factory's row of zeros below it after a deficit), and the
    supply and demand series are padded to one bar per position.  After a
    surplus a feasible plan ships the surplus to 虚拟仓库: drawing that
    route raises KeyError (line 376) and no chart is written. *)
Theorem X13_chart_of_a_rebalanced_problem (sc : Scenario) (solver : Solver) (s : State) :
  solvable sc ->
  multi_product s = None ->
  exists tr s' b v,
    solve_basic_transportation_on sc solver s = (tr, s', Ok v) /\
    basic s' = Some b /\
    ((py_sumZ (supply sc) <= py_sumZ (demand sc))%Z ->
     (exists widths,
        visualize_results s'
          = ([EvPlot "运输网络图" widths; EvSaveFig chart_file;
              EvPrint "✅ 可视化图表已保存" []], s', Ok tt) /\
        Forall (fun w => 1 < w <= 6)%Q widths) /\
     chart_factories b = b_factories b /\
     chart_warehouses b = warehouses sc /\
     chart_supply b = b_supply b /\
     chart_demand b = demand sc /\
     (py_sumZ (supply sc) = py_sumZ (demand sc) ->
      b_factories b = factories sc /\ original_cost_matrix b = cost_matrix sc) /\
     ((py_sumZ (supply sc) < py_sumZ (demand sc))%Z ->
      b_factories b = factories sc ++ ["虚拟工厂"] /\
      original_cost_matrix b = cost_matrix sc ++ [repeat 0%Q (length (warehouses sc))]) /\
     length (supply_bars b) = length (x_pos b) /\
     length (demand_bars b) = length (x_pos b)) /\
    ((py_sumZ (supply sc) > py_sumZ (demand sc))%Z ->
     (forall sc' p, build sc = Ok (sc', p) -> feasible p (solver p)) ->
     "虚拟仓库" ∉ factories sc ++ warehouses sc ->
     visualize_results s' = ([], s', Raise KeyError)).
Proof.
  intros Hs Hmulti.
  destruct (chart_slices sc solver s Hs)
    as (tr & s' & b & v & Hrun & Hb & Hcf & Hcw & Hcs & Hcd & Hge & Hlt & Hl1 & Hl2).
  destruct (solve_basic_run sc solver s Hs) as (sc' & p & Hbuild & Hd' & Hr & Hm & Hrun').
  rewrite Hrun' in Hrun. injection Hrun as <- <- <-.
  cbn [basic] in Hb. injection Hb as <-.
  destruct (rebalance_cases sc Hs) as (sc'' & Hr' & _ & _ & Heq & Hsur & Hdef).
  rewrite Hr in Hr'. injection Hr' as <-.
  cbn [b_factories route_details] in *.
  eexists _, _, _, _. split; [exact Hrun'|]. split; [reflexivity|]. split.
  - intros Hle.
    split; [|split; [exact Hcf|split; [exact Hcw|split; [exact Hcs|split; [exact Hcd|
      split; [intros H; apply Hge; lia|split; [exact Hlt|split; [exact Hl1|exact Hl2]]]]]]]].
    assert (Hw : warehouses sc' = warehouses sc).
    { destruct (Z.eq_dec (py_sumZ (supply sc)) (py_sumZ (demand sc))) as [H|H].
      - now rewrite (Heq H).
      - now rewrite (Hdef ltac:(lia)). }
    match goal with |- context [Some ?b0] => set (b := b0) in * end.
    destruct (route_network_placed b) as (widths & Hws & Hrange).
    { intros d Hd _. rewrite Hcf, Hcw. cbn [b route_details b_factories] in *.
      destruct (stored_route_places sc' _ d Hd) as [H1 H2]. rewrite Hw in H2.
      split; apply elem_of_app; [now left | now right]. }
    exists widths. split; [|exact Hrange].
    unfold visualize_results. cbv [mbind Run_bind get emit lift mret Run_ret].
    unfold no_results. cbn [basic multi_product]. rewrite Hws, Hmulti. reflexivity.
  - intros Hgt Hfeas Hfresh.
    match goal with |- context [Some ?b0] => set (b := b0) in * end.
    destruct (surplus_route sc sc' p (solver p) Hs Hbuild (Hfeas _ _ Hbuild) Hgt)
      as (d & Hd & Hq & Hto).
    assert (Hraise : route_network b = Raise KeyError).
    { apply (route_network_unplaced b d); [exact Hd | exact Hq|].
      right. rewrite Hto, Hcf, Hcw. cbn [b b_factories].
      rewrite (Hsur Hgt). cbn [factories]. exact Hfresh. }
    unfold visualize_results. cbv [mbind Run_bind get emit lift mret Run_ret].
    unfold no_results. cbn [basic multi_product]. rewrite Hraise. reflexivity.
Qed.

Lemma long_supply_solvable : solvable long_supply.
Proof.
  split; [|split; [discriminate | intros _; reflexivity]].
  unfold dims_agree. cbn. repeat split; repeat constructor.
Qed.

Lemma surplus_plan_feasible (sc' : Scenario) (p : LpProblem) :
  build long_supply = Ok (sc', p) -> feasible p (surplus_solver p).
Proof.
  intros H. vm_compute in H. injection H as <- <-.
  split; repeat constructor; cbn; discriminate.
Qed.

Lemma X13_chart_of_a_rebalanced_problem_witness :
  solvable long_supply /\
  multi_product init = None /\
  exists tr s' b v,
    solve_basic_transportation_on long_supply surplus_solver init = (tr, s', Ok v) /\
    basic s' = Some b /\
    visualize_results s' = ([], s', Raise KeyError).
Proof.
  split; [exact long_supply_solvable|]. split; [reflexivity|].
  destruct (X13_chart_of_a_rebalanced_problem long_supply surplus_solver init
              long_supply_solvable eq_refl) as (tr & s' & b & v & Hrun & Hb & _ & Hsur).
  exists tr, s', b, v. split; [exact Hrun|]. split; [exact Hb|].
  apply Hsur; [reflexivity | exact surplus_plan_feasible|].
  intros H. vm_compute in H.
  repeat (apply elem_of_cons in H as [H|H]; [discriminate H|]). inversion H.
Defined.

End TransportChart.

(** ** Multi-product transportation *)

Section MultiProduct.
Import TransportationProblemDemo TransportReference TransportFigures.

Lemma mp_model_eq : multi_product_model = Ok mp_model.
Proof. vm_compute. reflexivity. Qed.

Lemma mp_objective :
  objective mp_model
    = map (fun t => (cost3_at t, x3_name (fst (fst t)) (snd (fst t)) (snd t))) ipj.
Proof. vm_compute. reflexivity. Qed.

Lemma mp_variables :
  variables mp_model = map (fun t => x3 (fst (fst t)) (snd (fst t)) (snd t)) ipj.
Proof. vm_compute. reflexivity. Qed.

Lemma ipj_cases (P : nat * nat * nat -> Prop) :
  P (0, 0, 0)%nat -> P (0, 0, 1)%nat -> P (0, 0, 2)%nat ->
  P (0, 1, 0)%nat -> P (0, 1, 1)%nat -> P (0, 1, 2)%nat ->
  P (1, 0, 0)%nat -> P (1, 0, 1)%nat -> P (1, 0, 2)%nat ->
  P (1, 1, 0)%nat -> P (1, 1, 1)%nat -> P (1, 1, 2)%nat ->
  forall t, t ∈ ipj -> P t.
Proof.
  intros. apply list_elem_of_In in H11. vm_compute in H11.
  repeat (destruct H11 as [<-|H11]; [assumption|]). destruct H11.
Qed.

Lemma cost3_positive (t : nat * nat * nat) : t ∈ ipj -> (0 < cost3_at t)%Q.
Proof. revert t. apply ipj_cases; reflexivity. Qed.

(** The run of the method, whatever the solver answers. *)
Lemma solve_multi_product_run (solver : Solver) (s : State) :
  let a := solver mp_model in
  solve_multi_product_transportation solver s =
    ([EvSolve mp_model],
     mkState (basic s) (Some (mkMulti (value a (objective mp_model)) (multi_routes_kept a))),
     Ok (value a (objective mp_model))).
Proof.
  intros a. unfold solve_multi_product_transportation.
  cbv [mbind Run_bind emit lift mret Run_ret set_multi_product].
  rewrite mp_model_eq. cbv zeta. fold a.
  rewrite (map_result_ext _
             (fun t => if py_gt (shipped3 a t) 0 then [multi_route_of a t] else []) ipj).
  - reflexivity.
  - apply ipj_cases; unfold shipped3; cbn [fst snd];
      (destruct (py_gt _ 0); reflexivity).
Qed.

Lemma add_cost_keys (k : string) (v : Q) (d : list (string * Q)) :
  map fst (add_cost k v d) = if bool_decide (k ∈ map fst d) then map fst d else map fst d ++ [k].
Proof.
  induction d as [|[k' w] d IH]; [reflexivity|].
  cbn [add_cost map fst]. destruct (decide (k' = k)) as [->|Hne].
  - rewrite bool_decide_eq_true_2 by left. reflexivity.
  - cbn [map fst]. rewrite IH. destruct (bool_decide (k ∈ map fst d)) eqn:E.
    + apply bool_decide_eq_true in E. rewrite bool_decide_eq_true_2 by (now right). reflexivity.
    + apply bool_decide_eq_false in E. rewrite bool_decide_eq_false_2; [reflexivity|].
      intros H. apply elem_of_cons in H as [H|H]; [congruence|contradiction].
Qed.

Lemma add_cost_sum (k : string) (v : Q) (d : list (string * Q)) :
  (py_sum (map snd (add_cost k v d)) == py_sum (map snd d) + v)%Q.
Proof.
  induction d as [|[k' w] d IH].
  - cbn [add_cost map snd]. rewrite py_sum_one. unfold py_sum. cbn. lra.
  - cbn [add_cost]. destruct (decide (k' = k)); cbn [map snd].
    + rewrite !py_sum_cons. lra.
    + rewrite !py_sum_cons, IH. lra.
Qed.

(** The entry of a key after one more addition *)
Lemma add_cost_lookup (k k0 : string) (v w : Q) (d : list (string * Q)) :
  NoDup (map fst d) -> (k0, w) ∈ add_cost k v d ->
  if decide (k0 = k)
  then (exists w0, (k0, w0) ∈ d /\ w = (w0 + v)%Q) \/ ((k0 ∉ map fst d) /\ w = (0 + v)%Q)
  else (k0, w) ∈ d.
Proof.
  induction d as [|[k' w'] d IH]; intros Hnd Hin.
  - cbn [add_cost] in Hin. apply list_elem_of_singleton in Hin. injection Hin as -> ->.
    rewrite decide_True by reflexivity. right. split; [inversion 1|reflexivity].
  - cbn [add_cost] in Hin. cbn [map fst] in Hnd. apply NoDup_cons in Hnd as [Hk' Hnd].
    destruct (decide (k' = k)) as [->|Hne].
    + apply elem_of_cons in Hin as [Hin|Hin].
      * injection Hin as -> ->. rewrite decide_True by reflexivity.
        left. exists w'. split; [left|reflexivity].
      * destruct (decide (k0 = k)) as [->|]; [|now right].
        exfalso. apply Hk'. apply list_elem_of_In, in_map_iff. exists (k, w).
        split; [reflexivity | now apply list_elem_of_In].
    + apply elem_of_cons in Hin as [Hin|Hin].
      * injection Hin as -> ->. rewrite decide_False by congruence. left.
      * specialize (IH Hnd Hin). destruct (decide (k0 = k)) as [->|].
        -- destruct IH as [(w0 & Hw0 & ->)|[Hnot ->]].
           ++ left. exists w0. split; [now right|reflexivity].
           ++ right. split; [|reflexivity]. cbn [map fst]. intros H.
              apply elem_of_cons in H as [H|H]; [congruence|contradiction].
        -- now right.
Qed.

Lemma add_cost_NoDup (k : string) (v : Q) (d : list (string * Q)) :
  NoDup (map fst d) -> NoDup (map fst (add_cost k v d)).
Proof.
  intros H. rewrite add_cost_keys. case_bool_decide as Hk; [exact H|].
  apply NoDup_app. split; [exact H|]. split; [|apply NoDup_singleton].
  intros x Hx Hx'. apply list_elem_of_singleton in Hx'. congruence.
Qed.

(** The dict after the loop over [rs], started from [d]. *)
Lemma grouped_from {R : Type} (key : R -> string) (amount : R -> Q) (rs : list R) :
  forall d, NoDup (map fst d) ->
    let d' := fold_left (fun d r => add_cost (key r) (amount r) d) rs d in
    NoDup (map fst d') /\
    (py_sum (map snd d') == py_sum (map snd d) + py_sum (map amount rs))%Q /\
    (forall k, k ∈ map fst d' <-> k ∈ map fst d \/ k ∈ map key rs) /\
    (forall k w, (k, w) ∈ d' ->
       exists w0, ((k, w0) ∈ d \/ ((k ∉ map fst d) /\ w0 = 0%Q)) /\
         (w == w0 + py_sum (map amount (filter (fun r => key r = k) rs)))%Q).
Proof.
  induction rs as [|r rs IH]; intros d Hnd; cbn [fold_left].
  - cbn zeta. split; [exact Hnd|]. split; [cbn; unfold py_sum; cbn; lra|].
    split; [intros k; cbn [map]; split; [now left | intros [H|H]; [exact H | inversion H]]|].
    intros k w Hin. exists w. split; [now left|]. cbn. unfold py_sum. cbn. lra.
  - specialize (IH (add_cost (key r) (amount r) d) (add_cost_NoDup _ _ _ Hnd)).
    cbn zeta in *. destruct IH as (Hnd' & Hsum & Hkeys & Hval).
    split; [exact Hnd'|]. split; [|split].
    + rewrite Hsum, add_cost_sum. cbn [map]. rewrite py_sum_cons. lra.
    + intros k. rewrite Hkeys, add_cost_keys. cbn [map].
      case_bool_decide as Hk.
      * split; [intros [H|H]; [now left | right; now right]|].
        intros [H|H]; [now left|].
        apply elem_of_cons in H as [->|H]; [now left | now right].
      * rewrite elem_of_app, list_elem_of_singleton. split.
        -- intros [[H| ->]|H]; [now left | right; left | right; now right].
        -- intros [H|H]; [left; now left|].
           apply elem_of_cons in H as [->|H]; [left; now right | now right].
    + intros k w Hin. destruct (Hval k w Hin) as (w0 & Hw0 & Hw).
      rewrite filter_cons. destruct (decide (key r = k)) as [Hk|Hk].
      * cbn [map]. destruct Hw0 as [Hw0|[Hnot ->]].
        -- pose proof (add_cost_lookup _ _ _ _ _ Hnd Hw0) as Hl.
           rewrite decide_True in Hl by congruence.
           destruct Hl as [(w1 & Hw1 & ->)|[Hnot ->]].
           ++ exists w1. split; [now left|]. rewrite Hw, py_sum_cons. lra.
           ++ exists 0%Q. split; [now right|]. rewrite Hw, py_sum_cons. lra.
        -- exfalso. apply Hnot. rewrite add_cost_keys. case_bool_decide as Hin'.
           ++ now rewrite <- Hk.
           ++ rewrite elem_of_app, list_elem_of_singleton. now right.
      * destruct Hw0 as [Hw0|[Hnot ->]].
        -- pose proof (add_cost_lookup _ _ _ _ _ Hnd Hw0) as Hl.
           rewrite decide_False in Hl by congruence.
           exists w0. split; [now left | exact Hw].
        -- exists 0%Q. split; [|exact Hw]. right. split; [|reflexivity].
           intros H. apply Hnot. rewrite add_cost_keys. case_bool_decide; [exact H|].
           rewrite elem_of_app. now left.
Qed.

(** The dict of costs per product, from the empty dict. *)
Lemma product_costs_grouped (rs : list MultiRoute) :
  NoDup (map fst (product_costs rs)) /\
  (forall k, k ∈ map fst (product_costs rs) <-> k ∈ map mr_product rs) /\
  (forall k w, (k, w) ∈ product_costs rs ->
     (w == py_sum (map mr_total_cost (filter (fun r => mr_product r = k) rs)))%Q) /\
  (py_sum (map snd (product_costs rs)) == py_sum (map mr_total_cost rs))%Q.
Proof.
  destruct (grouped_from mr_product mr_total_cost rs [] (NoDup_nil_2))
    as (Hnd & Hsum & Hkeys & Hval).
  cbn zeta in *. fold (product_costs rs) in *.
  split; [exact Hnd|]. split; [|split].
  - intros k. rewrite Hkeys. cbn [map]. split; [intros [H|H]; [inversion H|exact H]|now right].
  - intros k w Hin. destruct (Hval k w Hin) as (w0 & [Hw0|[_ ->]] & Hw); [inversion Hw0|].
    rewrite Hw. lra.
  - rewrite Hsum. cbn [map]. unfold py_sum at 1. cbn. lra.
Qed.

(** X14.  The dict of costs per product that the chart and the report
    build from the route details groups without loss: every product of a
    route is a key and every key is such a product, no key occurs twice,
    the value of a key is the sum of the costs of that product's routes,
    and the values add up to the sum of all route costs. *)
Theorem X14_costs_grouped_by_product (rs : list MultiRoute) :
  NoDup (map fst (product_costs rs)) /\
  (forall k, k ∈ map fst (product_costs rs) <-> k ∈ map mr_product rs) /\
  (forall k w, (k, w) ∈ product_costs rs ->
     (w == py_sum (map mr_total_cost (filter (fun r => mr_product r = k) rs)))%Q) /\
  (py_sum (map snd (product_costs rs)) == py_sum (map mr_total_cost rs))%Q.
Proof. exact (product_costs_grouped rs). Qed.

Lemma multi_routes_carry (a : assignment) : Forall carries3 (multi_routes_kept a).
Proof.
  apply Forall_kept. intros t Ht Hpos. apply py_gt_iff in Hpos.
  split; [exact Hpos|]. split; [now apply cost3_positive | reflexivity].
Qed.

Lemma carries3_cost (r : MultiRoute) : carries3 r -> (0 < mr_total_cost r)%Q.
Proof. intros (Hq & Hc & ->). now apply Qmult_lt_0_compat. Qed.

Lemma py_sum_scale (k : Q) (l : list Q) : (py_sum (map (fun c => c * k) l) == py_sum l * k)%Q.
Proof.
  induction l as [|c l IH]; [cbn; unfold py_sum; cbn; lra|].
  cbn [map]. rewrite !py_sum_cons, IH. lra.
Qed.

(** The values of a dict that groups positive amounts are positive. *)
Lemma grouped_positive {R : Type} (key : R -> string) (amount : R -> Q) (rs : list R) :
  Forall (fun r => 0 < amount r)%Q rs ->
  Forall (fun w => 0 < w)%Q
    (map snd (fold_left (fun d r => add_cost (key r) (amount r) d) rs [])).
Proof.
  intros Hpos.
  destruct (grouped_from key amount rs [] NoDup_nil_2) as (_ & _ & Hkeys & Hval).
  cbn zeta in *. apply Forall_map, Forall_forall. intros [k w] Hin. cbn [snd].
  destruct (Hval k w Hin) as (w0 & [Hw0|[_ ->]] & Hw); [inversion Hw0|].
  assert (Hk : k ∈ map key rs).
  { assert (Hk : k ∈ map fst (fold_left (fun d r => add_cost (key r) (amount r) d) rs [])).
    { apply list_elem_of_In, in_map_iff. exists (k, w). split; [reflexivity|].
      now apply list_elem_of_In. }
    apply Hkeys in Hk as [Hk|Hk]; [inversion Hk | exact Hk]. }
  rewrite Hw. 
  assert (0 < py_sum (map amount (filter (fun r => key r = k) rs)))%Q; [|lra].
  apply py_sum_pos.
  - apply list_elem_of_In, in_map_iff in Hk as (r & Hr & Hin').
    intros E. apply map_eq_nil in E.
    assert (Hf : r ∈ filter (fun r => key r = k) rs).
    { apply list_elem_of_filter. split; [exact Hr | now apply list_elem_of_In]. }
    rewrite E in Hf. inversion Hf.
  - apply Forall_map. apply Forall_forall. intros r Hr.
    apply list_elem_of_filter in Hr as [_ Hr]. rewrite Forall_forall in Hpos. now apply Hpos.
Qed.

Lemma product_costs_nonempty (rs : list MultiRoute) : rs <> [] -> product_costs rs <> [].
Proof.
  intros Hne E.
  destruct (grouped_from mr_product mr_total_cost rs [] NoDup_nil_2) as (_ & _ & Hkeys & _).
  cbn zeta in Hkeys. fold (product_costs rs) in Hkeys. rewrite E in Hkeys.
  destruct rs as [|r rs]; [congruence|].
  assert (H : mr_product r ∈ @nil string); [|inversion H].
  apply (Hkeys (mr_product r)). right. left.
Qed.

(** Panels 5 and 6 on routes that carry something. *)
Lemma panels_of_carrying_routes (m : Multi) :
  Forall carries3 (m_route_details m) ->
  exists shares eff,
    cost_shares m = Ok shares /\ efficiency m = Ok eff /\
    length shares = length (product_costs (m_route_details m)) /\
    (m_route_details m <> [] -> (py_sum shares == 100)%Q).
Proof.
  intros Hc. unfold cost_shares, efficiency. cbv zeta.
  set (costs := map snd (product_costs (m_route_details m))).
  assert (Hpos : Forall (fun w => 0 < w)%Q costs).
  { apply grouped_positive. eapply Forall_impl; [exact Hc|]. apply carries3_cost. }
  destruct (map_result_total
              (fun cq : Q * Q => if py_gt (snd cq) 0 then py_div (fst cq) (snd cq) else Ok 0%Q)
              (zip costs (map snd (product_quantities (m_route_details m)))))
    as (eff & Heff & _).
  { intros [c q] _. cbn [fst snd]. destruct (py_gt q 0) eqn:E; [|eauto].
    apply py_gt_iff in E. rewrite py_div_ok by lra. eauto. }
  destruct (m_route_details m) as [|r rs] eqn:Ers.
  - exists [], eff. repeat split; try assumption. congruence.
  - assert (Hne : costs <> []).
    { unfold costs. intros E. apply map_eq_nil in E. revert E.
      now apply product_costs_nonempty. }
    pose proof (py_sum_pos costs Hne Hpos) as Htotal.
    exists (map (fun c => c / py_sum costs * 100)%Q costs), eff.
    split; [|split; [exact Heff|split]].
    + apply map_result_ext. intros c _. rewrite py_div_ok by lra. reflexivity.
    + unfold costs. now rewrite !length_map.
    + intros _. eapply Qeq_trans.
      { apply (py_sum_ext _ (fun c => c * (100 / py_sum costs))%Q).
        intros c _. field. lra. }
      eapply Qeq_trans; [apply (py_sum_scale (100 / py_sum costs) costs)|]. field. lra.
Qed.

(** X15.  [solve_multi_product_transportation] raises for no answer of
    the solver and leaves the basic results alone.  Each entry of its
    [route_details] has a positive quantity, a positive unit cost from the
    cost tensor and their product as its cost.  So the figures of chart
    panels 5 and 6 exist: the unguarded division by the total cost (line
    492) has a positive denominator whenever there is a bar, the cost
    shares of the products add up to 100, and the unit costs of panel 6
    are guarded. *)
Theorem X15_multi_product_routes_and_panels (solver : Solver) (s : State) :
  exists tr s' m v shares eff,
    solve_multi_product_transportation solver s = (tr, s', Ok v) /\
    solved_models tr = [mp_model] /\
    multi_product s' = Some m /\ basic s' = basic s /\ m_min_cost m = v /\
    v = value (solver mp_model) (objective mp_model) /\
    Forall carries3 (m_route_details m) /\
    cost_shares m = Ok shares /\ efficiency m = Ok eff /\
    length shares = length (product_costs (m_route_details m)) /\
    (m_route_details m <> [] -> (py_sum shares == 100)%Q).
Proof.
  pose proof (solve_multi_product_run solver s) as Hrun. cbv zeta in Hrun.
  set (a := solver mp_model) in *.
  destruct (panels_of_carrying_routes (mkMulti (value a (objective mp_model))
                                               (multi_routes_kept a)))
    as (shares & eff & Hs & He & Hl & Hsum); [apply multi_routes_carry|].
  eexists _, _, _, _, shares, eff. split; [exact Hrun|].
  cbn [multi_product basic m_min_cost].
  do 5 (split; [reflexivity|]). split; [apply multi_routes_carry|].
  repeat split; assumption.
Qed.

Lemma mp_in_bounds (a : assignment) (t : nat * nat * nat) :
  Forall (in_bounds a) (variables mp_model) -> t ∈ ipj -> (0 <= shipped3 a t)%Q.
Proof.
  rewrite mp_variables, Forall_map, Forall_forall. intros H Ht.
  exact (proj1 (H t Ht)).
Qed.

Lemma multi_routes_account (a : assignment) :
  Forall (in_bounds a) (variables mp_model) ->
  (py_sum (map mr_total_cost (multi_routes_kept a)) == value a (objective mp_model))%Q.
Proof.
  intros Hb. unfold multi_routes_kept. eapply Qeq_trans; [apply py_sum_kept|].
  symmetry. eapply Qeq_trans; [apply value_py_sum|].
  rewrite mp_objective, map_map. apply py_sum_ext. intros t Ht.
  cbn [fst snd multi_route_of mr_total_cost].
  pose proof (mp_in_bounds a t Hb Ht) as H0. fold (shipped3 a t).
  destruct (py_gt (shipped3 a t) 0) eqn:E; [ring|].
  assert (~ (0 < shipped3 a t)%Q) by (rewrite <- py_gt_iff; congruence).
  assert (Hz : (shipped3 a t == 0)%Q) by lra. rewrite Hz. ring.
Qed.

(** The loop of lines 619-621 over a dict of costs. *)
Lemma report_lines (v : Q) (d : list (string * Q)) (s : State) :
  ~ (v == 0)%Q ->
  for_each d (fun pc => q ← lift (py_div (snd pc) v);
                        emit (EvPrint (fst pc) [snd pc; (q * 100)%Q])) s
    = (map (fun pc => EvPrint (fst pc) [snd pc; (snd pc / v * 100)%Q]) d, s, Ok tt).
Proof.
  intros Hv. induction d as [|pc d IH]; [reflexivity|].
  cbn [for_each map]. cbv [mbind Run_bind lift emit] in *.
  rewrite py_div_ok by exact Hv. rewrite IH. reflexivity.
Qed.

(** X16.  When the solver's quantities for the multi-product problem are
    not negative, the route costs add up to the reported minimum cost, so
    the report's division of each product's cost by that minimum (line
    620) has a positive denominator whenever there is a line to print,
    and the percentages it prints add up to 100. *)
Theorem X16_report_shares_add_up (solver : Solver) (s : State) :
  Forall (in_bounds (solver mp_model)) (variables mp_model) ->
  basic s = None ->
  exists tr s' m v,
    solve_multi_product_transportation solver s = (tr, s', Ok v) /\
    multi_product s' = Some m /\ m_min_cost m = v /\
    (py_sum (map mr_total_cost (m_route_details m)) == v)%Q /\
    generate_report s' =
      (EvPrint "  • 最小运输成本" [v]
         :: map (fun pc => EvPrint (fst pc) [snd pc; (snd pc / v * 100)%Q])
                (product_costs (m_route_details m)),
       s', Ok tt) /\
    (m_route_details m <> [] ->
     (py_sum (map (fun pc => snd pc / v * 100)%Q (product_costs (m_route_details m)))
      == 100)%Q).
Proof.
  intros Hb Hnone.
  pose proof (solve_multi_product_run solver s) as Hrun. cbv zeta in Hrun.
  set (a := solver mp_model) in *. set (v := value a (objective mp_model)) in *.
  pose proof (multi_routes_account a Hb) as Hacc. fold v in Hacc.
  pose proof (multi_routes_carry a) as Hcarry.
  eexists _, _, _, _. split; [exact Hrun|].
  cbn [multi_product m_min_cost m_route_details].
  split; [reflexivity|]. split; [reflexivity|]. split; [exact Hacc|].
  destruct (product_costs_grouped (multi_routes_kept a)) as (_ & _ & _ & Hsum).
  assert (Hpos : multi_routes_kept a <> [] -> (0 < v)%Q).
  { intros Hne. rewrite <- Hacc. apply py_sum_pos.
    - intros E. apply map_eq_nil in E. contradiction.
    - apply Forall_map. eapply Forall_impl; [exact Hcarry|]. apply carries3_cost. }
  split.
  - assert (Hfe : for_each (product_costs (multi_routes_kept a))
                    (fun pc => q ← lift (py_div (snd pc) v);
                               emit (EvPrint (fst pc) [snd pc; (q * 100)%Q]))
                    (mkState None (Some (mkMulti v (multi_routes_kept a))))
                  = (map (fun pc => EvPrint (fst pc) [snd pc; (snd pc / v * 100)%Q])
                         (product_costs (multi_routes_kept a)),
                     mkState None (Some (mkMulti v (multi_routes_kept a))), Ok tt)).
    { destruct (multi_routes_kept a) as [|r rs] eqn:E; [reflexivity|].
      apply report_lines. specialize (Hpos ltac:(discriminate)). lra. }
    unfold generate_report. cbv [mbind Run_bind get]. unfold no_results, report_basic, report_multi.
    cbn [basic multi_product]. rewrite Hnone.
    cbv [mret Run_ret mbind Run_bind emit]. cbn [m_min_cost m_route_details app].
    cbv [mbind Run_bind emit] in Hfe. rewrite Hfe. reflexivity.
  - intros Hne. specialize (Hpos Hne).
    rewrite <- (map_map snd (fun c => c / v * 100)%Q).
    eapply Qeq_trans.
    { apply (py_sum_ext _ (fun c => c * (100 / v))%Q). intros c _. field. lra. }
    eapply Qeq_trans; [apply py_sum_scale|]. rewrite Hsum, Hacc. field. lra.
Qed.

End MultiProduct.

(** ** Transportation: the optima of the two problems *)

Section TransportOptima.
Import TransportationProblemDemo TransportReference TransportFigures.

Lemma mp_best_plan_in_bounds : Forall (in_bounds mp_best_plan) (variables mp_model).
Proof.
  let v := eval vm_compute in (variables mp_model) in
    change (variables mp_model) with v.
  repeat constructor; cbn; discriminate.
Qed.

Lemma X16_report_shares_add_up_witness :
  Forall (in_bounds (mp_best_solver mp_model)) (variables mp_model) /\
  basic init = None /\
  exists tr s' m v,
    solve_multi_product_transportation mp_best_solver init = (tr, s', Ok v) /\
    multi_product s' = Some m /\ m_min_cost m = v /\
    (py_sum (map mr_total_cost (m_route_details m)) == v)%Q /\
    generate_report s' =
      (EvPrint "  • 最小运输成本" [v]
         :: map (fun pc => EvPrint (fst pc) [snd pc; (snd pc / v * 100)%Q])
                (product_costs (m_route_details m)),
       s', Ok tt) /\
    (m_route_details m <> [] ->
     (py_sum (map (fun pc => snd pc / v * 100)%Q (product_costs (m_route_details m)))
      == 100)%Q).
Proof.
  split; [exact mp_best_plan_in_bounds|]. split; [reflexivity|].
  exact (X16_report_shares_add_up mp_best_solver init mp_best_plan_in_bounds eq_refl).
Defined.

(** Weak duality, product by product: no feasible plan costs less than
    2280 for P1 and 2320 for P2. *)
Lemma mp_lower_bound (a : assignment) :
  feasible mp_model a -> (4600 <= value a (objective mp_model))%Q.
Proof.
  intros [Hb Hc].
  let v := eval vm_compute in (variables mp_model) in
    change (variables mp_model) with v in Hb.
  let c := eval vm_compute in (constraints mp_model) in
    change (constraints mp_model) with c in Hc.
  let o := eval vm_compute in (objective mp_model) in
    change (objective mp_model) with o.
  repeat match goal with
         | H : Forall _ (_ :: _) |- _ => apply Forall_cons_1 in H; destruct H
         end.
  unfold in_bounds, holds in *. cbn -[Qplus Qmult Qle Qeq] in *.
  repeat match goal with H : _ /\ _ |- _ => destruct H end.
  lra.
Qed.

Lemma mp_best_plan_optimal :
  optimal mp_model mp_best_plan /\ (value mp_best_plan (objective mp_model) == 4600)%Q.
Proof.
  assert (Hv : (value mp_best_plan (objective mp_model) == 4600)%Q) by (vm_compute; reflexivity).
  split; [|exact Hv]. split.
  - split; [exact mp_best_plan_in_bounds|].
    let c := eval vm_compute in (constraints mp_model) in
      change (constraints mp_model) with c.
    repeat constructor; unfold holds; cbn; discriminate.
  - intros b Hb. change (sense mp_model) with LpMinimize. cbn [better].
    rewrite Hv. now apply mp_lower_bound.
Qed.

(** X17.  When the solve of the multi-product model ends with an optimal
    plan, [solve_multi_product_transportation] returns and stores the
    cost 4600, which is the optimum of the model it built. *)
Theorem X17_multi_product_optimum (solver : Solver) (s : State) :
  optimal mp_model (solver mp_model) ->
  exists tr s' m v,
    solve_multi_product_transportation solver s = (tr, s', Ok v) /\
    solved_models tr = [mp_model] /\
    multi_product s' = Some m /\ m_min_cost m = v /\
    (v == 4600)%Q /\ optimum_value mp_model v.
Proof.
  intros [Hfeas Hopt].
  pose proof (solve_multi_product_run solver s) as Hrun. cbv zeta in Hrun.
  set (a := solver mp_model) in *.
  destruct mp_best_plan_optimal as [[Hbf _] Hbv].
  assert (Hv : (value a (objective mp_model) == 4600)%Q).
  { pose proof (mp_lower_bound a Hfeas).
    pose proof (Hopt mp_best_plan Hbf) as Hle.
    change (sense mp_model) with LpMinimize in Hle. cbn [better] in Hle. lra. }
  eexists _, _, _, _. split; [exact Hrun|].
  cbn [multi_product m_min_cost].
  do 3 (split; [reflexivity|]). split; [exact Hv|]. split.
  - exists a. split; [exact Hfeas | reflexivity].
  - intros b Hb. change (sense mp_model) with LpMinimize. cbn [better].
    rewrite Hv. now apply mp_lower_bound.
Qed.

Lemma X17_multi_product_optimum_witness :
  optimal mp_model (mp_best_solver mp_model) /\
  exists tr s' m v,
    solve_multi_product_transportation mp_best_solver init = (tr, s', Ok v) /\
    solved_models tr = [mp_model] /\
    multi_product s' = Some m /\ m_min_cost m = v /\
    (v == 4600)%Q /\ optimum_value mp_model v.
Proof.
  split; [exact (proj1 mp_best_plan_optimal)|].
  exact (X17_multi_product_optimum mp_best_solver init (proj1 mp_best_plan_optimal)).
Defined.

(** X18.  When the solve of the basic transportation model ends with an
    optimal plan, [solve_basic_transportation] returns and stores the
    cost 10700, which is the optimum of the model it built; and the
    stored solution matrix has a row per factory and a column per
    warehouse. *)
Theorem X18_basic_transportation_optimum (solver : Solver) (s : State) :
  optimal demo_model (solver demo_model) ->
  exists tr s' b sol v,
    solve_basic_transportation solver s = (tr, s', Ok (sol, v)) /\
    solved_models tr = [demo_model] /\
    basic s' = Some b /\ min_cost b = v /\ solution_matrix b = sol /\
    length sol = 3%nat /\ Forall (fun r => length r = 4%nat) sol /\
    (v == 10700)%Q /\ optimum_value demo_model v.
Proof.
  intros [Hfeas Hopt].
  destruct (solve_basic_run demo_scenario solver s demo_solvable)
    as (sc' & p & Hb & _ & _ & _ & Hrun).
  rewrite build_demo in Hb. injection Hb as <- <-.
  set (a := solver demo_model) in *.
  destruct transport_best_plan_optimal as [[Hbf _] Hbv].
  assert (Hv : (value a (objective demo_model) == 10700)%Q).
  { pose proof (transport_lower_bound a Hfeas).
    pose proof (Hopt best_plan Hbf) as Hle.
    change (sense demo_model) with LpMinimize in Hle. cbn [better] in Hle. lra. }
  eexists _, _, _, _, _. split; [exact Hrun|].
  cbn [basic min_cost solution_matrix].
  do 4 (split; [reflexivity|]).
  destruct (solution_of_shape demo_scenario a) as [Hl Hr].
  split; [exact Hl|]. split; [exact Hr|]. split; [exact Hv|]. split.
  - exists a. split; [exact Hfeas | reflexivity].
  - intros b Hb. change (sense demo_model) with LpMinimize. cbn [better].
    rewrite Hv. now apply transport_lower_bound.
Qed.

Lemma X18_basic_transportation_optimum_witness :
  optimal demo_model (best_solver demo_model) /\
  exists tr s' b sol v,
    solve_basic_transportation best_solver init = (tr, s', Ok (sol, v)) /\
    solved_models tr = [demo_model] /\
    basic s' = Some b /\ min_cost b = v /\ solution_matrix b = sol /\
    length sol = 3%nat /\ Forall (fun r => length r = 4%nat) sol /\
    (v == 10700)%Q /\ optimum_value demo_model v.
Proof.
  split; [exact (proj1 transport_best_plan_optimal)|].
  exact (X18_basic_transportation_optimum best_solver init (proj1 transport_best_plan_optimal)).
Defined.

End TransportOptima.

(** ** Transportation: the extreme routes and the advice *)

Section TransportAdvice.
Import TransportationProblemDemo TransportReference TransportFigures.

Lemma py_max_by_spec {A : Type} (key : A -> Q) (xs : list A) : forall x,
  py_max_by key x xs ∈ x :: xs /\
  Forall (fun y => key y <= key (py_max_by key x xs))%Q (x :: xs).
Proof.
  unfold py_max_by. induction xs as [|y xs IH]; intros x; cbn [fold_left].
  - split; [left | repeat constructor; lra].
  - destruct (py_gt (key y) (key x)) eqn:E.
    + apply py_gt_iff in E. destruct (IH y) as [Hin Hall]. split; [now right|].
      apply Forall_cons in Hall as [Hy Hall].
      constructor; [lra|]. constructor; assumption.
    + assert (Hle : (key y <= key x)%Q).
      { destruct (Qlt_le_dec (key x) (key y)) as [Hlt|Hle]; [|exact Hle].
        apply py_gt_iff in Hlt. congruence. }
      destruct (IH x) as [Hin Hall]. split.
      * apply elem_of_cons in Hin as [Hin|Hin];
          [apply elem_of_cons; left; exact Hin | right; right; exact Hin].
      * apply Forall_cons in Hall as [Hx Hall].
        constructor; [exact Hx|]. constructor; [lra | exact Hall].
Qed.

Lemma py_min_by_spec {A : Type} (key : A -> Q) (xs : list A) : forall x,
  py_min_by key x xs ∈ x :: xs /\
  Forall (fun y => key (py_min_by key x xs) <= key y)%Q (x :: xs).
Proof.
  unfold py_min_by. induction xs as [|y xs IH]; intros x; cbn [fold_left].
  - split; [left | repeat constructor; lra].
  - destruct (py_gt (key x) (key y)) eqn:E.
    + apply py_gt_iff in E. destruct (IH y) as [Hin Hall]. split; [now right|].
      apply Forall_cons in Hall as [Hy Hall].
      constructor; [lra|]. constructor; assumption.
    + assert (Hle : (key x <= key y)%Q).
      { destruct (Qlt_le_dec (key y) (key x)) as [Hlt|Hle]; [|exact Hle].
        apply py_gt_iff in Hlt. congruence. }
      destruct (IH x) as [Hin Hall]. split.
      * apply elem_of_cons in Hin as [Hin|Hin];
          [apply elem_of_cons; left; exact Hin | right; right; exact Hin].
      * apply Forall_cons in Hall as [Hx Hall].
        constructor; [exact Hx|]. constructor; [lra | exact Hall].
Qed.

Lemma filter_nonempty_iff {A : Type} (P : A -> Prop) `{forall a, Decision (P a)} (l : list A) :
  filter P l <> [] <-> Exists P l.
Proof.
  rewrite Exists_exists. split.
  - destruct (filter P l) as [|a l'] eqn:E; [congruence|]. intros _.
    assert (Ha : a ∈ filter P l) by (rewrite E; left).
    apply list_elem_of_filter in Ha as [HP Hin]. eauto.
  - intros (a & Hin & HP) E.
    assert (Ha : a ∈ filter P l) by (apply list_elem_of_filter; tauto).
    rewrite E in Ha. inversion Ha.
Qed.

(** X19.  On a basic result with at least one route, the report names
    as the highest-cost and the lowest-cost route two routes of
    [route_details] whose unit costs bound the unit cost of every route;
    it advises to look for alternatives exactly when the highest unit
    cost is above 10, and to use the cheap routes more exactly when the
    lowest is below 8. *)
Theorem X19_report_names_the_extreme_routes (b : Basic) (r : Route) (rs : list Route)
    (s : State) :
  route_details b = r :: rs ->
  let hi := py_max_by unit_cost r rs in
  let lo := py_min_by unit_cost r rs in
  hi ∈ route_details b /\ lo ∈ route_details b /\
  Forall (fun x => unit_cost lo <= unit_cost x <= unit_cost hi)%Q (route_details b) /\
  trace_of (cost_analysis b s)
    = [EvPrint ("  • 最高成本路线: " +:+ r_from hi +:+ " → " +:+ r_to hi) [unit_cost hi];
       EvPrint ("  • 最低成本路线: " +:+ r_from lo +:+ " → " +:+ r_to lo) [unit_cost lo]] /\
  (EvPrint advise_high [] ∈ trace_of (advice b s) <-> (10 < unit_cost hi)%Q) /\
  (EvPrint advise_low [] ∈ trace_of (advice b s) <-> (unit_cost lo < 8)%Q).
Proof.
  intros Hrd hi lo.
  destruct (py_max_by_spec unit_cost rs r) as [Hhi Hmax].
  destruct (py_min_by_spec unit_cost rs r) as [Hlo Hmin].
  fold hi in Hhi, Hmax. fold lo in Hlo, Hmin.
  assert (Hhigh : filter (fun x => py_gt (unit_cost x) 10 = true) (r :: rs) <> []
                  <-> (10 < unit_cost hi)%Q).
  { rewrite filter_nonempty_iff, Exists_exists. split.
    - intros (x & Hx & Hgt). apply py_gt_iff in Hgt.
      rewrite Forall_forall in Hmax. specialize (Hmax x Hx). cbn beta in Hmax. lra.
    - intros Hgt. exists hi. split; [exact Hhi | now apply py_gt_iff]. }
  assert (Hlow : filter (fun x => py_gt 8 (unit_cost x) = true) (r :: rs) <> []
                 <-> (unit_cost lo < 8)%Q).
  { rewrite filter_nonempty_iff, Exists_exists. split.
    - intros (x & Hx & Hgt). apply py_gt_iff in Hgt.
      rewrite Forall_forall in Hmin. specialize (Hmin x Hx). cbn beta in Hmin. lra.
    - intros Hgt. exists lo. split; [exact Hlo | now apply py_gt_iff]. }
  unfold cost_analysis, advice. rewrite Hrd. fold hi lo.
  split; [exact Hhi|]. split; [exact Hlo|]. split.
  { apply Forall_forall. intros x Hx. rewrite Forall_forall in Hmax, Hmin.
    split; [exact (Hmin x Hx) | exact (Hmax x Hx)]. }
  split; [reflexivity|].
  cbv zeta.
  destruct (filter (fun x => py_gt (unit_cost x) 10 = true) (r :: rs)) as [|h hs];
    destruct (filter (fun x => py_gt 8 (unit_cost x) = true) (r :: rs)) as [|l ls];
    cbv [mbind Run_bind emit mret Run_ret trace_of]; cbn [fst app];
    (split; [rewrite <- Hhigh | rewrite <- Hlow]);
    (split; [intros Hin; try discriminate;
             repeat (apply elem_of_cons in Hin as [Hin|Hin]; [try discriminate|]);
             try inversion Hin; try congruence
            | intros Hne; try congruence;
              first [left | right; left]]).
Qed.

Lemma solved_basic_routes : route_details solved_basic = first_route :: other_routes.
Proof. vm_compute. reflexivity. Qed.

Lemma X19_report_names_the_extreme_routes_witness :
  route_details solved_basic = first_route :: other_routes /\
  py_max_by unit_cost first_route other_routes ∈ route_details solved_basic /\
  py_min_by unit_cost first_route other_routes ∈ route_details solved_basic /\
  Forall (fun x => unit_cost (py_min_by unit_cost first_route other_routes) <= unit_cost x
                   <= unit_cost (py_max_by unit_cost first_route other_routes))%Q
         (route_details solved_basic) /\
  trace_of (cost_analysis solved_basic init)
    = [EvPrint ("  • 最高成本路线: "
                  +:+ r_from (py_max_by unit_cost first_route other_routes) +:+ " → "
                  +:+ r_to (py_max_by unit_cost first_route other_routes))
               [unit_cost (py_max_by unit_cost first_route other_routes)];
       EvPrint ("  • 最低成本路线: "
                  +:+ r_from (py_min_by unit_cost first_route other_routes) +:+ " → "
                  +:+ r_to (py_min_by unit_cost first_route other_routes))
               [unit_cost (py_min_by unit_cost first_route other_routes)]] /\
  (EvPrint advise_high [] ∈ trace_of (advice solved_basic init)
   <-> (10 < unit_cost (py_max_by unit_cost first_route other_routes))%Q) /\
  (EvPrint advise_low [] ∈ trace_of (advice solved_basic init)
   <-> (unit_cost (py_min_by unit_cost first_route other_routes) < 8)%Q).
Proof.
  split; [exact solved_basic_routes|].
  exact (X19_report_names_the_extreme_routes solved_basic first_route other_routes init
           solved_basic_routes).
Defined.

End TransportAdvice.

(** ** Production planning: the profit panel *)

Section ProfitShares.
Import LinearProgrammingDemo ProductionReference ProductionFigures.

(** The profit shares never fail: the division is guarded by a positive
    total. *)
Lemma percentages_total (contribution : list Q) :
  exists shares,
    percentages contribution = Ok shares /\
    length shares = length contribution /\
    ((0 < py_sum contribution)%Q -> (py_sum shares == 100)%Q) /\
    (~ (0 < py_sum contribution)%Q -> shares = map (fun _ => 0%Q) contribution).
Proof.
  unfold percentages. cbv zeta.
  destruct (py_gt (py_sum contribution) 0) eqn:E.
  - apply py_gt_iff in E.
    exists (map (fun v => v / py_sum contribution * 100)%Q contribution).
    split; [|split; [now rewrite length_map|split; [|contradiction]]].
    + apply map_result_ext. intros v _. rewrite py_div_ok by lra. reflexivity.
    + intros _. eapply Qeq_trans.
      { apply (py_sum_ext _ (fun c => c * (100 / py_sum contribution))%Q).
        intros c _. field. lra. }
      eapply Qeq_trans; [apply (py_sum_scale (100 / py_sum contribution) contribution)|].
      field. lra.
  - assert (Hn : ~ (0 < py_sum contribution)%Q) by (rewrite <- py_gt_iff; congruence).
    exists (map (fun _ => 0%Q) contribution).
    split; [|split; [now rewrite length_map|split; [contradiction|reflexivity]]].
    now apply map_result_ext.
Qed.

Lemma used_consumed (req : list Q) (a : assignment) :
  (3 <= length req)%nat -> used req (plan_of a) = Ok (consumed req a).
Proof.
  intros H. unfold used, consumed.
  rewrite (map_result_ext _ (fun i => nth i req 0 * a (x_name i))%Q).
  - reflexivity.
  - intros i Hi. apply list_elem_of_In, in_seq in Hi.
    rewrite (py_index_nth req i 0%Q) by lia. cbn [mbind result_bind].
    rewrite (py_index_nth (plan_of a) i 0%Q) by (cbn; lia). cbn [mbind result_bind].
    do 2 f_equal. destruct i as [|[|[|i]]]; try reflexivity. lia.
Qed.

(** The run of the baseline solve on sound data, whatever the solver
    answers. *)
Lemma solve_on_run (d : ProductionData) (solver : Solver) :
  sound_data d ->
  let a := solver (model_for d) in
  let r := results_for d a in
  solve_production_planning_on d solver init =
    ([EvSolve (model_for d);
      EvPrint "  劳动力" [labor_used r; labor_available r;
                          (labor_used r / labor_available r * 100)%Q];
      EvPrint "  原材料" [material_used r; material_available r;
                          (material_used r / material_available r * 100)%Q]],
     mkState {[ 0%nat := d_profit d ]} (Some r),
     Ok (plan_of a, max_profit r)).
Proof.
  intros (_ & Hp & Hl & Hm & _ & _ & Hlc & Hmc) a r.
  unfold solve_production_planning_on, alloc, load, set_results.
  cbv [mbind Run_bind emit lift mret Run_ret]. cbn [heap results init].
  change (fresh (dom (∅ : gmap nat (list Q)))) with 0%nat.
  rewrite lookup_insert_eq.
  rewrite production_model_total by lia. fold (model_for d). fold a.
  change (map_result (fun i => result_bind _ _ (fun v => Ok (a (name v))) (py_index x i))
                     (seq 0 3))
    with (Ok (plan_of a)).
  cbv beta iota. rewrite (used_consumed (d_labor_req d)) by lia.
  cbv beta iota. rewrite (used_consumed (d_material_req d)) by lia.
  unfold utilization. cbv beta iota. cbv [mbind result_bind].
  rewrite (py_div_ok _ (d_labor_available d)) by lra. cbv beta iota.
  rewrite (py_div_ok _ (d_material_available d)) by lra.
  reflexivity.
Qed.

Lemma demo_sound : sound_data demo_data.
Proof.
  unfold sound_data. cbn. repeat split; try reflexivity; try lra;
    repeat constructor; discriminate.
Qed.

Lemma value_weights (a : assignment) (coef : list Q) :
  (value a (weights coef)
   == nth 0 coef 0 * a (x_name 0) + nth 1 coef 0 * a (x_name 1)
      + nth 2 coef 0 * a (x_name 2))%Q.
Proof. unfold weights. cbn [map seq value fold_right fst snd]. ring. Qed.

(** X20.  On sound data, after the baseline solve with any answer of the
    solver, the third chart panel has one contribution per product
    (unit profit times quantity), and the contributions add up to the
    stored [max_profit].  The shares never fail to be computed, the
    division being guarded: they add up to 100 when the total is
    positive, and they are all 0 otherwise. *)
Theorem X20_profit_contributions_and_shares (d : ProductionData) (solver : Solver) :
  sound_data d ->
  exists tr s r v cs shares,
    solve_production_planning_on d solver init = (tr, s, Ok v) /\
    results s = Some r /\
    profit_contribution r s = ([], s, Ok cs) /\
    length cs = 3%nat /\ (py_sum cs == max_profit r)%Q /\
    percentages cs = Ok shares /\ length shares = 3%nat /\
    ((0 < max_profit r)%Q -> (py_sum shares == 100)%Q) /\
    (~ (0 < max_profit r)%Q -> shares = [0; 0; 0]%Q).
Proof.
  intros Hd. pose proof (solve_on_run d solver Hd) as Hrun. cbv zeta in Hrun.
  destruct Hd as (Hprod & Hp & _).
  set (a := solver (model_for d)) in *.
  set (cs := map (fun i => nth i (d_profit d) 0 * a (x_name i))%Q (seq 0 3)).
  destruct (percentages_total cs) as (shares & Hsh & Hlen & Hpos & Hzero).
  assert (Hsum : (py_sum cs == value a (objective (model_for d)))%Q).
  { cbn [objective model_for]. rewrite value_weights. unfold cs. cbn [map seq].
    unfold py_sum. cbn [fold_left]. ring. }
  eexists _, _, _, _, cs, shares. split; [exact Hrun|].
  cbn [results results_for max_profit]. split; [reflexivity|]. split.
  { unfold profit_contribution, load. cbv [mbind Run_bind lift]. cbn [heap profit results_for].
    rewrite lookup_singleton_eq. cbn [products solution results_for]. rewrite Hprod.
    rewrite (map_result_ext _ (fun i => nth i (d_profit d) 0 * a (x_name i))%Q).
    - reflexivity.
    - intros i Hi. apply list_elem_of_In, in_seq in Hi.
      rewrite (py_index_nth (d_profit d) i 0%Q) by lia. cbn [mbind result_bind].
      rewrite (py_index_nth (plan_of a) i 0%Q) by (cbn; lia). cbn [mbind result_bind].
      do 2 f_equal. destruct i as [|[|[|i]]]; try reflexivity. lia. }
  split; [reflexivity|]. split; [exact Hsum|]. split; [exact Hsh|].
  split; [rewrite Hlen; reflexivity|]. split.
  - intros H. apply Hpos. now rewrite Hsum.
  - intros H. rewrite Hzero by now rewrite Hsum. reflexivity.
Qed.

Lemma X20_profit_contributions_and_shares_witness :
  sound_data demo_data /\
  exists tr s r v cs shares,
    solve_production_planning_on demo_data best_solver init = (tr, s, Ok v) /\
    results s = Some r /\
    profit_contribution r s = ([], s, Ok cs) /\
    length cs = 3%nat /\ (py_sum cs == max_profit r)%Q /\
    percentages cs = Ok shares /\ length shares = 3%nat /\
    ((0 < max_profit r)%Q -> (py_sum shares == 100)%Q) /\
    (~ (0 < max_profit r)%Q -> shares = [0; 0; 0]%Q).
Proof.
  split; [exact demo_sound|].
  exact (X20_profit_contributions_and_shares demo_data best_solver demo_sound).
Defined.

End ProfitShares.

(** ** Production planning: the most profitable product *)

Section MostProfitable.
Import LinearProgrammingDemo ProductionReference ProductionFigures.

Lemma index_of_first (l : list Q) (m : Q) :
  m ∈ l ->
  exists i w, index_of l m = Ok i /\ l !! i = Some w /\ (w == m)%Q /\
    forall j q, (j < i)%nat -> l !! j = Some q -> ~ (q == m)%Q.
Proof.
  induction l as [|w l IH]; intros Hin; [inversion Hin|].
  cbn [index_of]. destruct (Qeq_bool w m) eqn:E.
  - apply Qeq_bool_iff in E. exists 0%nat, w. repeat split; try assumption.
    intros j q Hj. lia.
  - assert (Hne : ~ (w == m)%Q) by (intros H; apply Qeq_bool_iff in H; congruence).
    apply elem_of_cons in Hin as [->|Hin]; [exfalso; apply Hne; reflexivity|].
    destruct (IH Hin) as (i & w' & Hi & Hw' & Heq & Hbefore).
    rewrite Hi. cbn [mbind result_bind]. exists (S i), w'. repeat split; try assumption.
    intros [|j] q Hj Hq; [injection Hq as <-; exact Hne|].
    apply (Hbefore j q); [lia | exact Hq].
Qed.

(** X21.  The report names the first product whose unit profit is the
    highest: every unit profit is at most the one printed, and those of
    the products before it are strictly lower.  On an empty profit list
    [max] raises ValueError. *)
Theorem X21_report_names_the_first_most_profitable (s : State) (r : Results)
    (base : list Q) :
  heap s !! profit r = Some base ->
  (length base <= length (products r))%nat ->
  match base with
  | [] => most_profitable r s = ([], s, Raise ValueError)
  | _ =>
      exists i product p,
        most_profitable r s = ([EvPrint (highest_profit +:+ product) [p]], s, Ok tt) /\
        products r !! i = Some product /\ base !! i = Some p /\
        Forall (fun q => q <= p)%Q base /\
        (forall j q, (j < i)%nat -> base !! j = Some q -> (q < p)%Q)
  end.
Proof.
  intros Hbase Hlen. unfold most_profitable, load.
  cbv [mbind Run_bind lift emit]. rewrite Hbase.
  destruct base as [|v vs]; [reflexivity|].
  cbn [py_max_of]. destruct (py_max_spec vs v) as [Hin Hall].
  set (m := py_max v vs) in *.
  destruct (index_of_first (v :: vs) m Hin) as (i & w & Hi & Hw & Heq & Hbefore).
  rewrite Hi.
  destruct (lookup_lt_is_Some_2 (products r) i) as [product Hp].
  { apply lookup_lt_Some in Hw. lia. }
  rewrite (py_index_lookup _ _ _ Hp), (py_index_lookup _ _ _ Hw).
  exists i, product, w. split; [reflexivity|]. split; [exact Hp|]. split; [exact Hw|].
  split.
  - eapply Forall_impl; [exact Hall|]. cbn beta. intros q Hq. rewrite Heq. exact Hq.
  - intros j q Hj Hq. specialize (Hbefore j q Hj Hq).
    rewrite Forall_forall in Hall.
    assert (q <= m)%Q by (apply Hall; eapply list_elem_of_lookup_2; exact Hq).
    rewrite Heq. apply Qle_lteq in H as [H|H]; [exact H | contradiction].
Qed.

Lemma X21_report_names_the_first_most_profitable_witness :
  heap solved_state !! profit solved_results = Some [40; 30; 50]%Q /\
  (length [40; 30; 50]%Q <= length (products solved_results))%nat /\
  exists i product p,
    most_profitable solved_results solved_state
      = ([EvPrint (highest_profit +:+ product) [p]], solved_state, Ok tt) /\
    products solved_results !! i = Some product /\ [40; 30; 50]%Q !! i = Some p /\
    Forall (fun q => q <= p)%Q [40; 30; 50]%Q /\
    (forall j q, (j < i)%nat -> [40; 30; 50]%Q !! j = Some q -> (q < p)%Q).
Proof.
  assert (H1 : heap solved_state !! profit solved_results = Some [40; 30; 50]%Q)
    by (vm_compute; reflexivity).
  assert (H2 : (length [40; 30; 50]%Q <= length (products solved_results))%nat)
    by (cbn; lia).
  split; [exact H1|]. split; [exact H2|].
  exact (X21_report_names_the_first_most_profitable solved_state solved_results
           [40; 30; 50]%Q H1 H2).
Defined.

End MostProfitable.

(** ** Production planning: variants and resources *)

Section VariantsAndResources.
Import LinearProgrammingDemo ProductionReference ProductionFigures.

Lemma feasible_x (p : LpProblem) (a : assignment) :
  variables p = x -> feasible p a ->
  (0 <= a (x_name 0) /\ 0 <= a (x_name 1) /\ 0 <= a (x_name 2))%Q.
Proof.
  intros Hx [Hb _]. rewrite Hx in Hb. unfold x in Hb. cbn [map seq] in Hb.
  repeat match goal with
         | H : Forall _ (_ :: _) |- _ => apply Forall_cons_1 in H; destruct H
         end.
  unfold in_bounds in *. cbn [lowBound name] in *. tauto.
Qed.

(** How the objective of a variant differs from the baseline's. *)
Lemma varied_value (a : assignment) (base : list Q) (i : nat) (change : Z) (b : Q) :
  length base = 3%nat -> (i < 3)%nat -> base !! i = Some b ->
  (value a (weights (varied base i change))
   == value a (weights base) + b * (inject_Z change / 100) * a (x_name i))%Q.
Proof.
  intros Hlen Hi Hb. rewrite !value_weights. unfold varied. rewrite Hb.
  destruct base as [|p0 [|p1 [|p2 [|]]]]; try discriminate.
  destruct i as [|[|[|i]]]; try lia; injection Hb as <-; cbn [nth]; cbn; ring.
Qed.

(** X22.  A variant's printed change has the sign of the percentage.
    When the stored [max_profit] is the optimum of the stored data and
    the variant's solve ends with an optimal plan, raising a unit profit
    that is not negative cannot lower the optimum and lowering it cannot
    raise it: the delta printed after a positive percentage is not
    negative, and the one after a negative percentage is not positive. *)
Theorem X22_variant_delta_follows_the_percentage (solver : Solver) (s : State)
    (r : Results) (base : list Q) (i : nat) (change : Z) (b : Q) :
  well_formed s r base ->
  (i < 3)%nat -> base !! i = Some b -> (0 <= b)%Q ->
  optimum_value (base_model r base) (max_profit r) ->
  optimal (variant_model r base (i, change)) (solver (variant_model r base (i, change))) ->
  exists s' v,
    variant_step solver r i change s
      = ([EvSolve (variant_model r base (i, change));
          EvVariant change v (v - max_profit r)%Q], s', Ok tt) /\
    ((0 <= change)%Z -> (0 <= v - max_profit r)%Q) /\
    ((change <= 0)%Z -> (v - max_profit r <= 0)%Q).
Proof.
  intros Hwf Hi Hb Hb0 [(a0 & Hf0 & Hv0) Hbest] [Hfp Hoptp].
  assert (Hkept : kept s s) by (split; reflexivity).
  destruct (variant_step_run solver s s r base i change Hwf Hkept Hi) as (s' & Hrun & _).
  set (p := variant_model r base (i, change)) in *.
  exists s', (value (solver p) (objective p)). split; [exact Hrun|].
  destruct Hwf as (_ & _ & Hlen & _).
  assert (Hsame : forall a, feasible p a <-> feasible (base_model r base) a) by (intros; reflexivity).
  pose proof (feasible_x (base_model r base) a0 eq_refl Hf0) as H0.
  pose proof (feasible_x p (solver p) eq_refl Hfp) as Hp.
  assert (Hxi : forall a, (0 <= a (x_name 0) /\ 0 <= a (x_name 1) /\ 0 <= a (x_name 2))%Q ->
                          (0 <= a (x_name i))%Q).
  { intros a Ha. destruct i as [|[|[|i]]]; try lia; tauto. }
  pose proof (varied_value a0 base i change b Hlen Hi Hb) as Hd0.
  pose proof (varied_value (solver p) base i change b Hlen Hi Hb) as Hdp.
  pose proof (Hoptp a0 (proj2 (Hsame a0) Hf0)) as Hge.
  pose proof (Hbest (solver p) (proj1 (Hsame _) Hfp)) as Hle.
  cbn [better sense p variant_model base_model objective fst snd] in Hge, Hle, Hv0 |- *.
  split.
  - intros Hc.
    assert (0 <= inject_Z change / 100)%Q.
    { apply Qle_shift_div_l; [reflexivity|]. rewrite Qmult_0_l.
      unfold Qle. cbn. lia. }
    assert (0 <= b * (inject_Z change / 100) * a0 (x_name i))%Q.
    { apply Qmult_le_0_compat; [apply Qmult_le_0_compat; assumption | now apply Hxi]. }
    lra.
  - intros Hc.
    assert (0 <= - (inject_Z change / 100))%Q.
    { assert (inject_Z change / 100 <= 0)%Q; [|lra].
      apply Qle_shift_div_r; [reflexivity|]. rewrite Qmult_0_l.
      unfold Qle. cbn. lia. }
    assert (0 <= b * (- (inject_Z change / 100)) * solver p (x_name i))%Q.
    { apply Qmult_le_0_compat; [apply Qmult_le_0_compat; assumption | now apply Hxi]. }
    lra.
Qed.

Lemma base_model_demo : base_model solved_results [40; 30; 50]%Q = demo_problem.
Proof. vm_compute. reflexivity. Qed.

Lemma demo_optimum : optimum_value (base_model solved_results [40; 30; 50]%Q)
                       (max_profit solved_results).
Proof.
  rewrite base_model_demo. split.
  - exists best_plan. split; [exact best_plan_feasible | reflexivity].
  - intros b Hb. cbn [better sense demo_problem]. now apply demo_upper_bound.
Qed.

(** Weak duality for the first product at +10 percent, with the prices
    58/3 per hour and 16/3 per kg. *)
Lemma best_plan_optimal_at_plus_ten :
  optimal (variant_model solved_results [40; 30; 50]%Q (0%nat, 10%Z)) best_plan.
Proof.
  split.
  - exact best_plan_feasible.
  - intros b Hb.
    assert (Hb' : feasible demo_problem b) by exact Hb.
    apply feasible_demo_inv in Hb'.
    cbn [better sense variant_model].
    assert (Hv : (value best_plan
                    (objective (variant_model solved_results [40; 30; 50]%Q (0%nat, 10%Z)))
                  == 2360)%Q) by (vm_compute; reflexivity).
    rewrite Hv.
    pose proof (varied_value b [40; 30; 50]%Q 0 10 40 eq_refl ltac:(lia) eq_refl) as Hd.
    cbn [objective variant_model fst snd]. rewrite Hd, value_weights.
    cbn [nth x_name]. change (inject_Z 10 / 100)%Q with (10 # 100)%Q.
    change (x_name 0) with "x0". change (x_name 1) with "x1". change (x_name 2) with "x2".
    lra.
Qed.

Lemma X22_variant_delta_follows_the_percentage_witness :
  well_formed solved_state solved_results [40; 30; 50]%Q /\
  (0 < 3)%nat /\ [40; 30; 50]%Q !! 0%nat = Some 40%Q /\ (0 <= 40)%Q /\
  optimum_value (base_model solved_results [40; 30; 50]%Q) (max_profit solved_results) /\
  optimal (variant_model solved_results [40; 30; 50]%Q (0%nat, 10%Z))
          (best_solver (variant_model solved_results [40; 30; 50]%Q (0%nat, 10%Z))) /\
  exists s' v,
    variant_step best_solver solved_results 0 10 solved_state
      = ([EvSolve (variant_model solved_results [40; 30; 50]%Q (0%nat, 10%Z));
          EvVariant 10 v (v - max_profit solved_results)%Q], s', Ok tt) /\
    ((0 <= 10)%Z -> (0 <= v - max_profit solved_results)%Q) /\
    ((10 <= 0)%Z -> (v - max_profit solved_results <= 0)%Q).
Proof.
  assert (H2 : (0 < 3)%nat) by lia.
  assert (H4 : (0 <= 40)%Q) by discriminate.
  split; [exact solved_state_well_formed|]. split; [exact H2|].
  split; [reflexivity|]. split; [exact H4|]. split; [exact demo_optimum|].
  split; [exact best_plan_optimal_at_plus_ten|].
  exact (X22_variant_delta_follows_the_percentage best_solver solved_state solved_results
           [40; 30; 50]%Q 0 10 40 solved_state_well_formed H2 eq_refl H4 demo_optimum
           best_plan_optimal_at_plus_ten).
Defined.

(** X23.  On sound data, when the solver's plan is feasible, what the
    baseline solve stores as used does not exceed what is available, and
    both utilisation figures it prints lie between 0 and 100 percent. *)
Theorem X23_feasible_plan_uses_at_most_everything (d : ProductionData) (solver : Solver) :
  sound_data d ->
  feasible (model_for d) (solver (model_for d)) ->
  exists s r v lu mu,
    solve_production_planning_on d solver init
      = ([EvSolve (model_for d);
          EvPrint "  劳动力" [labor_used r; labor_available r; lu];
          EvPrint "  原材料" [material_used r; material_available r; mu]], s, Ok v) /\
    results s = Some r /\
    (0 <= labor_used r <= labor_available r)%Q /\
    (0 <= material_used r <= material_available r)%Q /\
    (0 <= lu <= 100)%Q /\ (0 <= mu <= 100)%Q.
Proof.
  intros Hd Hfeas. pose proof (solve_on_run d solver Hd) as Hrun. cbv zeta in Hrun.
  set (a := solver (model_for d)) in *.
  pose proof (feasible_x (model_for d) a eq_refl Hfeas) as (H0 & H1 & H2).
  destruct Hfeas as [_ Hc]. cbn [constraints model_for] in Hc.
  apply Forall_cons_1 in Hc as [Hlab Hc]. apply Forall_cons_1 in Hc as [Hmat _].
  unfold holds in Hlab, Hmat. cbn [cmp lhs rhs] in Hlab, Hmat.
  rewrite value_weights in Hlab, Hmat.
  destruct Hd as (_ & _ & Hl & Hm & Hln & Hmn & Hlc & Hmc).
  assert (Hcons : forall req, (consumed req a
             == nth 0 req 0 * a (x_name 0) + nth 1 req 0 * a (x_name 1)
                + nth 2 req 0 * a (x_name 2))%Q).
  { intros req. unfold consumed. cbn [map seq]. unfold py_sum. cbn [fold_left]. ring. }
  assert (Hnn : forall req, length req = 3%nat -> Forall (fun q => 0 <= q)%Q req ->
             (0 <= consumed req a)%Q).
  { intros req Hlen Hreq. rewrite Hcons.
    destruct req as [|q0 [|q1 [|q2 [|]]]]; try discriminate.
    apply Forall_cons_1 in Hreq as [Hq0 Hreq]. apply Forall_cons_1 in Hreq as [Hq1 Hreq].
    apply Forall_cons_1 in Hreq as [Hq2 _]. cbn [nth].
    pose proof (Qmult_le_0_compat _ _ Hq0 H0).
    pose proof (Qmult_le_0_compat _ _ Hq1 H1).
    pose proof (Qmult_le_0_compat _ _ Hq2 H2). lra. }
  assert (Hratio : forall u c : Q, (0 < c)%Q -> (0 <= u <= c)%Q -> (0 <= u / c * 100 <= 100)%Q).
  { intros u c Hcpos [Hu0 Huc].
    assert (0 <= u / c)%Q by (apply Qle_shift_div_l; lra).
    assert (u / c <= 1)%Q by (apply Qle_shift_div_r; lra). lra. }
  eexists _, _, _, _, _. split; [exact Hrun|].
  cbn [results results_for labor_used material_used labor_available material_available].
  split; [reflexivity|].
  assert (Hlu : (0 <= consumed (d_labor_req d) a <= d_labor_available d)%Q).
  { split; [now apply Hnn | rewrite Hcons; exact Hlab]. }
  assert (Hmu : (0 <= consumed (d_material_req d) a <= d_material_available d)%Q).
  { split; [now apply Hnn | rewrite Hcons; exact Hmat]. }
  split; [exact Hlu|]. split; [exact Hmu|].
  split; apply Hratio; assumption.
Qed.

Lemma best_plan_feasible_for_demo : feasible (model_for demo_data) (best_solver (model_for demo_data)).
Proof. exact best_plan_feasible. Qed.

Lemma X23_feasible_plan_uses_at_most_everything_witness :
  sound_data demo_data /\
  feasible (model_for demo_data) (best_solver (model_for demo_data)) /\
  exists s r v lu mu,
    solve_production_planning_on demo_data best_solver init
      = ([EvSolve (model_for demo_data);
          EvPrint "  劳动力" [labor_used r; labor_available r; lu];
          EvPrint "  原材料" [material_used r; material_available r; mu]], s, Ok v) /\
    results s = Some r /\
    (0 <= labor_used r <= labor_available r)%Q /\
    (0 <= material_used r <= material_available r)%Q /\
    (0 <= lu <= 100)%Q /\ (0 <= mu <= 100)%Q.
Proof.
  split; [exact demo_sound|]. split; [exact best_plan_feasible_for_demo|].
  exact (X23_feasible_plan_uses_at_most_everything demo_data best_solver demo_sound
           best_plan_feasible_for_demo).
Defined.

End VariantsAndResources.

(** ** The font configuration *)

Section Fonts.
Import FontConfig.

Lemma first_available_spec (fonts available : list string) :
  match first_available fonts available with
  | Some f => exists before after,
      fonts = before ++ f :: after /\ f ∈ available /\ Forall (fun g => g ∉ available) before
  | None => Forall (fun g => g ∉ available) fonts
  end.
Proof.
  induction fonts as [|font rest IH]; cbn [first_available]; [constructor|].
  case_bool_decide as Hin.
  - exists [], rest. repeat split; [exact Hin | constructor].
  - destruct (first_available rest available) as [f|].
    + destruct IH as (before & after & -> & Hf & Hb).
      exists (font :: before), after. repeat split; [exact Hf | now constructor].
    + now constructor.
Qed.

(** X24.  [setup_chinese_font] returns the first font of its priority
    list that the system has, or None when it has none of them.  With a
    font found, the sans-serif, serif and monospace families are set to
    that font alone and the family to sans-serif, and its name is
    printed; with none found a warning is issued and these settings are
    left as they were.  Either way [axes.unicode_minus] is switched off
    and no other setting changes. *)
Theorem X24_first_available_font_is_selected (available : list string)
    (params : gmap string rc_value) :
  let o := setup_chinese_font available params in
  rc o !! "axes.unicode_minus" = Some (RcBool false) /\
  (forall k, k ∉ ["font.sans-serif"; "font.family"; "font.serif"; "font.monospace";
                  "axes.unicode_minus"] -> rc o !! k = params !! k) /\
  match returned o with
  | Some f =>
      (exists before after,
         chinese_fonts = before ++ f :: after /\ f ∈ available /\
         Forall (fun g => g ∉ available) before) /\
      rc o !! "font.sans-serif" = Some (RcList [f]) /\
      rc o !! "font.family" = Some (RcStr "sans-serif") /\
      rc o !! "font.serif" = Some (RcList [f]) /\
      rc o !! "font.monospace" = Some (RcList [f]) /\
      messages o = [Printed (font_set +:+ f)]
  | None =>
      Forall (fun g => g ∉ available) chinese_fonts /\
      rc o = <["axes.unicode_minus" := RcBool false]> params /\
      messages o = [Warned font_missing]
  end.
Proof.
  intros o. unfold o, setup_chinese_font. cbv zeta.
  pose proof (first_available_spec chinese_fonts available) as Hspec.
  destruct (first_available chinese_fonts available) as [f|] eqn:E.
  - assert (Hne : truthy (Some f) = true).
    { destruct Hspec as (before & after & Hsplit & _).
      assert (Hin : f ∈ chinese_fonts) by (rewrite Hsplit; apply elem_of_app; right; left).
      apply list_elem_of_In in Hin. unfold chinese_fonts in Hin. cbn [In] in Hin.
      repeat (destruct Hin as [<-|Hin]; [reflexivity|]). destruct Hin. }
    rewrite Hne. cbn [fst snd rc messages returned default from_option id].
    split; [apply lookup_insert_eq|]. split.
    { intros k Hk. rewrite !lookup_insert_ne; [reflexivity|..];
        intros <-; apply Hk; apply list_elem_of_In; cbn; tauto. }
    split; [exact Hspec|].
    repeat split;
      repeat (first [ rewrite lookup_insert_eq; reflexivity
                    | rewrite lookup_insert_ne by discriminate ]).
  - cbn [truthy fst snd rc messages returned].
    split; [apply lookup_insert_eq|]. split.
    { intros k Hk. rewrite lookup_insert_ne; [reflexivity|].
      intros <-; apply Hk; apply list_elem_of_In; cbn; tauto. }
    repeat split. exact Hspec.
Qed.

End Fonts.

(** ** The production script from end to end *)

Section ProductionScript.
Import LinearProgrammingDemo ProductionReference ProductionFigures.

Lemma visualize_after_solve (d : ProductionData) (a : assignment) (h : gmap nat (list Q)) :
  sound_data d ->
  let r := results_for d a in
  visualize_results (mkState h (Some r))
    = ([EvPlot "资源利用率分析" [(labor_used r / labor_available r * 100)%Q;
                                 (material_used r / material_available r * 100)%Q];
        EvSaveFig chart_file; EvPrint "✅ 可视化图表已保存" []],
       mkState h (Some r), Ok tt).
Proof.
  intros (_ & _ & _ & _ & _ & _ & Hlc & Hmc) r.
  unfold visualize_results, utilization. cbv [mbind Run_bind get lift emit].
  cbn [results]. cbv [mbind result_bind].
  cbn [labor_used material_used labor_available material_available r results_for].
  rewrite (py_div_ok _ (d_labor_available d)) by lra.
  rewrite (py_div_ok _ (d_material_available d)) by lra. reflexivity.
Qed.

Lemma report_after_solve (d : ProductionData) (a : assignment) (s : State) :
  sound_data d ->
  let r := results_for d a in
  results s = Some r ->
  generate_report s
    = ([EvPrint "  • 最大利润" [max_profit r];
        EvPrint "  • 劳动力利用率" [(labor_used r / labor_available r * 100)%Q];
        EvPrint "  • 原材料利用率" [(material_used r / material_available r * 100)%Q]],
       s, Ok tt).
Proof.
  intros (_ & _ & _ & _ & _ & _ & Hlc & Hmc) r Hr.
  unfold generate_report, utilization. cbv [mbind Run_bind get lift emit].
  rewrite Hr. cbv [mbind result_bind].
  cbn [labor_used material_used labor_available material_available r results_for].
  rewrite (py_div_ok _ (d_labor_available d)) by lra.
  rewrite (py_div_ok _ (d_material_available d)) by lra. reflexivity.
Qed.

(** X25.  The linear-programming script runs to its end whatever the
    solver answers: the baseline solve, the chart, the twelve variants
    and the report raise nothing, and [main] returns nothing.  Its last
    two lines print the solution and the profit of the baseline solve,
    which are still what the object stores at the end, with the profit
    list as it was; before them it invokes the solver 13 times and writes
    the chart file once.  On the object it leaves, the figures of the
    profit panel are computed without an error and the report's closing
    line names 产品C, at 50 a unit. *)
Theorem X25_production_script_runs_to_its_end (solver : Solver) :
  exists tr s r,
    main solver init
      = (tr ++ [EvPrint "最优解" (solution r); EvPrint "最大利润" [max_profit r]],
         s, Ok tt) /\
    results s = Some r /\
    solution r = plan_of (solver demo_problem) /\
    max_profit r = value (solver demo_problem) (objective demo_problem) /\
    heap s !! profit r = Some (d_profit demo_data) /\
    length (solved_models tr) = 13%nat /\ charts tr = [chart_file] /\
    (exists cs shares,
       profit_contribution r s = ([], s, Ok cs) /\ percentages cs = Ok shares) /\
    most_profitable r s = ([EvPrint (highest_profit +:+ "产品C") [50%Q]], s, Ok tt).
Proof.
  pose proof (solve_on_run demo_data solver demo_sound) as Hsolve. cbv zeta in Hsolve.
  change (model_for demo_data) with demo_problem in *.
  set (a := solver demo_problem) in *. set (r := results_for demo_data a) in *.
  set (s1 := mkState {[ 0%nat := d_profit demo_data ]} (Some r)) in *.
  pose proof (visualize_after_solve demo_data a {[ 0%nat := d_profit demo_data ]} demo_sound)
    as Hvis. cbv zeta in Hvis. fold r s1 in Hvis.
  assert (Hwf : well_formed s1 r (d_profit demo_data)).
  { repeat split; first [reflexivity | apply lookup_singleton_eq]. }
  destruct (sensitivity_analysis_run solver s1 r _ Hwf) as (s2 & Hsens & Hres & Hheap).
  pose proof (report_after_solve demo_data a s2 demo_sound) as Hrep. cbv zeta in Hrep.
  fold r in Hrep. specialize (Hrep Hres).
  destruct (solved_models_variants solver r (d_profit demo_data) (variant_grid 3))
    as (M1 & _ & _ & M4). cbn zeta in M1, M4.
  assert (Hret : (emit (EvPrint "最优解" (plan_of a)) ;;
                  emit (EvPrint "最大利润" [max_profit r]) : Run State unit) s2
                 = ([EvPrint "最优解" (plan_of a); EvPrint "最大利润" [max_profit r]],
                    s2, Ok tt)) by reflexivity.
  pose proof (run_seq _ (fun _ => emit (EvPrint "最优解" (plan_of a)) ;;
                                   emit (EvPrint "最大利润" [max_profit r]))
                _ _ _ _ _ _ _ Hrep Hret) as H4.
  pose proof (run_seq _ (fun _ => generate_report ;;
                                   emit (EvPrint "最优解" (plan_of a)) ;;
                                   emit (EvPrint "最大利润" [max_profit r]))
                _ _ _ _ _ _ _ Hsens H4) as H3.
  pose proof (run_seq _ (fun _ => sensitivity_analysis solver ;; generate_report ;;
                                   emit (EvPrint "最优解" (plan_of a)) ;;
                                   emit (EvPrint "最大利润" [max_profit r]))
                _ _ _ _ _ _ _ Hvis H3) as H2.
  pose proof (run_seq _ (fun sm => visualize_results ;; sensitivity_analysis solver ;;
                                    generate_report ;;
                                    emit (EvPrint "最优解" (fst sm)) ;;
                                    emit (EvPrint "最大利润" [snd sm]))
                _ _ _ _ _ _ _ Hsolve H2) as H1.
  change (solve_production_planning_on demo_data solver ≫= _) with (main solver) in H1.
  rewrite !app_assoc in H1.
  eexists _, s2, r. split; [exact H1|].
  split; [exact Hres|]. split; [reflexivity|]. split; [reflexivity|].
  assert (Hprofit : heap s2 !! profit r = Some (d_profit demo_data))
    by (eapply lookup_weaken; [apply lookup_singleton_eq | exact Hheap]).
  split; [exact Hprofit|].
  unfold solved_models, charts in *.
  split; [rewrite !omap_app, M1; rewrite !length_app, length_map; reflexivity|].
  split; [rewrite !omap_app, M4; reflexivity|].
  split.
  - destruct (percentages_total
                (map (fun i => nth i (d_profit demo_data) 0 * a (x_name i))%Q (seq 0 3)))
      as (shares & Hsh & _).
    eexists _, shares. split; [|exact Hsh].
    unfold profit_contribution, load. cbv [mbind Run_bind lift]. rewrite Hprofit.
    reflexivity.
  - unfold most_profitable, load. cbv [mbind Run_bind lift emit]. rewrite Hprofit.
    reflexivity.
Qed.

End ProductionScript.

(** ** The network script from end to end *)

Section NetworkScript.
Import NetworkFlowDemo FlowReference PathReference NetworkFigures.

(** The run of [solve_shortest_path_problem] on any object. *)
Lemma solve_shortest_path_at (nx : Library) (G : Graph) (pd : list PathDetail) (t : Z)
    (s : State) :
  walk G (shortest_path nx G "起点" "终点") 0 = Ok (pd, t) ->
  solve_shortest_path_problem_on G nx s =
    ([EvGraph "shortest_path"; EvGraph "shortest_path_length";
      EvMetric "all_pairs_shortest_path_length"; EvMetric "diameter";
      EvMetric "average_shortest_path_length"],
     mkState (max_flow s) (min_cost_flow s)
       (Some (mkShortestPath G (shortest_path nx G "起点" "终点")
                (shortest_path_length nx G "起点" "终点") pd))
       (graph_max_flow s) (Some G),
     Ok (shortest_path nx G "起点" "终点", shortest_path_length nx G "起点" "终点")).
Proof.
  intros Hw. unfold solve_shortest_path_problem_on.
  cbv [mbind Run_bind emit lift mret Run_ret set_shortest_path].
  rewrite Hw. reflexivity.
Qed.

(** The chart of an object that holds a valid maximum flow and
    indicators with a positive maximum. *)
Lemma visualize_total (s : State) (r : MaxFlow) (f : flow) (v : Q) (vs : list Q) :
  max_flow s = Some r -> mf_graph r = flow_network ->
  mf_flow_dict r = dict_of flow_network f -> is_flow flow_network "S" "T" f ->
  indicators s = v :: vs -> (0 < py_max v vs)%Q ->
  exists t, visualize_results s = (t, s, Ok tt).
Proof.
  intros Hr HG Hd Hf Hi Hpos.
  destruct (flow_panels_in_range flow_network f "S" "T" r eq_refl
              flow_network_edges_join_nodes flow_network_positioned Hf HG Hd)
    as (ws & us & Hws & _ & Hus & _).
  destruct (normalized_by_largest v vs) as (_ & _ & Hn). destruct (Hn Hpos) as (Hnorm & _).
  unfold visualize_results. cbv [mbind Run_bind get emit lift mret Run_ret].
  assert (Hnr : no_results s = false) by (unfold no_results; now rewrite Hr).
  rewrite Hnr, Hr, HG, (draw_nodes_positioned _ flow_network_positioned).
  rewrite Hws, Hus, Hi, Hnorm. eexists. reflexivity.
Qed.

(** The report of an object whose cost details carry something. *)
Lemma report_total (s : State) :
  (forall r, min_cost_flow s = Some r -> Forall (fun d => 0 < cd_flow d)%Q (cost_details r)) ->
  exists t, generate_report s = (t, s, Ok tt).
Proof.
  intros Hpos. unfold generate_report. cbv [mbind Run_bind get emit lift mret Run_ret].
  destruct (no_results s); [eexists; reflexivity|].
  destruct (max_flow s) as [mf|], (shortest_path_result s) as [sp|],
    (min_cost_flow s) as [mc|] eqn:Emc; try (eexists; reflexivity);
    (destruct (cost_details mc) as [|d ds] eqn:Ecd; [eexists; reflexivity|]);
    (rewrite py_div_ok; [eexists; reflexivity|]);
    (assert (0 < py_sum (map cd_flow (d :: ds)))%Q; [|lra]);
    (apply py_sum_pos; [discriminate|]);
    apply Forall_map; rewrite <- Ecd; now apply Hpos.
Qed.

Lemma analysis_total (s : State) : exists t, network_analysis s = (t, s, Ok tt).
Proof.
  unfold network_analysis, analyse. cbv [mbind Run_bind get emit lift mret Run_ret].
  destruct (no_graphs s), (graph_max_flow s), (graph_shortest_path s); eexists; reflexivity.
Qed.

(** X26.  When NetworkX returns a maximum flow of the water network and
    a shortest route of the road network with its length, the network
    script runs to its end whatever the LP solver answers: no modelled
    step raises and [main] returns nothing.  Its last three lines print
    the maximum flow 23, the cost the LP solver gave and the distance 32;
    before them the chart file is written once, with no solver invoked
    after it, and results and graphs are stored. *)
Theorem X26_network_script_runs_to_its_end (nx : Library) (solver : Solver) :
  returns_maximum_flow nx flow_network "S" "T" ->
  returns_shortest_path nx road_network "起点" "终点" ->
  returns_shortest_length nx road_network "起点" "终点" ->
  exists tr s,
    main nx solver init
      = (tr ++ [EvPrint "最大流量" [23%Q];
                EvPrint "最小运输成本" [value (solver mcf_model) (objective mcf_model)];
                EvPrint "最短路径距离" [32%Q]],
         s, Ok tt) /\
    charts tr = [chart_file] /\ chart_after_solves false tr = true /\
    no_results s = false /\ no_graphs s = false.
Proof.
  intros (f & Hf & Hret & Hmax) (w & Hp & Hpmin) ((q & Hq) & Hqmin).
  assert (Hv : flow_value flow_network f "S" = 23%Z).
  { pose proof (flow_value_bound f Hf).
    pose proof (Hmax _ demo_flow_is_flow) as Hge. rewrite demo_flow_value in Hge. lia. }
  rewrite Hv in Hret.
  assert (Hwd : w = shortest_path_length nx road_network "起点" "终点").
  { pose proof (Hpmin _ _ Hq). pose proof (Hqmin _ _ Hp). lia. }
  assert (Hdist : shortest_path_length nx road_network "起点" "终点" = 32%Z).
  { pose proof (Hqmin _ _ demo_path_simple). pose proof (shortest_is_32 _ _ Hq). lia. }
  destruct Hp as (_ & _ & Hw).
  destruct (walk_weight _ _ 0%Z _ Hw) as [pd Hpd]. rewrite Z.add_0_l in Hpd.
  destruct (flow_details_records flow_network f "S" "T" eq_refl Hf) as (ds & Hds & _).
  pose proof (solve_max_flow_run nx flow_network _ _ ds Hret Hds) as H1.
  match type of H1 with _ = (_, ?s, _) => set (s1 := s) in * end.
  pose proof (solve_min_cost_flow_run solver s1) as H2. cbv zeta in H2.
  match type of H2 with _ = (_, ?s, _) => set (s2 := s) in * end.
  pose proof (solve_shortest_path_at nx road_network pd _ s2 Hpd) as H3.
  rewrite Hdist in H3.
  match type of H3 with _ = (_, ?s, _) => set (s3 := s) in * end.
  set (a := solver mcf_model) in *.
  destruct (visualize_total s3 _ f 23 [value a (objective mcf_model); 32]%Q
              eq_refl eq_refl eq_refl Hf eq_refl) as (t4 & H4).
  { destruct (py_max_spec [value a (objective mcf_model); 32]%Q 23) as [_ Hall].
    apply Forall_cons in Hall as [H23 _]. lra. }
  destruct (analysis_total s3) as (t5 & H5).
  destruct (report_total s3) as (t6 & H6).
  { intros r Hr. injection Hr as <-. cbn [cost_details].
    apply Forall_kept. intros t _ Hpos. now apply py_gt_iff in Hpos. }
  set (closing := fun (mf : Z) (mc : Q) (sp : Z) =>
         (emit (EvPrint "最大流量" [inject_Z mf]) ;;
          emit (EvPrint "最小运输成本" [mc]) ;;
          emit (EvPrint "最短路径距离" [inject_Z sp]) : Run State unit)).
  assert (Hret' : closing 23%Z (value a (objective mcf_model)) 32%Z s3
                  = ([EvPrint "最大流量" [23%Q];
                      EvPrint "最小运输成本" [value a (objective mcf_model)];
                      EvPrint "最短路径距离" [32%Q]], s3, Ok tt)) by reflexivity.
  pose proof (run_seq _ (fun _ => closing 23%Z (value a (objective mcf_model)) 32%Z)
                _ _ _ _ _ _ _ H6 Hret') as R6.
  pose proof (run_seq _ (fun _ => generate_report ;;
                                   closing 23%Z (value a (objective mcf_model)) 32%Z)
                _ _ _ _ _ _ _ H5 R6) as R5.
  pose proof (run_seq _ (fun _ => network_analysis ;; generate_report ;;
                                   closing 23%Z (value a (objective mcf_model)) 32%Z)
                _ _ _ _ _ _ _ H4 R5) as R4.
  pose proof (run_seq _ (fun sp => visualize_results ;; network_analysis ;; generate_report ;;
                                    closing 23%Z (value a (objective mcf_model)) (snd sp))
                _ _ _ _ _ _ _ H3 R4) as R3.
  pose proof (run_seq _ (fun mc => sp ← solve_shortest_path_problem nx;
                                   visualize_results ;; network_analysis ;; generate_report ;;
                                   closing 23%Z (fst mc) (snd sp))
                _ _ _ _ _ _ _ H2 R3) as R2.
  pose proof (run_seq _ (fun mf => mc ← solve_min_cost_flow_problem solver;
                                   sp ← solve_shortest_path_problem nx;
                                   visualize_results ;; network_analysis ;; generate_report ;;
                                   closing (fst mf) (fst mc) (snd sp))
                _ _ _ _ _ _ _ H1 R2) as R1.
  change (solve_max_flow_problem_on flow_network nx ≫= _) with (main nx solver) in R1.
  rewrite !app_assoc in R1.
  eexists _, s3. split; [exact R1|].
  pose proof (network_main_chart nx solver) as [Hafter Hcharts].
  rewrite R1 in Hafter, Hcharts. cbn [trace_of value_of fst snd] in Hafter, Hcharts.
  split.
  - destruct Hcharts as [Hc|[_ [e He]]]; [|discriminate He].
    rewrite charts_app in Hc. cbn [charts omap] in Hc. now rewrite app_nil_r in Hc.
  - split; [exact (chart_after_prefix _ _ _ Hafter)|]. split; reflexivity.
Qed.

Lemma X26_network_script_runs_to_its_end_witness :
  returns_maximum_flow demo_library flow_network "S" "T" /\
  returns_shortest_path demo_library road_network "起点" "终点" /\
  returns_shortest_length demo_library road_network "起点" "终点" /\
  exists tr s,
    main demo_library mcf_best_solver init
      = (tr ++ [EvPrint "最大流量" [23%Q];
                EvPrint "最小运输成本"
                  [value (mcf_best_solver mcf_model) (objective mcf_model)];
                EvPrint "最短路径距离" [32%Q]],
         s, Ok tt) /\
    charts tr = [chart_file] /\ chart_after_solves false tr = true /\
    no_results s = false /\ no_graphs s = false.
Proof.
  split; [exact demo_library_maximum_flow|].
  split; [exact demo_library_shortest_path|].
  split; [exact demo_library_shortest_length|].
  exact (X26_network_script_runs_to_its_end demo_library mcf_best_solver
           demo_library_maximum_flow demo_library_shortest_path
           demo_library_shortest_length).
Defined.

End NetworkScript.

(** ** The transportation script from end to end *)

Section TransportScript.
Import TransportationProblemDemo TransportReference TransportFigures.

Lemma both_plans_demo : feasible demo_model both_plans.
Proof.
  split.
  - let v := eval vm_compute in (variables demo_model) in
      change (variables demo_model) with v.
    repeat constructor; cbn; discriminate.
  - let c := eval vm_compute in (constraints demo_model) in
      change (constraints demo_model) with c.
    repeat constructor.
Qed.

Lemma both_plans_multi : feasible mp_model both_plans.
Proof.
  split.
  - let v := eval vm_compute in (variables mp_model) in
      change (variables mp_model) with v.
    repeat constructor; cbn; discriminate.
  - let c := eval vm_compute in (constraints mp_model) in
      change (constraints mp_model) with c.
    repeat constructor; unfold holds; cbn; discriminate.
Qed.

Lemma demo_scenario_feasible (solver : Solver) :
  feasible demo_model (solver demo_model) ->
  forall sc' p, build demo_scenario = Ok (sc', p) -> feasible p (solver p).
Proof. intros H sc' p. rewrite build_demo. intros E. injection E as <- <-. exact H. Qed.

(** The chart of the object that has solved both problems of the script. *)
Lemma visualize_after_solves (b : Basic) (m : Multi) :
  chart_factories b = factories demo_scenario ->
  chart_warehouses b = warehouses demo_scenario ->
  (exists a, route_details b = routes_kept demo_scenario a) ->
  Forall carries3 (m_route_details m) ->
  exists widths shares eff,
    visualize_results (mkState (Some b) (Some m))
      = ([EvPlot "运输网络图" widths; EvPlot "各产品运输成本对比" shares;
          EvPlot "产品运输效率 (元/单位)" eff; EvSaveFig chart_file;
          EvPrint "✅ 可视化图表已保存" []], mkState (Some b) (Some m), Ok tt) /\
    Forall (fun w => 1 < w <= 6)%Q widths.
Proof.
  intros Hf Hw [a Hr] Hc.
  destruct (route_network_placed b) as (widths & Hws & Hrange).
  { intros d Hd _. rewrite Hr in Hd. rewrite Hf, Hw.
    destruct (stored_route_places demo_scenario a d Hd) as [H1 H2].
    split; apply elem_of_app; [now left | now right]. }
  destruct (panels_of_carrying_routes m Hc) as (shares & eff & Hsh & Heff & _).
  exists widths, shares, eff. split; [|exact Hrange].
  unfold visualize_results. cbv [mbind Run_bind get emit lift mret Run_ret].
  unfold no_results. cbn [basic multi_product]. rewrite Hws, Hsh, Heff. reflexivity.
Qed.

(** X27.  When the solver's plans for both problems are feasible, the
    transportation script runs to its end: no modelled step raises (every
    route of the chart joins a factory and a warehouse of the data, the
    report divides by the 1200 tons shipped and by a positive cost) and
    [main] returns nothing.  Its last two lines print the two costs the
    solver gave; before them the two models are solved and the chart file
    is written once, with no solver invoked after it. *)
Theorem X27_transport_script_runs_to_its_end (solver : Solver) :
  feasible demo_model (solver demo_model) ->
  feasible mp_model (solver mp_model) ->
  exists tr s,
    main solver init
      = (tr ++ [EvPrint "基础运输最小成本" [value (solver demo_model) (objective demo_model)];
                EvPrint "多产品运输最小成本" [value (solver mp_model) (objective mp_model)]],
         s, Ok tt) /\
    charts tr = [chart_file] /\ chart_after_solves false tr = true /\
    solved_models tr = [demo_model; mp_model].
Proof.
  intros Hf1 [Hb2 _].
  destruct (solve_basic_run demo_scenario solver init demo_solvable)
    as (sc' & p & Hb & _ & _ & _ & H1).
  rewrite build_demo in Hb. injection Hb as <- <-.
  destruct (total_quantity_of_feasible demo_scenario solver init demo_solvable
              (demo_scenario_feasible solver Hf1)) as (tr1 & s1' & b & v1 & H1' & Hb1 & Htotal).
  match type of H1 with _ = (_, ?s, _) => set (s1 := s) in * end.
  assert (Hs1 : s1' = s1 /\ tr1 = [EvSolve demo_model]).
  { pose proof H1 as E. rewrite H1' in E. now injection E. }
  destruct Hs1 as [-> ->]. cbn [basic s1] in Hb1. injection Hb1 as <-.
  cbn [route_details] in Htotal.
  change (inject_Z (Z.max (py_sumZ (supply demo_scenario)) (py_sumZ (demand demo_scenario))))
    with 1200%Q in Htotal.
  pose proof (solve_multi_product_run solver s1) as H2. cbv zeta in H2.
  set (a1 := solver demo_model) in *. set (a2 := solver mp_model) in *.
  match type of H2 with _ = (_, ?s, _) => set (s2 := s) in * end.
  destruct (visualize_after_solves
              (mkBasic (factories demo_scenario) (warehouses demo_scenario)
                 (warehouses demo_scenario) (supply demo_scenario) (demand demo_scenario)
                 (demand demo_scenario) (cost_matrix demo_scenario)
                 (solution_of demo_scenario a1) (value a1 (objective demo_model))
                 (routes_kept demo_scenario a1))
              (mkMulti (value a2 (objective mp_model)) (multi_routes_kept a2))
              eq_refl eq_refl (ex_intro _ a1 eq_refl) (multi_routes_carry a2))
    as (widths & shares & eff & H3 & _).
  change (mkState _ _) with s2 in H3.
  pose proof (cost_sensitivity_analysis_run s2 _ eq_refl) as H4.
  assert (H5 : exists t, generate_report s2 = (t, s2, Ok tt) /\ solved_models t = []).
  { pose proof (multi_routes_account a2 Hb2) as Hacc.
    pose proof (multi_routes_carry a2) as Hcarry.
    assert (Hfe : for_each (product_costs (multi_routes_kept a2))
                    (fun pc => q ← lift (py_div (snd pc) (value a2 (objective mp_model)));
                               emit (EvPrint (fst pc) [snd pc; (q * 100)%Q])) s2
                  = (map (fun pc => EvPrint (fst pc)
                                      [snd pc; (snd pc / value a2 (objective mp_model) * 100)%Q])
                         (product_costs (multi_routes_kept a2)), s2, Ok tt)).
    { destruct (multi_routes_kept a2) as [|r rs] eqn:E; [reflexivity|].
      apply report_lines.
      assert (0 < py_sum (map mr_total_cost (r :: rs)))%Q; [|lra].
      apply py_sum_pos; [discriminate|].
      apply Forall_map. eapply Forall_impl; [exact Hcarry|]. apply carries3_cost. }
    assert (Hrb : exists t, report_basic s2 s2 = (t, s2, Ok tt) /\ solved_models t = []).
    { unfold report_basic. cbn [basic s2 s1]. cbv zeta.
      cbv [mbind Run_bind emit lift mret Run_ret]. cbn [min_cost route_details].
      rewrite py_div_ok by lra. eexists. split; reflexivity. }
    destruct Hrb as (tb & Hrb & Hqb).
    assert (Hrm : report_multi s2 s2
                  = (EvPrint "  • 最小运输成本" [value a2 (objective mp_model)]
                       :: map (fun pc => EvPrint (fst pc)
                                 [snd pc; (snd pc / value a2 (objective mp_model) * 100)%Q])
                              (product_costs (multi_routes_kept a2)), s2, Ok tt)).
    { unfold report_multi. cbn [multi_product s2 m_min_cost m_route_details].
      exact (run_seq (emit (EvPrint "  • 最小运输成本" [value a2 (objective mp_model)])) _
               s2 s2 s2 _ _ tt _ eq_refl Hfe). }
    pose proof (run_seq _ (fun _ => report_multi s2) _ _ _ _ _ _ _ Hrb Hrm) as Hboth.
    eexists. split.
    { unfold generate_report.
      exact (run_seq get _ s2 s2 s2 [] _ s2 _ eq_refl Hboth). }
    unfold solved_models in *. rewrite !omap_app, Hqb.
    generalize (product_costs (multi_routes_kept a2)). intros l.
    induction l as [|pc l IH]; [reflexivity|exact IH]. }
  destruct H5 as (t5 & H5 & Hq5).
  set (closing := fun (c1 c2 : Q) =>
         (emit (EvPrint "基础运输最小成本" [c1]) ;;
          emit (EvPrint "多产品运输最小成本" [c2]) : Run State unit)).
  assert (Hret : closing (value a1 (objective demo_model)) (value a2 (objective mp_model)) s2
                 = ([EvPrint "基础运输最小成本" [value a1 (objective demo_model)];
                     EvPrint "多产品运输最小成本" [value a2 (objective mp_model)]],
                    s2, Ok tt)) by reflexivity.
  pose proof (run_seq _ (fun _ => closing (value a1 (objective demo_model))
                                          (value a2 (objective mp_model)))
                _ _ _ _ _ _ _ H5 Hret) as R5.
  pose proof (run_seq _ (fun _ => generate_report ;;
                                   closing (value a1 (objective demo_model))
                                           (value a2 (objective mp_model)))
                _ _ _ _ _ _ _ H4 R5) as R4.
  pose proof (run_seq _ (fun _ => cost_sensitivity_analysis ;; generate_report ;;
                                   closing (value a1 (objective demo_model))
                                           (value a2 (objective mp_model)))
                _ _ _ _ _ _ _ H3 R4) as R3.
  pose proof (run_seq _ (fun mm => visualize_results ;; cost_sensitivity_analysis ;;
                                    generate_report ;;
                                    closing (value a1 (objective demo_model)) mm)
                _ _ _ _ _ _ _ H2 R3) as R2.
  pose proof (run_seq _ (fun sm => mm ← solve_multi_product_transportation solver;
                                   visualize_results ;; cost_sensitivity_analysis ;;
                                   generate_report ;; closing (snd sm) mm)
                _ _ _ _ _ _ _ H1 R2) as R1.
  change (solve_basic_transportation_on demo_scenario solver ≫= _) with (main solver) in R1.
  rewrite !app_assoc in R1.
  eexists _, s2. split; [exact R1|].
  pose proof (transport_main_chart solver) as [Hafter Hcharts].
  rewrite R1 in Hafter, Hcharts. cbn [trace_of value_of fst snd] in Hafter, Hcharts.
  split.
  { destruct Hcharts as [Hc|[_ [e He]]]; [|discriminate He].
    rewrite charts_app in Hc. cbn [charts omap] in Hc. now rewrite app_nil_r in Hc. }
  split; [exact (chart_after_prefix _ _ _ Hafter)|].
  unfold solved_models in Hq5 |- *. rewrite !omap_app, Hq5.
  cbn [omap app].
  assert (Hest : forall b rs, omap (fun e => match e with EvSolve p => Some p | _ => None end)
            (flat_map (fun route => map (estimate b route) cost_changes) rs) = []).
  { intros b' rs. induction rs as [|r rs IH]; [reflexivity|].
    cbn [flat_map]. rewrite omap_app, IH. reflexivity. }
  rewrite Hest. reflexivity.
Qed.

Lemma X27_transport_script_runs_to_its_end_witness :
  feasible demo_model (both_solver demo_model) /\
  feasible mp_model (both_solver mp_model) /\
  exists tr s,
    main both_solver init
      = (tr ++ [EvPrint "基础运输最小成本"
                  [value (both_solver demo_model) (objective demo_model)];
                EvPrint "多产品运输最小成本"
                  [value (both_solver mp_model) (objective mp_model)]],
         s, Ok tt) /\
    charts tr = [chart_file] /\ chart_after_solves false tr = true /\
    solved_models tr = [demo_model; mp_model].
Proof.
  split; [exact both_plans_demo|]. split; [exact both_plans_multi|].
  exact (X27_transport_script_runs_to_its_end both_solver both_plans_demo both_plans_multi).
Defined.

End TransportScript.
